(** * Trip and market agents: tool orchestration, trace recording, fallbacks

    A shallow embedding of the Python sources

      - utils/trace.py        (ToolCall, MCPTrace)
      - utils/llm.py          (_ask_groq, _ask_gemini, ask_gemini)
      - utils/fallbacks.py    (the three fallback tables and their getters)
      - tools/*.py            (the nine tool adapters)
      - utils/agent_trip.py, utils/agent_market.py (the two pipelines)

    Python values are embedded as the inductive type [value]; dictionaries are
    association lists in insertion order; a call that may raise returns an
    [outcome]; the mutable objects of a pipeline run (trace, results) and the
    process-wide state (generator of the random module, clock) are threaded
    through a state-and-exception monad. *)

From Stdlib Require Import ZArith QArith Qround String Ascii List Bool Lia.
From Stdlib Require Import DecimalString Sorted Permutation.
From stdpp Require Import base list strings.

Import ListNotations.
Open Scope string_scope.
Open Scope Z_scope.

(** ** Python values *)

#[warnings="-register-all"]
Inductive value : Type :=
| VNone
| VBool (b : bool)
| VInt (z : Z)
| VFloat (q : Q)
| VStr (s : string)
| VList (l : list value)
| VDict (d : list (string * value)).

(** A [dict] with string keys, in insertion order. *)
Definition dict : Type := list (string * value).

(** What a call does: it returns a value or raises an [Exception] whose
    [str(e)] is [msg]. *)
Inductive outcome (A : Type) : Type :=
| Returned (a : A)
| Raised (msg : string).
Arguments Returned {A} a.
Arguments Raised {A} msg.

Definition outcome_bind {A B} (o : outcome A) (k : A -> outcome B) : outcome B :=
  match o with
  | Returned a => k a
  | Raised msg => Raised msg
  end.

#[global] Instance outcome_ret : MRet outcome := @Returned.
#[global] Instance outcome_mbind : MBind outcome := fun A B k o => outcome_bind o k.

(** [try: body except Exception as e: handler(str(e))]. *)
Definition try_except {A} (body : outcome A) (handler : string -> outcome A)
  : outcome A :=
  match body with
  | Returned a => Returned a
  | Raised msg => handler msg
  end.

(** *** Dictionaries *)

(** [k in d] and [d.get(k)]. *)
Fixpoint dict_get (k : string) (d : dict) : option value :=
  match d with
  | [] => None
  | (k', v) :: d' => if String.eqb k k' then Some v else dict_get k d'
  end.

Definition dict_has (k : string) (d : dict) : bool :=
  match dict_get k d with Some _ => true | None => false end.

(** [d.get(k, default)]. *)
Definition dict_get_default (k : string) (default : value) (d : dict) : value :=
  match dict_get k d with Some v => v | None => default end.

(** [d[k] = v]: an existing key keeps its position, a new key goes last. *)
Fixpoint dict_set (k : string) (v : value) (d : dict) : dict :=
  match d with
  | [] => [(k, v)]
  | (k', v') :: d' =>
      if String.eqb k k' then (k', v) :: d' else (k', v') :: dict_set k v d'
  end.

(** The display [{**d1, **d2}]. *)
Definition dict_merge (d1 d2 : dict) : dict :=
  fold_left (fun acc kv => dict_set (fst kv) (snd kv) acc) d2 d1.

(** *** Strings

    A [str] is embedded as the string of the bytes of its UTF-8 encoding.
    Case conversion, whitespace and digit tests act on the ASCII range and
    leave every other byte alone; a slice counts bytes.  On ASCII text this
    is what Python does.  On other text [str.lower] and [str.strip] also act
    on letters and white space outside ASCII (U+212A, U+00A0), so a name
    with such characters may select another table entry than it does here:
    what is stated about a lookup by name is stated for ASCII names, or
    holds whichever entry is selected. *)

Definition ascii_in (lo hi : nat) (c : ascii) : bool :=
  let n := nat_of_ascii c in (Nat.leb lo n) && (Nat.leb n hi).

Definition lower_ascii (c : ascii) : ascii :=
  if ascii_in 65 90 c then ascii_of_nat (nat_of_ascii c + 32) else c.

Definition upper_ascii (c : ascii) : ascii :=
  if ascii_in 97 122 c then ascii_of_nat (nat_of_ascii c - 32) else c.

Fixpoint str_map (f : ascii -> ascii) (s : string) : string :=
  match s with
  | EmptyString => EmptyString
  | String c s' => String (f c) (str_map f s')
  end.

(** [s.lower()] and [s.upper()]. *)
Definition lower (s : string) : string := str_map lower_ascii s.
Definition upper (s : string) : string := str_map upper_ascii s.

(** [c.isspace()]: tab, line feed, vertical tab, form feed, carriage return,
    the four separators 28..31 and the space. *)
Definition is_space (c : ascii) : bool :=
  ascii_in 9 13 c || ascii_in 28 32 c.

Definition is_digit (c : ascii) : bool := ascii_in 48 57 c.

Fixpoint lstrip (s : string) : string :=
  match s with
  | EmptyString => EmptyString
  | String c s' => if is_space c then lstrip s' else s
  end.

Definition str_rev (s : string) : string :=
  string_of_list_ascii (rev (list_ascii_of_string s)).

Definition rstrip (s : string) : string := str_rev (lstrip (str_rev s)).

(** [s.strip()]. *)
Definition strip (s : string) : string := rstrip (lstrip s).

(** [s[:n]]. *)
Fixpoint str_take (n : nat) (s : string) : string :=
  match n, s with
  | O, _ => EmptyString
  | _, EmptyString => EmptyString
  | S n', String c s' => String c (str_take n' s')
  end.

(** [s.startswith(p)]. *)
Definition startswith (p s : string) : bool := String.prefix p s.

(** [sep.join(l)]. *)
Definition join (sep : string) (l : list string) : string := String.concat sep l.

(** [str(z)] for an [int]. *)
Definition str_of_int (z : Z) : string := NilZero.string_of_int (Z.to_int z).

(** [f"{z:02d}"]: zero padded to two characters. *)
Definition fmt_02d (z : Z) : string :=
  let s := str_of_int z in
  if Nat.ltb (String.length s) 2 then "0" ++ s else s.

(** [s.split(c)] for a one-character separator: never empty. *)
Fixpoint split_on (c : ascii) (s : string) : list string :=
  match s with
  | EmptyString => [EmptyString]
  | String a s' =>
      if Ascii.eqb a c then EmptyString :: split_on c s'
      else match split_on c s' with
           | [] => [String a EmptyString]
           | w :: ws => String a w :: ws
           end
  end.

(** [s.split(c, 1)[-1]]: what follows the first [c], or [s] without one. *)
Fixpoint after_first (c : ascii) (s : string) : option string :=
  match s with
  | EmptyString => None
  | String a s' => if Ascii.eqb a c then Some s' else after_first c s'
  end.

Definition split1_last (c : ascii) (s : string) : string :=
  match after_first c s with Some r => r | None => s end.

(** [s.replace(old, "")] for a non-empty [old]. *)
Fixpoint str_drop (n : nat) (s : string) : string :=
  match n, s with
  | O, _ => s
  | _, EmptyString => EmptyString
  | S n', String _ s' => str_drop n' s'
  end.

Fixpoint remove_all_fuel (fuel : nat) (old s : string) : string :=
  match fuel with
  | O => s
  | S fuel' =>
      match s with
      | EmptyString => EmptyString
      | String c s' =>
          if String.prefix old s
          then remove_all_fuel fuel' old (str_drop (String.length old) s)
          else String c (remove_all_fuel fuel' old s')
      end
  end.

Definition remove_all (old s : string) : string :=
  remove_all_fuel (S (String.length s)) old s.

(** Truth value of an [Optional[str]]: [None] and the empty string are false. *)
Definition truthy_str (o : option string) : bool :=
  match o with
  | Some (String _ _) => true
  | _ => false
  end.


(** *** Floats

    A [float] is embedded as the rational it stands for.  [round(x, 1)] and
    [round(x, 2)] round to the nearest multiple of 1/10 and 1/100, ties to
    even. *)

Definition round_half_even (q : Q) : Z :=
  let n := Qfloor q in
  let frac := (q - inject_Z n)%Q in
  match Qcompare frac (1 # 2) with
  | Lt => n
  | Gt => n + 1
  | Eq => if Z.even n then n else n + 1
  end.

Definition py_round (digits : positive) (q : Q) : Q :=
  let scale := Pos.pow 10 digits in
  Qmake (round_half_even (q * inject_Z (Zpos scale))%Q) scale.

(** ** utils/trace.py *)

(** [ToolCall]: one recorded tool invocation.  [status] is one of the
    strings pending, success and error. *)
Record ToolCall : Type := mkToolCall {
  tool_name : string;
  inputs : dict;
  output : value;
  status : string;
  timestamp : Q;
  duration_ms : Q;
  error : option string;
}.

(** [MCPTrace]: the object holding the list [calls]. *)
Record MCPTrace : Type := mkTrace { calls : list ToolCall }.

(** [MCPTrace()]. *)
Definition new_trace : MCPTrace := mkTrace [].

(** [seq[i]] for an [int] index: a negative index counts from the end;
    [None] stands for the IndexError. *)
Definition py_index {A} (l : list A) (i : Z) : option nat :=
  let n := Z.of_nat (length l) in
  if (0 <=? i) && (i <? n) then Some (Z.to_nat i)
  else if (- n <=? i) && (i <? 0) then Some (Z.to_nat (n + i))
  else None.

(** [start_call]: the dataclass defaults give output [None], status pending,
    duration 0.0 and no error; [now] is what [time.time()] answers when the
    record is built.  The index returned is [len(self.calls) - 1]. *)
Definition start_call (now : Q) (name : string) (kwargs : dict) (t : MCPTrace)
  : Z * MCPTrace :=
  let call := mkToolCall name kwargs VNone "pending" now 0 None in
  let calls' := (calls t ++ [call])%list in
  (Z.of_nat (length calls') - 1, mkTrace calls').

(** [end_call]: [now] is what [time.time()] answers while the duration is
    computed.  [self.calls[index]] raises IndexError out of range. *)
Definition finalize (now : Q) (out : value) (err : option string) (call : ToolCall)
  : ToolCall :=
  mkToolCall (tool_name call) (inputs call) out
    (if truthy_str err then "error" else "success")
    (timestamp call)
    (py_round 1 ((now - timestamp call) * 1000)%Q)
    err.

Definition end_call (now : Q) (index : Z) (out : value) (err : option string)
  (t : MCPTrace) : outcome MCPTrace :=
  match py_index (calls t) index with
  | None => Raised "list index out of range"
  | Some k =>
      match calls t !! k with
      | None => Raised "list index out of range"
      | Some call => Returned (mkTrace (<[k := finalize now out err call]> (calls t)))
      end
  end.

Definition get_calls (t : MCPTrace) : list ToolCall := calls t.

(** ** The process environment

    Credentials read with [os.getenv(NAME, "")] (the empty string when unset),
    the outcome of every request to an external service, and the built-ins of
    the interpreter that the embedding does not spell out. *)

(** What the try block of [get_current_weather] reads off a response. *)
Record owm_current : Type := mkOwmCurrent {
  owm_temp_c : Q;
  owm_feels_like_c : Q;
  owm_description : string;
  owm_humidity : value;
  owm_wind_kph : Q;
  owm_icon : value;
}.

(** One day of the forecast response after aggregation of its 3-hour slots. *)
Record owm_day : Type := mkOwmDay {
  day_date : string;
  day_temp_min : Q;
  day_temp_max : Q;
  day_description : string;
  day_humidity : Z;
}.

(** The first country of a REST Countries response that lists a currency. *)
Record rc_country : Type := mkRcCountry {
  rc_common_name : value;
  rc_code : string;
  rc_currency_name : value;
  rc_currency_symbol : value;
  rc_capital : value;
  rc_latlng : value;
  rc_flag : value;
}.

(** A successful ExchangeRate-API response: the four target rates and the
    update time. *)
Record fx_live : Type := mkFxLive {
  fx_usd : value;
  fx_inr : value;
  fx_gbp : value;
  fx_eur : value;
  fx_time : value;
}.

(** What the try block of [get_stock_indices] computes for one ticker. *)
Record yf_quote : Type := mkYfQuote {
  yf_current : Q;
  yf_change : Q;
  yf_change_pct : Q;
}.

Record Env : Type := mkEnv {
  OPENWEATHER_API_KEY : string;
  EXCHANGERATE_API_KEY : string;
  GROQ_API_KEY : string;
  GOOGLE_API_KEY : string;
  (** whether [from google import genai] succeeded at import time *)
  HAS_GOOGLE : bool;
  (** [Groq(api_key).chat.completions.create(...)] up to
      [.choices[0].message.content], given key and prompt *)
  groq_chat : string -> string -> outcome (option string);
  (** [google_genai.Client(api_key).models.generate_content(...).text] *)
  gemini_generate : string -> string -> outcome (option string);
  (** the requests of tools/weather.py, given key and city *)
  owm_weather : string -> string -> outcome owm_current;
  owm_forecast : string -> string -> outcome (list owm_day);
  (** the request of [get_currency_info], given the country as typed;
      [None] when the response is empty or lists no currency *)
  restcountries : string -> outcome (option rc_country);
  (** the request of [get_fx_rates], given key and code; [None] when the
      response does not say success *)
  exchangerate : string -> string -> outcome (option fx_live);
  (** [yf.Ticker(ticker).history(period="5d")] and the arithmetic on it *)
  yf_history : string -> outcome yf_quote;
  (** the built-in [hash] on [str], salted per process *)
  py_hash : string -> Z;
  (** the built-in [float] on [str]; [None] for ValueError *)
  py_float : string -> option Q;
  (** the built-in [repr] *)
  py_repr : value -> string;
  (** the successive answers of [time.time()] *)
  clock : nat -> Q;
}.

(** How an f-string renders a value. *)
Definition fmt (env : Env) (v : value) : string :=
  match v with
  | VStr s => s
  | VInt z => str_of_int z
  | VNone => "None"
  | VBool true => "True"
  | VBool false => "False"
  | _ => py_repr env v
  end.

(** ** utils/llm.py *)

Definition LLM_UNAVAILABLE : string := "__LLM_UNAVAILABLE__".

Definition _ask_groq (env : Env) (prompt : string) : outcome (option string) :=
  let api_key := GROQ_API_KEY env in
  if String.eqb api_key "" then Returned None
  else try_except (groq_chat env api_key prompt) (fun _ => Returned None).

Definition _ask_gemini (env : Env) (prompt : string) : outcome (option string) :=
  if negb (HAS_GOOGLE env) then Returned None
  else
    let api_key := GOOGLE_API_KEY env in
    if String.eqb api_key "" then Returned None
    else try_except (gemini_generate env api_key prompt) (fun _ => Returned None).

(** [ask_gemini]: Groq first, then Gemini, then the sentinel. *)
Definition ask_gemini (env : Env) (prompt : string) : outcome string :=
  result ← _ask_groq env prompt;
  if truthy_str result then Returned (default "" result)
  else
    result ← _ask_gemini env prompt;
    if truthy_str result then Returned (default "" result)
    else Returned LLM_UNAVAILABLE.

(** ** Dynamic operations on values *)

(** [bool(v)]. *)
Definition py_truthy (v : value) : bool :=
  match v with
  | VNone => false
  | VBool b => b
  | VInt z => negb (z =? 0)
  | VFloat q => negb (Qeq_bool q 0)
  | VStr s => negb (String.eqb s "")
  | VList l => match l with [] => false | _ => true end
  | VDict d => match d with [] => false | _ => true end
  end.

Definition type_name (v : value) : string :=
  match v with
  | VNone => "NoneType"
  | VBool _ => "bool"
  | VInt _ => "int"
  | VFloat _ => "float"
  | VStr _ => "str"
  | VList _ => "list"
  | VDict _ => "dict"
  end.

Fixpoint chars (s : string) : list value :=
  match s with
  | EmptyString => []
  | String c s' => VStr (String c EmptyString) :: chars s'
  end.

(** [for x in v]: the elements of a list, the keys of a dict, the characters
    of a string; TypeError otherwise. *)
Definition py_iter (v : value) : outcome (list value) :=
  match v with
  | VList l => Returned l
  | VDict d => Returned (map (fun kv => VStr (fst kv)) d)
  | VStr s => Returned (chars s)
  | _ => Raised ("'" ++ type_name v ++ "' object is not iterable")
  end.

(** [v[:n]]: lists and strings can be sliced; TypeError otherwise. *)
Definition py_slice_to (n : nat) (v : value) : outcome value :=
  match v with
  | VList l => Returned (VList (firstn n l))
  | VStr s => Returned (VStr (str_take n s))
  | VDict _ => Raised "unhashable type: 'slice'"
  | _ => Raised ("'" ++ type_name v ++ "' object is not subscriptable")
  end.

(** [v.get(k, default)]: AttributeError unless [v] is a dict. *)
Definition py_get (v : value) (k : string) (default : value) : outcome value :=
  match v with
  | VDict d => Returned (dict_get_default k default d)
  | _ => Raised ("'" ++ type_name v ++ "' object has no attribute 'get'")
  end.

(** [[a.get(k, default) for a in l if isinstance(a, dict)]]. *)
Fixpoint gets_of_dicts (k : string) (default : value) (l : list value) : list value :=
  match l with
  | [] => []
  | VDict d :: l' => dict_get_default k default d :: gets_of_dicts k default l'
  | _ :: l' => gets_of_dicts k default l'
  end.

(** [sep.join(l)]: TypeError at the first item that is not a [str]. *)
Fixpoint strs_of (i : nat) (l : list value) : outcome (list string) :=
  match l with
  | [] => Returned []
  | VStr s :: l' => ss ← strs_of (S i) l'; Returned (s :: ss)
  | v :: _ =>
      Raised ("sequence item " ++ str_of_int (Z.of_nat i)
              ++ ": expected str instance, " ++ type_name v ++ " found")
  end.

Definition py_join (sep : string) (l : list value) : outcome string :=
  ss ← strs_of 0 l; Returned (join sep ss).

(** Lookup in a module-level table keyed by strings. *)
Fixpoint table_get {A} (k : string) (t : list (string * A)) : option A :=
  match t with
  | [] => None
  | (k', a) :: t' => if String.eqb k k' then Some a else table_get k t'
  end.

(** The line feed. *)
Definition nl : string := String (ascii_of_nat 10) EmptyString.

(** ** utils/fallbacks.py *)

Definition CULTURAL_INFO_tokyo : string :=
  "Tokyo, Japan's bustling capital, seamlessly blends ultramodern innovation with "
  ++ "deep-rooted tradition. Originally a small fishing village called Edo, it rose to "
  ++ "prominence in 1603 when Tokugawa Ieyasu established his shogunate here, transforming "
  ++ "it into the political center of Japan. Today, Tokyo is a city of contrasts — ancient "
  ++ "Senso-ji Temple in Asakusa stands minutes from the neon-lit streets of Akihabara, "
  ++ "while the serene Meiji Shrine is nestled in a lush forest just steps from the trendy "
  ++ "Harajuku district. The city is renowned for its culinary excellence, holding more "
  ++ "Michelin stars than any other city in the world. From the orderly chaos of Shibuya "
  ++ "Crossing to the tranquil gardens of the Imperial Palace, Tokyo offers an unparalleled "
  ++ "travel experience. Its efficient rail network, legendary hospitality (omotenashi), "
  ++ "cherry blossom seasons, and vibrant pop culture — from anime to cutting-edge fashion — "
  ++ "make it one of the most fascinating destinations on Earth.".

Definition CULTURAL_INFO_udaipur : string :=
  "Udaipur, known as the 'City of Lakes' and the 'Venice of the East,' is one of India's "
  ++ "most romantic and picturesque destinations. Founded in 1559 by Maharana Udai Singh II "
  ++ "as the capital of the Mewar Kingdom, the city is steeped in Rajput history, valor, and "
  ++ "artistic heritage. The magnificent City Palace, rising along the banks of Lake Pichola, "
  ++ "is a stunning fusion of Rajasthani and Mughal architecture spanning 400 years of "
  ++ "construction. The serene lakes — Pichola, Fateh Sagar, and Udai Sagar — create a "
  ++ "magical atmosphere, especially at sunset when the Aravalli hills glow amber. Udaipur's "
  ++ "narrow winding streets are filled with vibrant bazaars selling miniature paintings, "
  ++ "silver jewelry, and traditional textiles. The city's cultural scene thrives with folk "
  ++ "music and dance performances, while its cuisine — dal baati churma, gatte ki sabzi — "
  ++ "reflects the rich flavors of Rajasthan. Often chosen as a filming location for its "
  ++ "breathtaking beauty, Udaipur remains a jewel of Indian heritage tourism.".

Definition CULTURAL_INFO_new_york : string :=
  "New York City, often called 'The Big Apple,' is a global icon of culture, finance, and "
  ++ "ambition. Founded as New Amsterdam by Dutch settlers in 1626, it became New York under "
  ++ "British rule and grew into America's largest city and the world's financial capital. "
  ++ "The Statue of Liberty, a gift from France in 1886, stands as a universal symbol of "
  ++ "freedom and opportunity. Manhattan's skyline — defined by the Empire State Building, "
  ++ "One World Trade Center, and countless skyscrapers — is one of the most recognizable "
  ++ "in the world. Central Park offers 843 acres of green respite, while neighborhoods like "
  ++ "Greenwich Village, Harlem, and Brooklyn each pulse with distinct character. Broadway "
  ++ "theaters, world-class museums (The Met, MoMA, Guggenheim), and an unrivaled food scene "
  ++ "spanning every cuisine on Earth make NYC a cultural powerhouse. Its subway runs 24/7, "
  ++ "its energy never stops, and its diversity — with over 200 languages spoken — makes it "
  ++ "truly the crossroads of the world.".

Definition CULTURAL_INFO_london : string :=
  "London, the capital of the United Kingdom, is a city where nearly two millennia of "
  ++ "history coexist with cutting-edge modernity. Founded as Londinium by the Romans in "
  ++ "43 AD, it has survived plagues, fires, and wars to emerge as one of the world's "
  ++ "most influential cities. The Tower of London, built by William the Conqueror in 1066, "
  ++ "houses the Crown Jewels, while the Houses of Parliament and Big Ben define the city's "
  ++ "iconic skyline along the Thames. London's cultural offerings are extraordinary — the "
  ++ "British Museum, Tate Modern, and National Gallery are all free to enter. The city's "
  ++ "West End rivals Broadway for theatrical excellence, and its music scene has produced "
  ++ "legends from The Beatles to Adele. From the royal pageantry of Buckingham Palace to "
  ++ "the eclectic energy of Camden Market, London blends tradition with innovation. Its "
  ++ "diverse population, world-class universities, and position as a global financial hub "
  ++ "make it a destination of endless discovery.".

Definition CULTURAL_INFO_paris : string :=
  "Paris, the 'City of Light,' has captivated the world for centuries with its art, "
  ++ "architecture, cuisine, and romance. Founded over 2,000 years ago as Lutetia by Celtic "
  ++ "tribes, it became the heart of French civilization and European culture. The Eiffel "
  ++ "Tower, built for the 1889 World's Fair, has become the universal symbol of France, "
  ++ "while Notre-Dame Cathedral (dating to 1163) represents Gothic architecture at its "
  ++ "finest. The Louvre, housing the Mona Lisa and 380,000 other works, is the world's "
  ++ "most visited museum. Paris shaped the Enlightenment, the French Revolution, and modern "
  ++ "art movements from Impressionism to Surrealism. The Champs-Élysées, Montmartre's "
  ++ "artistic quarter, and the Latin Quarter's intellectual cafés each tell different "
  ++ "stories of the city's rich tapestry. Parisian cuisine — from croissants and crêpes to "
  ++ "Michelin-starred gastronomy — is integral to the UNESCO-recognized French culinary "
  ++ "tradition. With its grand boulevards, hidden gardens, and timeless elegance, Paris "
  ++ "continues to define sophistication and beauty.".

(** [CULTURAL_INFO]: the pre-written cultural paragraphs, by lower-case city. *)
Definition CULTURAL_INFO : list (string * string) :=
  [("tokyo", CULTURAL_INFO_tokyo);
   ("udaipur", CULTURAL_INFO_udaipur);
   ("new york", CULTURAL_INFO_new_york);
   ("london", CULTURAL_INFO_london);
   ("paris", CULTURAL_INFO_paris)].

Definition ITINERARIES_tokyo : string :=
  "**Day 1: Arrival & Traditional Tokyo**
- Morning: Arrive at Narita/Haneda Airport. Transfer to hotel and freshen up.
- Afternoon: Visit **Senso-ji Temple** in Asakusa — Tokyo's oldest temple. Explore Nakamise Shopping Street for souvenirs and snacks.
- Evening: Walk to **Tokyo Skytree** for stunning sunset city views from 350m.
- Dining: Try ramen at a local Asakusa ramen shop.
- Tip: Get a Suica/Pasmo card at the airport for seamless train travel.

**Day 2: Modern Tokyo & Pop Culture**
- Morning: Explore **Meiji Shrine** and its forested grounds in Harajuku. Walk Takeshita Street for quirky fashion and crêpes.
- Afternoon: Head to **Shibuya Crossing** — the world's busiest intersection. Visit Shibuya Sky for panoramic views.
- Evening: Explore **Akihabara** — the electronics and anime capital. Browse multi-story arcades and manga shops.
- Dining: Conveyor belt sushi (kaiten-zushi) in Shibuya.

**Day 3: Culture & Gardens**
- Morning: Visit the **Imperial Palace East Gardens** (free entry, closed Mon/Fri). Beautiful traditional gardens.
- Afternoon: Explore **Ueno Park** — Tokyo National Museum, Ueno Zoo, and seasonal flowers.
- Evening: Shopping and dining in **Ginza** — Tokyo's upscale district.
- Dining: Try tempura or tonkatsu at a Ginza restaurant.

**Day 4: Day Trip & Markets**
- Morning: Take a day trip to **Tsukiji Outer Market** for the freshest sushi breakfast and street food.
- Afternoon: Visit **teamLab Borderless** (digital art museum) or explore **Odaiba** waterfront.
- Evening: Stroll through **Shinjuku** — visit the observation deck at Tokyo Metropolitan Government Building (free).
- Dining: Yakitori (grilled chicken skewers) in Shinjuku's Memory Lane (Omoide Yokocho).

**Day 5: Departure Day**
- Morning: Last-minute shopping at **Don Quijote** (24-hour store) or visit a local neighborhood.
- Afternoon: Head to the airport. Consider an ekiben (train bento) for the journey.
- Tip: Keep JPY coins for temple offerings and vending machines throughout your trip.".

Definition ITINERARIES_udaipur : string :=
  "**Day 1: Arrival & Lake Pichola**
- Morning: Arrive in Udaipur. Check into hotel and freshen up.
- Afternoon: Take a boat ride on **Lake Pichola** — visit Jag Mandir island palace.
- Evening: Watch the sunset from **Ambrai Ghat** with stunning views of City Palace and Lake Palace.
- Dining: Rooftop dinner at Ambrai Restaurant overlooking the lake.
- Tip: Carry sunscreen and stay hydrated — Rajasthan can be very warm.

**Day 2: Palaces & Heritage**
- Morning: Explore **City Palace** — the majestic complex with museums, courtyards, and lake views (allow 3-4 hours).
- Afternoon: Visit **Jagdish Temple** — beautiful Indo-Aryan temple dedicated to Lord Vishnu, just outside City Palace.
- Evening: Attend a traditional **Rajasthani folk dance and music show** at Bagore Ki Haveli.
- Dining: Try dal baati churma and gatte ki sabzi at a local Rajasthani restaurant.

**Day 3: Gardens, Lakes & Departure**
- Morning: Visit **Saheliyon-ki-Bari** (Garden of the Maidens) — beautiful fountains and marble elephants.
- Afternoon: Drive to **Fateh Sagar Lake** and visit Nehru Garden island. Explore the surrounding hills.
- Evening: Last shopping at Hathi Pol bazaar for miniature paintings, silver jewelry, and textiles.
- Dining: Farewell dinner with a view of the illuminated City Palace.
- Tip: Bargain respectfully at bazaars — starting at 50% of asking price is normal.".

(** [ITINERARIES]: the pre-written itineraries, by lower-case city. *)
Definition ITINERARIES : list (string * string) :=
  [("tokyo", ITINERARIES_tokyo);
   ("udaipur", ITINERARIES_udaipur)].

Definition MARKET_SUMMARIES_japan : string :=
  "Japan's financial market is one of the largest and most sophisticated in Asia. "
  ++ "The official currency is the Japanese Yen (JPY), managed by the Bank of Japan. "
  ++ "The Tokyo Stock Exchange (TSE), established in 1878, is the third-largest stock "
  ++ "exchange globally by market capitalization. Its primary index, the **Nikkei 225**, "
  ++ "tracks 225 major companies including Toyota, Sony, and SoftBank, while the **TOPIX** "
  ++ "index covers all First Section companies. Japan is the world's third-largest economy "
  ++ "by GDP and a major global exporter of automobiles, electronics, and machinery. "
  ++ "The JPY is considered a safe-haven currency, often strengthening during global "
  ++ "economic uncertainty. Japan's monetary policy, characterized by historically low "
  ++ "interest rates, significantly influences Asian and global financial markets.".

Definition MARKET_SUMMARIES_india : string :=
  "India's financial market has experienced remarkable growth, making it one of the "
  ++ "most dynamic emerging markets globally. The official currency is the Indian Rupee (INR), "
  ++ "regulated by the Reserve Bank of India. The **Bombay Stock Exchange (BSE)**, "
  ++ "established in 1875, is Asia's oldest exchange, with its flagship **SENSEX** index "
  ++ "tracking 30 major companies. The **National Stock Exchange (NSE)**, founded in 1992, "
  ++ "operates the widely-followed **NIFTY 50** index. India ranks as the world's fifth-largest "
  ++ "economy by GDP, driven by IT services, pharmaceuticals, and a massive consumer market "
  ++ "of 1.4 billion people. Key listed companies include Reliance Industries, TCS, Infosys, "
  ++ "and HDFC Bank. India's growing middle class and digital economy continue to attract "
  ++ "significant foreign institutional investment.".

Definition MARKET_SUMMARIES_united_states : string :=
  "The United States hosts the world's largest and most influential financial markets. "
  ++ "The US Dollar (USD) serves as the world's primary reserve currency. The **New York "
  ++ "Stock Exchange (NYSE)**, founded in 1792, is the world's largest exchange by market "
  ++ "capitalization. The **NASDAQ**, established in 1971, is the second-largest and heavily "
  ++ "weighted toward technology companies. Key indices include the **S&P 500** (500 large-cap "
  ++ "companies), **Dow Jones Industrial Average** (30 blue-chip stocks), and **NASDAQ "
  ++ "Composite**. The US markets set the tone for global trading, with companies like "
  ++ "Apple, Microsoft, Amazon, and Nvidia among the most valuable in the world. The Federal "
  ++ "Reserve's monetary policy decisions have far-reaching global implications.".

Definition MARKET_SUMMARIES_south_korea : string :=
  "South Korea's financial market reflects its status as Asia's fourth-largest economy. "
  ++ "The official currency is the South Korean Won (KRW), overseen by the Bank of Korea. "
  ++ "The **Korea Exchange (KRX)**, headquartered in Busan, operates the **KOSPI** index "
  ++ "(tracking all common stocks) and the **KOSDAQ** (focused on tech and small-cap firms). "
  ++ "South Korea is a global leader in semiconductors, shipbuilding, automobiles, and "
  ++ "electronics, with Samsung Electronics, SK Hynix, and Hyundai Motor among its largest "
  ++ "listed companies. The country's export-driven economy and strong technology sector "
  ++ "make it an important barometer for global trade and tech industry health.".

Definition MARKET_SUMMARIES_china : string :=
  "China operates the world's second-largest stock market by total capitalization. "
  ++ "The official currency is the Chinese Yuan/Renminbi (CNY), managed by the People's "
  ++ "Bank of China. Major exchanges include the **Shanghai Stock Exchange (SSE)**, "
  ++ "**Shenzhen Stock Exchange (SZSE)**, and the **Hong Kong Stock Exchange (HKEX)**. "
  ++ "The SSE Composite Index and Hang Seng Index are closely watched global indicators. "
  ++ "China's economy, the world's second-largest by GDP, is driven by manufacturing, "
  ++ "technology, and an enormous domestic consumer market. Major listed companies include "
  ++ "Alibaba, Tencent, ICBC, and PetroChina. The gradual internationalization of the "
  ++ "Yuan and China's Belt and Road Initiative continue to reshape global financial flows.".

Definition MARKET_SUMMARIES_united_kingdom : string :=
  "The United Kingdom is one of the world's leading financial centers, anchored by "
  ++ "London's City and Canary Wharf districts. The official currency is the British "
  ++ "Pound Sterling (GBP), one of the oldest and most traded currencies globally, "
  ++ "managed by the Bank of England (est. 1694). The **London Stock Exchange (LSE)**, "
  ++ "founded in 1801, is Europe's largest exchange. Its primary index, the **FTSE 100**, "
  ++ "tracks the 100 largest companies by market cap, including Shell, AstraZeneca, HSBC, "
  ++ "and Unilever. The **FTSE 250** covers mid-cap firms. London's financial services "
  ++ "sector contributes significantly to the UK's GDP, and the city serves as a global "
  ++ "hub for foreign exchange trading, insurance (Lloyd's), and asset management.".

(** [MARKET_SUMMARIES]: the pre-written market summaries, by lower-case country. *)
Definition MARKET_SUMMARIES : list (string * string) :=
  [("japan", MARKET_SUMMARIES_japan);
   ("india", MARKET_SUMMARIES_india);
   ("united states", MARKET_SUMMARIES_united_states);
   ("south korea", MARKET_SUMMARIES_south_korea);
   ("china", MARKET_SUMMARIES_china);
   ("united kingdom", MARKET_SUMMARIES_united_kingdom)].

Definition get_fallback_cultural_info (city : string) : string :=
  let key := strip (lower city) in
  match table_get key CULTURAL_INFO with
  | Some text => text
  | None =>
      city
      ++ " is a vibrant destination rich in culture, history, and unique experiences. "
      ++ "Visitors can explore its historic landmarks, taste authentic local cuisine, wander "
      ++ "through colorful markets, and immerse themselves in the traditions that define this "
      ++ "remarkable place. From ancient architecture to modern attractions, "
      ++ city
      ++ " offers "
      ++ "something for every traveler — whether you seek adventure, relaxation, spiritual "
      ++ "enrichment, or culinary discovery. The warmth of its people and the depth of its "
      ++ "heritage make "
      ++ city
      ++ " an unforgettable destination that rewards repeated visits."
  end.

(** The loop building [att_text] over [attractions[:6]]. *)
Definition att_text (env : Env) (attractions : list value) : string :=
  fold_left (fun acc att => acc ++ ("  - " ++ fmt env att ++ nl))
    (firstn 6 attractions) "".

Definition get_fallback_itinerary (env : Env) (city from_city start_date end_date : string)
  (travelers : Z) (budget preferences : string) (attractions : list value) : string :=
  let key := strip (lower city) in
  match table_get key ITINERARIES with
  | Some text => text
  | None =>
      "**Day 1: Arrival & Orientation**
- Morning: Arrive in " ++ city ++ " from " ++ from_city ++ ". Transfer to hotel and check in.
- Afternoon: Take a walking tour of the city center to get oriented. Visit a local café.
- Evening: Explore the main market area and try local street food.
- Dining: Traditional local restaurant near your hotel.

**Day 2: Major Attractions**
- Morning: Visit the top-rated attractions:
" ++ att_text env attractions
  ++ "- Afternoon: Continue exploring cultural and historic sites. Take photos and enjoy the atmosphere.
- Evening: Relax at a scenic viewpoint or waterfront area.
- Dining: Try the city's signature dish at a well-reviewed restaurant.

**Day 3: Culture & Shopping**
- Morning: Visit a local museum or art gallery. Learn about the region's history.
- Afternoon: Shopping for souvenirs and local crafts. Explore hidden neighborhoods.
- Evening: Farewell dinner at a rooftop or scenic restaurant.

**Day 4: Departure**
- Morning: Last-minute sightseeing or shopping.
- Afternoon: Transfer to airport/station for departure.
- Tip: Keep local currency for small purchases and tips throughout your trip.

*Budget: " ++ budget ++ " | Travelers: " ++ str_of_int travelers
  ++ " | Dates: " ++ start_date ++ " to " ++ end_date ++ "*
*Preferences: " ++ (if String.eqb preferences "" then "General sightseeing" else preferences)
  ++ "*"
  end.

(** [get_fallback_market_summary]: the arguments are used as they come from
    the results of the pipeline; joining names that are not strings raises. *)
Definition get_fallback_market_summary (env : Env) (country : string)
  (currency_name : value) (index_names : list value) : outcome string :=
  let key := strip (lower country) in
  match table_get key MARKET_SUMMARIES with
  | Some text => Returned text
  | None =>
      names ← (match index_names with
               | [] => Returned "N/A"
               | _ => py_join ", " index_names
               end);
      Returned
        (country ++ "'s financial market features the "
         ++ fmt env (if py_truthy currency_name then currency_name else VStr "local currency")
         ++ " as its "
         ++ "official currency. The country's stock exchanges and major indices "
         ++ "(" ++ names ++ ") play an important role in the "
         ++ "regional and global financial landscape. Investors monitor these markets for insights "
         ++ "into the country's economic health, trade dynamics, and growth prospects.")
  end.

(** ** The random module

    The module-level generator of [random] is process-wide state.  Its two
    primitives are taken as given, with the ranges the library documents;
    the functions the tools call are derived from them the way CPython's
    [random.py] does. *)

Class RandomModule : Type := mkRandomModule {
  rng : Type;
  (** [random.seed(n)]: the state after seeding, whatever it was before *)
  rng_seed : Z -> rng;
  (** [_randbelow(n)] *)
  rng_randbelow : Z -> rng -> Z * rng;
  (** [random.random()] *)
  rng_random : rng -> Q * rng;
  rng_randbelow_range :
    forall n g, 0 < n -> 0 <= fst (rng_randbelow n g) < n;
  rng_random_range :
    forall g, (0 <= fst (rng_random g))%Q /\ (fst (rng_random g) < 1)%Q;
}.

Section Random.
Context {R : RandomModule}.

(** A computation that draws from the generator. *)
Definition Rand (A : Type) : Type := rng -> A * rng.

Definition rand_ret {A} (a : A) : Rand A := fun g => (a, g).
Definition rand_bind {A B} (m : Rand A) (k : A -> Rand B) : Rand B :=
  fun g => let (a, g') := m g in k a g'.

#[global] Instance Rand_ret : MRet Rand := @rand_ret.
#[global] Instance Rand_bind : MBind Rand := fun A B k m => rand_bind m k.

Definition seed (n : Z) : Rand unit := fun _ => (tt, rng_seed n).
Definition randbelow (n : Z) : Rand Z := rng_randbelow n.
Definition random : Rand Q := rng_random.

(** [random.randint(a, b)]. *)
Definition randint (a b : Z) : Rand Z :=
  r ← randbelow (b - a + 1); mret (a + r).

(** [random.choice(seq)] on a non-empty sequence; [d] is never returned. *)
Definition choice {A} (d : A) (seq : list A) : Rand A :=
  i ← randbelow (Z.of_nat (length seq)); mret (nth (Z.to_nat i) seq d).

(** [itertools.accumulate]. *)
Fixpoint accumulate_from (acc : Q) (ws : list Q) : list Q :=
  match ws with
  | [] => []
  | w :: ws' => (acc + w)%Q :: accumulate_from (acc + w)%Q ws'
  end.

(** [bisect.bisect(cum, x, 0, hi)] on a sorted list. *)
Definition bisect (cum : list Q) (x : Q) (hi : nat) : nat :=
  length (filter (fun c => Qle_bool c x) (firstn hi cum)).

(** [random.choices(population, weights)[0]]. *)
Definition choices1 {A} (d : A) (population : list A) (weights : list Q) : Rand A :=
  let cum_weights := accumulate_from 0 weights in
  let total := List.last cum_weights 0%Q in
  let hi := (length population - 1)%nat in
  r ← random; mret (nth (bisect cum_weights (r * total)%Q hi) population d).

(** [random.uniform(a, b)]. *)
Definition uniform (a b : Q) : Rand Q :=
  r ← random; mret (a + (b - a) * r)%Q.

(** [random.sample(population, k)] for a population of at most 21 items:
    the loop over a copy [pool], [n] items of which are still unselected. *)
Fixpoint sample_pool {A} (d : A) (pool : list A) (n k : nat) : Rand (list A) :=
  match k with
  | O => mret []
  | S k' =>
      j ← randbelow (Z.of_nat n);
      let j := Z.to_nat j in
      let picked := nth j pool d in
      let pool' := <[j := nth (n - 1) pool d]> pool in
      rest ← sample_pool d pool' (n - 1) k';
      mret (picked :: rest)
  end.

Definition sample {A} (d : A) (population : list A) (k : Z) : Rand (list A) :=
  sample_pool d population (length population) (Z.to_nat k).

(** [for i in range(n): l.append(body())]. *)
Fixpoint collect {A} (n : nat) (body : Rand A) : Rand (list A) :=
  match n with
  | O => mret []
  | S n' => x ← body; xs ← collect n' body; mret (x :: xs)
  end.
End Random.

(** ** [list.sort(key=...)] with integer keys

    The sort is stable: items with equal keys keep their order.  Each item
    is inserted in front of the sorted rest, before the first item whose key
    is not smaller. *)

Fixpoint insert_by {A} (key : A -> Z) (x : A) (l : list A) : list A :=
  match l with
  | [] => [x]
  | y :: l' => if key x <=? key y then x :: y :: l' else y :: insert_by key x l'
  end.

Fixpoint sort_by {A} (key : A -> Z) (l : list A) : list A :=
  match l with
  | [] => []
  | x :: l' => insert_by key x (sort_by key l')
  end.

(** [x[k]] as a sort key, for records whose [k] is an [int]. *)
Definition int_field (k : string) (r : dict) : Z :=
  match dict_get k r with
  | Some (VInt z) => z
  | _ => 0
  end.

(** ** tools/weather.py *)

Definition SAMPLE_CURRENT : dict :=
  [("temp_c", VInt 22);
   ("feels_like_c", VInt 21);
   ("description", VStr "Partly cloudy");
   ("humidity", VInt 55);
   ("wind_kph", VFloat 12.5);
   ("icon", VStr "02d");
   ("sample", VBool true)].

Definition SAMPLE_FORECAST : list dict :=
  [[("date", VStr "Day 1");
     ("temp_min", VInt 18);
     ("temp_max", VInt 25);
     ("description", VStr "Sunny");
     ("humidity", VInt 50)];
   [("date", VStr "Day 2");
     ("temp_min", VInt 17);
     ("temp_max", VInt 24);
     ("description", VStr "Partly cloudy");
     ("humidity", VInt 55)];
   [("date", VStr "Day 3");
     ("temp_min", VInt 19);
     ("temp_max", VInt 26);
     ("description", VStr "Clear sky");
     ("humidity", VInt 48)];
   [("date", VStr "Day 4");
     ("temp_min", VInt 16);
     ("temp_max", VInt 23);
     ("description", VStr "Light rain");
     ("humidity", VInt 70)];
   [("date", VStr "Day 5");
     ("temp_min", VInt 18);
     ("temp_max", VInt 24);
     ("description", VStr "Sunny");
     ("humidity", VInt 52)]].

(** The Streamlit cache in front of the weather, currency and index tools
    returns what an earlier call with the same argument returned; the
    services being functions of their arguments here, it is transparent. *)

Definition get_current_weather (env : Env) (city : string) : dict :=
  let api_key := OPENWEATHER_API_KEY env in
  if String.eqb api_key "" then
    dict_merge SAMPLE_CURRENT
      [("city", VStr city);
       ("note", VStr "SAMPLE DATA - OPENWEATHER_API_KEY not set")]
  else
    match owm_weather env api_key city with
    | Returned data =>
        [("city", VStr city);
         ("temp_c", VFloat (owm_temp_c data));
         ("feels_like_c", VFloat (owm_feels_like_c data));
         ("description", VStr (owm_description data));
         ("humidity", owm_humidity data);
         ("wind_kph", VFloat (owm_wind_kph data));
         ("icon", owm_icon data);
         ("sample", VBool false)]
    | Raised e =>
        dict_merge SAMPLE_CURRENT
          [("city", VStr city);
           ("note", VStr ("SAMPLE DATA - API error: " ++ e))]
    end.

(** [[{"sample": True, "note": note, **f} for f in SAMPLE_FORECAST]]. *)
Definition sample_forecast (note : string) : list dict :=
  map (fun f => dict_merge [("sample", VBool true); ("note", VStr note)] f)
    SAMPLE_FORECAST.

Definition get_weather_forecast (env : Env) (city : string) : list dict :=
  let api_key := OPENWEATHER_API_KEY env in
  if String.eqb api_key "" then sample_forecast "SAMPLE DATA"
  else
    match owm_forecast env api_key city with
    | Returned daily =>
        map (fun d =>
               [("date", VStr (day_date d));
                ("temp_min", VFloat (day_temp_min d));
                ("temp_max", VFloat (day_temp_max d));
                ("description", VStr (day_description d));
                ("humidity", VInt (day_humidity d));
                ("sample", VBool false)])
          (firstn 5 daily)
    | Raised e => sample_forecast ("SAMPLE DATA - API error: " ++ e)
    end.

(** ** tools/flights.py *)

(** [AIRLINES] *)
Definition AIRLINES : list string :=
  ["Air India"; "IndiGo"; "Emirates"; "Singapore Airlines";
   "Japan Airlines"; "ANA"; "Delta"; "United Airlines"; "British Airways";
   "Lufthansa"; "Qatar Airways"; "Thai Airways"; "Korean Air";
   "Cathay Pacific"; "Turkish Airlines"].

(** [DURATIONS] *)
Definition DURATIONS : list string :=
  ["2h 30m"; "3h 15m"; "4h 00m"; "5h 45m"; "7h 20m"; "8h 10m"; "10h 30m";
   "12h 00m"; "14h 25m"; "16h 50m"].

Section Flights.
Context {R : RandomModule} (env : Env).

(** One turn of the loop: the draws in the order the statements and the
    dictionary display make them. *)
Definition flight_option (from_city to_city date : string) (travelers : Z)
  : Rand dict :=
  airline ← choice "" AIRLINES;
  dep_hour ← randint 5 22;
  dep_min ← choice 0 [0; 15; 30; 45];
  stops ← choices1 0 [0; 1; 2] [40; 45; 15]%Q;
  base_price ← randint 150 1200;
  extra ← randint (-50) 100;
  let price_per_person := Z.max 100 (base_price + stops * extra) in
  flight_no ← randint 100 999;
  duration ← choice "" DURATIONS;
  cabin ← choice "" ["Economy"; "Economy"; "Economy"; "Premium Economy"; "Business"];
  mret
    [("airline", VStr airline);
     ("flight_no", VStr (upper (str_take 2 airline) ++ str_of_int flight_no));
     ("from", VStr from_city);
     ("to", VStr to_city);
     ("date", VStr date);
     ("departure", VStr (fmt_02d dep_hour ++ ":" ++ fmt_02d dep_min));
     ("duration", VStr duration);
     ("stops", VInt stops);
     ("stop_label",
      VStr (if stops =? 0 then "Non-stop"
            else str_of_int stops ++ " stop" ++ (if 1 <? stops then "s" else "")));
     ("price_usd", VInt price_per_person);
     ("total_usd", VInt (price_per_person * travelers));
     ("travelers", VInt travelers);
     ("class", VStr cabin);
     ("sample", VBool true);
     ("note", VStr "⚠️ SAMPLE DATA – real flight API not connected")].

(** The list before it is sorted. *)
Definition generate_flights (from_city to_city date : string) (travelers : Z)
  : Rand (list dict) :=
  _ ← seed (py_hash env (from_city ++ to_city ++ date) mod 2 ^ 31);
  num_options ← randint 3 5;
  collect (Z.to_nat num_options) (flight_option from_city to_city date travelers).

Definition search_flights (from_city to_city date : string) (travelers : Z)
  : Rand (list dict) :=
  flights ← generate_flights from_city to_city date travelers;
  mret (sort_by (int_field "price_usd") flights).
End Flights.

(** ** tools/hotels.py *)

(** [PREFIXES] *)
Definition PREFIXES : list string :=
  ["Grand"; "Royal"; "Imperial"; "The"; "Hotel"; "Park"; "Palace";
   "Heritage"].

(** [SUFFIXES] *)
Definition SUFFIXES : list string :=
  ["Inn"; "Resort"; "Suites"; "Plaza"; "Tower"; "Residency"; "Hotel";
   "Lodge"].

(** [AMENITIES_POOL] *)
Definition AMENITIES_POOL : list string :=
  ["Free WiFi"; "Pool"; "Spa"; "Gym"; "Restaurant"; "Bar"; "Room Service";
   "Airport Shuttle"; "Parking"; "Breakfast Included"; "Business Center";
   "Concierge"; "Laundry Service"; "Ocean View"].

(** [LOCATIONS] *)
Definition LOCATIONS : list string :=
  ["City Center"; "Near Airport"; "Downtown"; "Business District";
   "Old Town"; "Waterfront"; "Cultural Quarter"; "Suburban"].

Section Hotels.
Context {R : RandomModule} (env : Env).

Definition hotel_option (city checkin checkout : string) (guests : Z) : Rand dict :=
  prefix ← choice "" PREFIXES;
  suffix ← choice "" SUFFIXES;
  let name := prefix ++ " " ++ city ++ " " ++ suffix in
  u ← uniform 3.0 5.0;
  let rating := py_round 1 u in
  stars ← choice 0 [3; 3; 4; 4; 4; 5];
  price ← randint 40 350;
  k ← randint 3 7;
  amenities ← sample "" AMENITIES_POOL k;
  location ← choice "" LOCATIONS;
  mret
    [("name", VStr name);
     ("stars", VInt stars);
     ("rating", VFloat rating);
     ("review_score", VStr (fmt env (VFloat rating) ++ "/5.0"));
     ("price_per_night_usd", VInt price);
     ("total_usd", VStr "varies by nights");
     ("guests", VInt guests);
     ("location", VStr location);
     ("amenities", VList (map VStr amenities));
     ("checkin", VStr checkin);
     ("checkout", VStr checkout);
     ("sample", VBool true);
     ("note", VStr "⚠️ SAMPLE DATA – real hotel API not connected")].

Definition generate_hotels (city checkin checkout : string) (guests : Z)
  : Rand (list dict) :=
  _ ← seed (py_hash env (city ++ checkin ++ checkout) mod 2 ^ 31);
  num_options ← randint 4 6;
  collect (Z.to_nat num_options) (hotel_option city checkin checkout guests).

Definition search_hotels (city checkin checkout : string) (guests : Z)
  : Rand (list dict) :=
  hotels ← generate_hotels city checkin checkout guests;
  mret (sort_by (int_field "price_per_night_usd") hotels).
End Hotels.

(** ** tools/places.py *)

(** [CURATED_ATTRACTIONS]: curated attractions, by lower-case city. *)
Definition CURATED_ATTRACTIONS : list (string * list dict) :=
  [("tokyo",
     [[("name", VStr "Senso-ji Temple");
        ("category", VStr "Temple");
        ("description", VStr "Tokyo's oldest and most significant Buddhist temple in Asakusa.");
        ("rating", VFloat 4.7)];
      [("name", VStr "Shibuya Crossing");
        ("category", VStr "Landmark");
        ("description", VStr "The world's busiest pedestrian crossing, iconic Tokyo experience.");
        ("rating", VFloat 4.5)];
      [("name", VStr "Meiji Shrine");
        ("category", VStr "Shrine");
        ("description", VStr "Serene Shinto shrine surrounded by a lush forest in central Tokyo.");
        ("rating", VFloat 4.8)];
      [("name", VStr "Tokyo Skytree");
        ("category", VStr "Observation");
        ("description", VStr "Tallest tower in Japan (634m) with panoramic city views.");
        ("rating", VFloat 4.6)];
      [("name", VStr "Tsukiji Outer Market");
        ("category", VStr "Food");
        ("description", VStr "World-famous fish market area with incredible street food.");
        ("rating", VFloat 4.5)];
      [("name", VStr "Akihabara");
        ("category", VStr "Shopping");
        ("description", VStr "Electronics and anime/manga hub, vibrant pop-culture district.");
        ("rating", VFloat 4.4)]]);
   ("udaipur",
     [[("name", VStr "City Palace");
        ("category", VStr "Palace");
        ("description", VStr "Majestic palace complex on the banks of Lake Pichola.");
        ("rating", VFloat 4.7)];
      [("name", VStr "Lake Pichola");
        ("category", VStr "Nature");
        ("description", VStr "Artificial fresh water lake with stunning palace views.");
        ("rating", VFloat 4.6)];
      [("name", VStr "Jag Mandir");
        ("category", VStr "Palace");
        ("description", VStr "Island palace in Lake Pichola, also known as Lake Garden Palace.");
        ("rating", VFloat 4.5)];
      [("name", VStr "Saheliyon-ki-Bari");
        ("category", VStr "Garden");
        ("description", VStr "Garden of the Maidens with beautiful fountains and marble art.");
        ("rating", VFloat 4.4)];
      [("name", VStr "Jagdish Temple");
        ("category", VStr "Temple");
        ("description", VStr "Indo-Aryan temple dedicated to Lord Vishnu, built in 1651.");
        ("rating", VFloat 4.5)];
      [("name", VStr "Fateh Sagar Lake");
        ("category", VStr "Nature");
        ("description", VStr "Scenic artificial lake surrounded by hills and gardens.");
        ("rating", VFloat 4.3)]]);
   ("new york",
     [[("name", VStr "Statue of Liberty");
        ("category", VStr "Monument");
        ("description", VStr "Iconic symbol of freedom on Liberty Island.");
        ("rating", VFloat 4.7)];
      [("name", VStr "Central Park");
        ("category", VStr "Park");
        ("description", VStr "843-acre urban park, the green heart of Manhattan.");
        ("rating", VFloat 4.8)];
      [("name", VStr "Times Square");
        ("category", VStr "Landmark");
        ("description", VStr "Brightly lit commercial hub and entertainment center.");
        ("rating", VFloat 4.4)];
      [("name", VStr "Metropolitan Museum of Art");
        ("category", VStr "Museum");
        ("description", VStr "One of the world's largest and finest art museums.");
        ("rating", VFloat 4.8)];
      [("name", VStr "Brooklyn Bridge");
        ("category", VStr "Landmark");
        ("description", VStr "Iconic hybrid cable-stayed/suspension bridge, opened 1883.");
        ("rating", VFloat 4.7)];
      [("name", VStr "Empire State Building");
        ("category", VStr "Observation");
        ("description", VStr "Art Deco skyscraper with observation decks on 86th and 102nd floors.");
        ("rating", VFloat 4.6)]]);
   ("london",
     [[("name", VStr "Tower of London");
        ("category", VStr "Castle");
        ("description", VStr "Historic castle and UNESCO site, home to the Crown Jewels.");
        ("rating", VFloat 4.7)];
      [("name", VStr "British Museum");
        ("category", VStr "Museum");
        ("description", VStr "World-renowned museum of human history and culture.");
        ("rating", VFloat 4.8)];
      [("name", VStr "Buckingham Palace");
        ("category", VStr "Palace");
        ("description", VStr "Official residence of the British monarch.");
        ("rating", VFloat 4.6)];
      [("name", VStr "Big Ben & Houses of Parliament");
        ("category", VStr "Landmark");
        ("description", VStr "Iconic clock tower and Gothic Revival Parliament buildings.");
        ("rating", VFloat 4.7)];
      [("name", VStr "London Eye");
        ("category", VStr "Observation");
        ("description", VStr "135m tall observation wheel on the South Bank of the Thames.");
        ("rating", VFloat 4.5)];
      [("name", VStr "Hyde Park");
        ("category", VStr "Park");
        ("description", VStr "One of London's largest royal parks, 350 acres of green space.");
        ("rating", VFloat 4.6)]]);
   ("paris",
     [[("name", VStr "Eiffel Tower");
        ("category", VStr "Landmark");
        ("description", VStr "Iconic iron lattice tower, symbol of Paris.");
        ("rating", VFloat 4.7)];
      [("name", VStr "Louvre Museum");
        ("category", VStr "Museum");
        ("description", VStr "World's largest art museum, home to the Mona Lisa.");
        ("rating", VFloat 4.8)];
      [("name", VStr "Notre-Dame Cathedral");
        ("category", VStr "Cathedral");
        ("description", VStr "Medieval Catholic cathedral, masterpiece of Gothic architecture.");
        ("rating", VFloat 4.7)];
      [("name", VStr "Champs-Élysées");
        ("category", VStr "Street");
        ("description", VStr "Famous avenue known for luxury shops, cafés, and theatres.");
        ("rating", VFloat 4.5)];
      [("name", VStr "Sacré-Cœur Basilica");
        ("category", VStr "Church");
        ("description", VStr "White-domed basilica at the summit of Montmartre.");
        ("rating", VFloat 4.6)];
      [("name", VStr "Musée d'Orsay");
        ("category", VStr "Museum");
        ("description", VStr "Impressionist masterpieces housed in a former railway station.");
        ("rating", VFloat 4.7)]])].

Definition attractions_prompt (city : string) : string :=
  "List the top 6 tourist attractions in " ++ city ++ ". 
For each, provide: name, category (e.g., Temple, Museum, Park, Landmark), 
a one-sentence description, and an approximate rating out of 5.
Format as a numbered list like:
1. Name | Category | Description | Rating
".

(** One line of the answer: [None] when the loop moves on without
    appending. *)
Definition parse_attraction_line (env : Env) (line : string) : option dict :=
  let line := strip line in
  match line with
  | EmptyString => None
  | String c _ =>
      if negb (is_digit c) then None
      else
        let line := strip (split1_last "." line) in
        let parts := map strip (split_on "|" line) in
        if Nat.leb 3 (length parts) then
          let rating :=
            if Nat.leb 4 (length parts) then
              match py_float env (strip (remove_all "/5" (nth 3 parts ""))) with
              | Some r => r
              | None => 4.5%Q
              end
            else 4.5%Q in
          Some [("name", VStr (nth 0 parts ""));
                ("category", VStr (nth 1 parts ""));
                ("description", VStr (nth 2 parts ""));
                ("rating", VFloat rating)]
        else None
  end.

Fixpoint parse_attraction_lines (env : Env) (lines : list string) : list dict :=
  match lines with
  | [] => []
  | line :: rest =>
      match parse_attraction_line env line with
      | Some a => a :: parse_attraction_lines env rest
      | None => parse_attraction_lines env rest
      end
  end.

(** The try block: the parsed list, or the exception raised in it. *)
Definition attractions_from_llm (env : Env) (city : string) : outcome (list dict) :=
  response ← ask_gemini env (attractions_prompt city);
  if startswith "Error" response || startswith "LLM Error" response
  then Raised response
  else Returned (parse_attraction_lines env (split_on (ascii_of_nat 10) (strip response))).

Definition generic_attractions (city : string) : list dict :=
  [[("name", VStr (city ++ " City Center")); ("category", VStr "Landmark");
    ("description", VStr ("Explore the vibrant city center of " ++ city ++ "."));
    ("rating", VFloat 4.3)];
   [("name", VStr (city ++ " Historic District")); ("category", VStr "Heritage");
    ("description", VStr ("Walk through the historical areas of " ++ city ++ "."));
    ("rating", VFloat 4.4)];
   [("name", VStr (city ++ " Local Market")); ("category", VStr "Market");
    ("description", VStr ("Experience local culture at " ++ city ++ "'s famous markets."));
    ("rating", VFloat 4.2)];
   [("name", VStr (city ++ " Museum")); ("category", VStr "Museum");
    ("description", VStr ("Discover the art and history of " ++ city ++ "."));
    ("rating", VFloat 4.5)];
   [("name", VStr (city ++ " Park/Garden")); ("category", VStr "Park");
    ("description", VStr ("Relax in the beautiful green spaces of " ++ city ++ "."));
    ("rating", VFloat 4.3)]].

Definition get_attractions (env : Env) (city : string) : list dict :=
  let city_lower := strip (lower city) in
  match table_get city_lower CURATED_ATTRACTIONS with
  | Some curated => curated
  | None =>
      match attractions_from_llm env city with
      | Returned (a :: attractions) => a :: attractions
      | _ => generic_attractions city
      end
  end.

(** ** tools/exchanges.py *)

(** [EXCHANGES]: the exchange listings, by lower-case country. *)
Definition EXCHANGES : list (string * list dict) :=
  [("japan",
     [[("name", VStr "Tokyo Stock Exchange (TSE)");
        ("city", VStr "Tokyo");
        ("lat", VFloat 35.6815);
        ("lon", VFloat 139.774);
        ("maps_link", VStr "https://www.google.com/maps/search/?api=1&query=Tokyo+Stock+Exchange");
        ("established", VStr "1878");
        ("description", VStr "Third-largest stock exchange in the world by market capitalization.");
        ("major_indices", VList [VStr "Nikkei 225"; VStr "TOPIX"])]]);
   ("india",
     [[("name", VStr "Bombay Stock Exchange (BSE)");
        ("city", VStr "Mumbai");
        ("lat", VFloat 18.93);
        ("lon", VFloat 72.8347);
        ("maps_link", VStr "https://www.google.com/maps/search/?api=1&query=Bombay+Stock+Exchange+Mumbai");
        ("established", VStr "1875");
        ("description", VStr "Asia's oldest stock exchange, located at Dalal Street, Mumbai.");
        ("major_indices", VList [VStr "BSE SENSEX"])];
      [("name", VStr "National Stock Exchange (NSE)");
        ("city", VStr "Mumbai");
        ("lat", VFloat 19.0544);
        ("lon", VFloat 72.8407);
        ("maps_link", VStr "https://www.google.com/maps/search/?api=1&query=National+Stock+Exchange+Mumbai");
        ("established", VStr "1992");
        ("description", VStr "India's leading stock exchange by trading volume.");
        ("major_indices", VList [VStr "NIFTY 50"])]]);
   ("united states",
     [[("name", VStr "New York Stock Exchange (NYSE)");
        ("city", VStr "New York");
        ("lat", VFloat 40.7069);
        ("lon", (VFloat (-74.0113)));
        ("maps_link", VStr "https://www.google.com/maps/search/?api=1&query=New+York+Stock+Exchange");
        ("established", VStr "1792");
        ("description", VStr "World's largest stock exchange by market capitalization.");
        ("major_indices", VList [VStr "S&P 500"; VStr "Dow Jones"])];
      [("name", VStr "NASDAQ");
        ("city", VStr "New York");
        ("lat", VFloat 40.7568);
        ("lon", (VFloat (-73.9862)));
        ("maps_link", VStr "https://www.google.com/maps/search/?api=1&query=NASDAQ+MarketSite+Times+Square");
        ("established", VStr "1971");
        ("description", VStr "Second-largest stock exchange globally, tech-heavy.");
        ("major_indices", VList [VStr "NASDAQ Composite"])]]);
   ("south korea",
     [[("name", VStr "Korea Exchange (KRX)");
        ("city", VStr "Busan");
        ("lat", VFloat 35.1028);
        ("lon", VFloat 129.0322);
        ("maps_link", VStr "https://www.google.com/maps/search/?api=1&query=Korea+Exchange+Busan");
        ("established", VStr "2005");
        ("description", VStr "Sole securities exchange operator in South Korea.");
        ("major_indices", VList [VStr "KOSPI"; VStr "KOSDAQ"])]]);
   ("china",
     [[("name", VStr "Shanghai Stock Exchange (SSE)");
        ("city", VStr "Shanghai");
        ("lat", VFloat 31.2328);
        ("lon", VFloat 121.4871);
        ("maps_link", VStr "https://www.google.com/maps/search/?api=1&query=Shanghai+Stock+Exchange");
        ("established", VStr "1990");
        ("description", VStr "Largest stock exchange in China and one of the largest in Asia.");
        ("major_indices", VList [VStr "SSE Composite"])];
      [("name", VStr "Shenzhen Stock Exchange (SZSE)");
        ("city", VStr "Shenzhen");
        ("lat", VFloat 22.5362);
        ("lon", VFloat 114.0579);
        ("maps_link", VStr "https://www.google.com/maps/search/?api=1&query=Shenzhen+Stock+Exchange");
        ("established", VStr "1990");
        ("description", VStr "Second stock exchange in mainland China, known for tech listings.");
        ("major_indices", VList [VStr "Shenzhen Composite"])];
      [("name", VStr "Hong Kong Stock Exchange (HKEX)");
        ("city", VStr "Hong Kong");
        ("lat", VFloat 22.2864);
        ("lon", VFloat 114.1587);
        ("maps_link", VStr "https://www.google.com/maps/search/?api=1&query=Hong+Kong+Stock+Exchange");
        ("established", VStr "1891");
        ("description", VStr ("One of Asia's largest exchanges, gateway for international investors to "
            ++ "China."));
        ("major_indices", VList [VStr "Hang Seng Index"])]]);
   ("united kingdom",
     [[("name", VStr "London Stock Exchange (LSE)");
        ("city", VStr "London");
        ("lat", VFloat 51.5144);
        ("lon", (VFloat (-0.0987)));
        ("maps_link", VStr "https://www.google.com/maps/search/?api=1&query=London+Stock+Exchange");
        ("established", VStr "1801");
        ("description", VStr "One of the oldest and largest stock exchanges in Europe.");
        ("major_indices", VList [VStr "FTSE 100"; VStr "FTSE 250"])]])].

(** [s.replace(' ', '+')]. *)
Definition spaces_to_plus (s : string) : string :=
  str_map (fun c => if Ascii.eqb c " " then "+"%char else c) s.

Definition get_exchange_info (country : string) : list dict :=
  let country_lower := strip (lower country) in
  let exchanges := default [] (table_get country_lower EXCHANGES) in
  match exchanges with
  | [] =>
      [[("name", VStr (country ++ " Stock Exchange"));
        ("city", VStr "Unknown");
        ("maps_link",
         VStr ("https://www.google.com/maps/search/?api=1&query="
               ++ spaces_to_plus country ++ "+Stock+Exchange"));
        ("established", VStr "N/A");
        ("description",
         VStr ("Stock exchange information for " ++ country ++ " not in database."));
        ("major_indices", VList []);
        ("sample", VBool true)]]
  | _ => exchanges
  end.

(** ** tools/currency_fx.py *)

Definition FALLBACK_CURRENCIES : list (string * dict) :=
  [("japan",
    [("currency_code", VStr "JPY");
     ("currency_name", VStr "Japanese yen");
     ("currency_symbol", VStr "¥");
     ("capital", VStr "Tokyo");
     ("latlng", VList [VFloat 36.0; VFloat 138.0])]);
   ("india",
    [("currency_code", VStr "INR");
     ("currency_name", VStr "Indian rupee");
     ("currency_symbol", VStr "₹");
     ("capital", VStr "New Delhi");
     ("latlng", VList [VFloat 20.0; VFloat 77.0])]);
   ("united states",
    [("currency_code", VStr "USD");
     ("currency_name", VStr "United States dollar");
     ("currency_symbol", VStr "$");
     ("capital", VStr "Washington, D.C.");
     ("latlng", VList [VFloat 38.0; (VFloat (-97.0))])]);
   ("south korea",
    [("currency_code", VStr "KRW");
     ("currency_name", VStr "South Korean won");
     ("currency_symbol", VStr "₩");
     ("capital", VStr "Seoul");
     ("latlng", VList [VFloat 37.0; VFloat 127.5])]);
   ("china",
    [("currency_code", VStr "CNY");
     ("currency_name", VStr "Chinese yuan");
     ("currency_symbol", VStr "¥");
     ("capital", VStr "Beijing");
     ("latlng", VList [VFloat 35.0; VFloat 105.0])]);
   ("united kingdom",
    [("currency_code", VStr "GBP");
     ("currency_name", VStr "British pound sterling");
     ("currency_symbol", VStr "£");
     ("capital", VStr "London");
     ("latlng", VList [VFloat 54.0; (VFloat (-2.0))])])].

Definition FALLBACK_RATES : list (string * dict) :=
  [("JPY", [("USD", VFloat 0.0067); ("INR", VFloat 0.56); ("GBP", VFloat 0.0053); ("EUR", VFloat 0.0062)]);
   ("INR", [("USD", VFloat 0.012); ("INR", VFloat 1.0); ("GBP", VFloat 0.0095); ("EUR", VFloat 0.011)]);
   ("USD", [("USD", VFloat 1.0); ("INR", VFloat 83.5); ("GBP", VFloat 0.79); ("EUR", VFloat 0.92)]);
   ("KRW", [("USD", VFloat 0.00075);
     ("INR", VFloat 0.063);
     ("GBP", VFloat 0.00059);
     ("EUR", VFloat 0.00069)]);
   ("CNY", [("USD", VFloat 0.14); ("INR", VFloat 11.5); ("GBP", VFloat 0.11); ("EUR", VFloat 0.13)]);
   ("GBP", [("USD", VFloat 1.27); ("INR", VFloat 105.8); ("GBP", VFloat 1.0); ("EUR", VFloat 1.17)])].

Definition get_currency_info (env : Env) (country : string) : dict :=
  let country_lower := strip (lower country) in
  match restcountries env country with
  | Returned (Some c) =>
      [("country", rc_common_name c);
       ("currency_code", VStr (rc_code c));
       ("currency_name", rc_currency_name c);
       ("currency_symbol", rc_currency_symbol c);
       ("capital", rc_capital c);
       ("latlng", rc_latlng c);
       ("flag", rc_flag c);
       ("sample", VBool false)]
  | _ =>
      match table_get country_lower FALLBACK_CURRENCIES with
      | Some fb =>
          dict_merge (dict_merge [("country", VStr country)] fb)
            [("flag", VStr "");
             ("sample", VBool true);
             ("note", VStr "Fallback data used")]
      | None =>
          [("country", VStr country);
           ("currency_code", VStr "N/A");
           ("currency_name", VStr "Unknown");
           ("currency_symbol", VStr "");
           ("capital", VStr "Unknown");
           ("latlng", VList [VInt 0; VInt 0]);
           ("flag", VStr "");
           ("sample", VBool true);
           ("note", VStr "Country not found")]
      end
  end.

Definition target_currencies : list string := ["USD"; "INR"; "GBP"; "EUR"].

(** [{c: 0.0 for c in target_currencies}]. *)
Definition zero_rates : dict := map (fun c => (c, VFloat 0.0)) target_currencies.

Definition fx_fallback (currency_code note_known note_unknown : string) : dict :=
  match table_get currency_code FALLBACK_RATES with
  | Some rates =>
      [("base", VStr currency_code);
       ("rates", VDict rates);
       ("last_updated", VStr "N/A");
       ("sample", VBool true);
       ("note", VStr note_known)]
  | None =>
      [("base", VStr currency_code);
       ("rates", VDict zero_rates);
       ("last_updated", VStr "N/A");
       ("sample", VBool true);
       ("note", VStr note_unknown)]
  end.

Definition get_fx_rates (env : Env) (currency_code : string) : dict :=
  let api_key := EXCHANGERATE_API_KEY env in
  if String.eqb api_key "" then
    fx_fallback currency_code
      "SAMPLE DATA - EXCHANGERATE_API_KEY not set"
      "Currency not found in fallback data"
  else
    match exchangerate env api_key currency_code with
    | Returned (Some data) =>
        [("base", VStr currency_code);
         ("rates",
          VDict [("USD", fx_usd data); ("INR", fx_inr data);
                 ("GBP", fx_gbp data); ("EUR", fx_eur data)]);
         ("last_updated", fx_time data);
         ("sample", VBool false)]
    | _ =>
        fx_fallback currency_code "Fallback data - API error" "Currency not found"
    end.

(** ** tools/stocks.py *)

Definition COUNTRY_INDICES : list (string * list dict) :=
  [("japan",
    [[("name", VStr "Nikkei 225");
       ("ticker", VStr "^N225");
       ("exchange", VStr "Tokyo Stock Exchange")];
     [("name", VStr "TOPIX"); ("ticker", VStr "^TOPX"); ("exchange", VStr "Tokyo Stock Exchange")]]);
   ("india",
    [[("name", VStr "BSE SENSEX");
       ("ticker", VStr "^BSESN");
       ("exchange", VStr "Bombay Stock Exchange")];
     [("name", VStr "NIFTY 50");
       ("ticker", VStr "^NSEI");
       ("exchange", VStr "National Stock Exchange")]]);
   ("united states",
    [[("name", VStr "S&P 500");
       ("ticker", VStr "^GSPC");
       ("exchange", VStr "New York Stock Exchange")];
     [("name", VStr "Dow Jones");
       ("ticker", VStr "^DJI");
       ("exchange", VStr "New York Stock Exchange")];
     [("name", VStr "NASDAQ Composite"); ("ticker", VStr "^IXIC"); ("exchange", VStr "NASDAQ")]]);
   ("south korea",
    [[("name", VStr "KOSPI"); ("ticker", VStr "^KS11"); ("exchange", VStr "Korea Exchange")];
     [("name", VStr "KOSDAQ"); ("ticker", VStr "^KQ11"); ("exchange", VStr "Korea Exchange")]]);
   ("china",
    [[("name", VStr "SSE Composite");
       ("ticker", VStr "000001.SS");
       ("exchange", VStr "Shanghai Stock Exchange")];
     [("name", VStr "Shenzhen Composite");
       ("ticker", VStr "399001.SZ");
       ("exchange", VStr "Shenzhen Stock Exchange")];
     [("name", VStr "Hang Seng");
       ("ticker", VStr "^HSI");
       ("exchange", VStr "Hong Kong Stock Exchange")]]);
   ("united kingdom",
    [[("name", VStr "FTSE 100");
       ("ticker", VStr "^FTSE");
       ("exchange", VStr "London Stock Exchange")];
     [("name", VStr "FTSE 250");
       ("ticker", VStr "^FTMC");
       ("exchange", VStr "London Stock Exchange")]])].

Definition FALLBACK_VALUES : list (string * Q) :=
  [("^N225", 38500.0%Q);
   ("^TOPX", 2700.0%Q);
   ("^BSESN", 73500.0%Q);
   ("^NSEI", 22200.0%Q);
   ("^GSPC", 5100.0%Q);
   ("^DJI", 39200.0%Q);
   ("^IXIC", 16100.0%Q);
   ("^KS11", 2650.0%Q);
   ("^KQ11", 870.0%Q);
   ("000001.SS", 3050.0%Q);
   ("399001.SZ", 9500.0%Q);
   ("^HSI", 17200.0%Q);
   ("^FTSE", 7700.0%Q);
   ("^FTMC", 19800.0%Q)].

(** [d[k]] on the rows of [COUNTRY_INDICES], whose values are strings. *)
Definition str_field (k : string) (d : dict) : string :=
  match dict_get k d with
  | Some (VStr s) => s
  | _ => ""
  end.

(** One turn of the loop over [indices_info]. *)
Definition index_row (env : Env) (idx_info : dict) : dict :=
  let ticker := str_field "ticker" idx_info in
  match yf_history env ticker with
  | Returned quote =>
      [("index_name", VStr (str_field "name" idx_info));
       ("ticker", VStr ticker);
       ("exchange", VStr (str_field "exchange" idx_info));
       ("value", VFloat (yf_current quote));
       ("change", VFloat (yf_change quote));
       ("change_pct", VFloat (yf_change_pct quote));
       ("sample", VBool false)]
  | Raised e =>
      let fb_val := default 0.0%Q (table_get ticker FALLBACK_VALUES) in
      [("index_name", VStr (str_field "name" idx_info));
       ("ticker", VStr ticker);
       ("exchange", VStr (str_field "exchange" idx_info));
       ("value", VFloat fb_val);
       ("change", VFloat 0.0);
       ("change_pct", VFloat 0.0);
       ("sample", VBool true);
       ("note", VStr ("Fallback data - " ++ str_take 50 e))]
  end.

Definition get_stock_indices (env : Env) (country : string) : list dict :=
  let country_lower := strip (lower country) in
  let indices_info := default [] (table_get country_lower COUNTRY_INDICES) in
  match indices_info with
  | [] =>
      [[("error", VStr ("No index data available for " ++ country));
        ("sample", VBool true)]]
  | _ => map (index_row env) indices_info
  end.

(** ** The state of a pipeline run *)

(** What the recorder was asked to do, in order.  The history is not part of
    the program: it only serves to count the calls of [end_call]. *)
Inductive event : Type :=
| EvStart (index : Z)
| EvEnd (index : Z).

Section Run.
Context {R : RandomModule}.

(** Process-wide state: the generator of the random module and the number
    of answers [time.time()] has given. *)
Record World : Type := mkWorld {
  w_rng : rng;
  w_ticks : nat;
}.

(** A registered tool: called with keyword arguments, it returns or raises
    and may change the process-wide state.  It has no access to the trace
    or to the results of the run. *)
Definition tool : Type := dict -> World -> outcome value * World.

(** The objects of one run: [trace], [results], and the history. *)
Record Store : Type := mkStore {
  st_world : World;
  st_trace : MCPTrace;
  st_results : dict;
  st_history : list event;
}.

(** A statement: it ends normally or raises, and the state it leaves is the
    one the next statement, or the handler, starts from. *)
Definition M (A : Type) : Type := Store -> outcome A * Store.

Definition m_ret {A} (a : A) : M A := fun st => (Returned a, st).
Definition m_bind {A B} (m : M A) (k : A -> M B) : M B :=
  fun st =>
    match m st with
    | (Returned a, st') => k a st'
    | (Raised e, st') => (Raised e, st')
    end.

#[global] Instance M_ret : MRet M := @m_ret.
#[global] Instance M_bind : MBind M := fun A B k m => m_bind m k.

(** [try: body except Exception as e: handler(str(e))]. *)
Definition m_try {A} (body : M A) (handler : string -> M A) : M A :=
  fun st =>
    match body st with
    | (Returned a, st') => (Returned a, st')
    | (Raised e, st') => handler e st'
    end.

(** A pure expression that may raise. *)
Definition m_lift {A} (o : outcome A) : M A := fun st => (o, st).

(** [results[k] = v] and reading [results]. *)
Definition set_result (k : string) (v : value) : M unit :=
  fun st =>
    (Returned tt,
     mkStore (st_world st) (st_trace st) (dict_set k v (st_results st))
       (st_history st)).

Definition get_results : M dict := fun st => (Returned (st_results st), st).

(** Calling a tool. *)
Definition m_tool (fn : tool) (kwargs : dict) : M value :=
  fun st =>
    let (o, w') := fn kwargs (st_world st) in
    (o, mkStore w' (st_trace st) (st_results st) (st_history st)).

Section Recorder.
Variable env : Env.

(** [trace.start_call(name, kwargs)]: one reading of the clock. *)
Definition m_start_call (name : string) (kwargs : dict) : M Z :=
  fun st =>
    let w := st_world st in
    let (idx, t') := start_call (clock env (w_ticks w)) name kwargs (st_trace st) in
    (Returned idx,
     mkStore (mkWorld (w_rng w) (S (w_ticks w))) t' (st_results st)
       (st_history st ++ [EvStart idx])%list).

(** [trace.end_call(index, out, error=err)]: the clock is read once the
    call has been found. *)
Definition m_end_call (index : Z) (out : value) (err : option string) : M unit :=
  fun st =>
    let w := st_world st in
    match end_call (clock env (w_ticks w)) index out err (st_trace st) with
    | Returned t' =>
        (Returned tt,
         mkStore (mkWorld (w_rng w) (S (w_ticks w))) t' (st_results st)
           (st_history st ++ [EvEnd index])%list)
    | Raised e => (Raised e, st)
    end.

(** ** [_call_tool], the same in agent_trip.py and agent_market.py;
    [registry] is the module's [TOOL_REGISTRY].  A missing name is a
    KeyError, whose [str] is the quoted name. *)
Definition _call_tool (registry : list (string * tool)) (name : string)
  (kwargs : dict) : M value :=
  idx ← m_start_call name kwargs;
  m_try
    (fn ← m_lift (match table_get name registry with
                  | Some fn => Returned fn
                  | None => Raised ("'" ++ name ++ "'")
                  end);
     result ← m_tool fn kwargs;
     _ ← m_end_call idx result None;
     mret result)
    (fun e =>
       _ ← m_end_call idx VNone (Some e);
       mret (VDict [("error", VStr e)])).

(** A pipeline starts with a fresh trace and an empty [results]; what it
    returns is [results] and the trace stored under its key trace. *)
Definition initial_store (w : World) : Store := mkStore w new_trace [] [].

Definition run_pipeline (body : M unit) (meta : dict) (w : World)
  : outcome (dict * MCPTrace) * World :=
  match body (initial_store w) with
  | (Returned _, st) =>
      (Returned (dict_set "meta" (VDict meta) (st_results st), st_trace st),
       st_world st)
  | (Raised e, st) => (Raised e, st_world st)
  end.
End Recorder.
End Run.

(** ** utils/agent_trip.py *)

Module agent_trip.
Section Pipeline.
Context {R : RandomModule}.
Variable env : Env.
(** The names the module looks up when it runs: its registry and the
  [ask_gemini] it imported. *)
Variable TOOL_REGISTRY : list (string * tool).
Variable ask : string -> outcome string.

Definition culture_prompt (to_city : string) : string :=
"Write a concise but rich paragraph (150-200 words) about " ++ to_city ++ " 
covering its cultural significance, historical highlights, and what makes it 
a unique travel destination. Include notable facts, traditions, and atmosphere.".

Definition itin_prompt (from_city to_city start_date end_date budget : string)
(travelers : Z) (preferences attractions forecast : string) : string :=
"Create a detailed day-by-day travel itinerary for a trip to " ++ to_city ++ ".

Trip Details:
- From: " ++ from_city ++ "
- Dates: " ++ start_date ++ " to " ++ end_date ++ "
- Travelers: " ++ str_of_int travelers ++ "
- Budget: " ++ budget ++ "
- Preferences: " ++ (if String.eqb preferences "" then "General sightseeing" else preferences) ++ "

Available Attractions: " ++ attractions ++ "

Weather forecast shows: " ++ forecast ++ "

Format each day as:
**Day N: Title**
- Morning: activity
- Afternoon: activity  
- Evening: activity
- Dining suggestion

Include practical tips for each day. Make it detailed and useful.".

(** [[a.get("name", "") for a in results.get("attractions", [])
    if isinstance(a, dict)]]. *)
Definition attractions_names_of (results : dict) : outcome (list value) :=
items ← py_iter (dict_get_default "attractions" (VList []) results);
Returned (gets_of_dicts "name" (VStr "") items).

(** Step 1. *)
Definition step_culture (to_city : string) : M unit :=
culture_idx ← m_start_call env "llm_cultural_paragraph"
  [("city", VStr to_city); ("prompt_type", VStr "cultural_historic_info")];
m_try
  (culture_text ← m_lift (ask (culture_prompt to_city));
   if String.eqb culture_text LLM_UNAVAILABLE then
     let culture_text := get_fallback_cultural_info to_city in
     _ ← m_end_call env culture_idx
           (VStr "Used pre-written fallback (LLM unavailable)") None;
     set_result "cultural_info" (VStr culture_text)
   else
     _ ← m_end_call env culture_idx
           (VStr (str_take 200 culture_text ++ "...")) None;
     set_result "cultural_info" (VStr culture_text))
  (fun e =>
     _ ← m_end_call env culture_idx VNone (Some e);
     set_result "cultural_info" (VStr (get_fallback_cultural_info to_city))).

(** [results[key] = _call_tool(trace, name, **kwargs)]. *)
Definition step_tool (key name : string) (kwargs : dict) : M unit :=
v ← _call_tool env TOOL_REGISTRY name kwargs;
set_result key v.

(** Step 7. *)
Definition step_itinerary (from_city to_city start_date end_date budget : string)
(travelers : Z) (preferences : string) : M unit :=
itin_idx ← m_start_call env "llm_day_itinerary"
  [("city", VStr to_city);
   ("dates", VStr (start_date ++ " to " ++ end_date));
   ("prompt_type", VStr "day_by_day_plan")];
m_try
  (results ← get_results;
   attractions_names ← m_lift (attractions_names_of results);
   attractions ← m_lift (py_join ", " attractions_names);
   first3 ← m_lift (py_slice_to 3 (dict_get_default "forecast" (VList []) results));
   days ← m_lift (py_iter first3);
   forecast ← m_lift (py_join ", " (gets_of_dicts "description" (VStr "N/A") days));
   itinerary_text ← m_lift (ask (itin_prompt from_city to_city start_date end_date
                                   budget travelers preferences attractions forecast));
   if String.eqb itinerary_text LLM_UNAVAILABLE then
     let itinerary_text :=
       get_fallback_itinerary env to_city from_city start_date end_date
         travelers budget preferences attractions_names in
     _ ← m_end_call env itin_idx
           (VStr "Used pre-written fallback (LLM unavailable)") None;
     set_result "itinerary" (VStr itinerary_text)
   else
     _ ← m_end_call env itin_idx
           (VStr (str_take 200 itinerary_text ++ "...")) None;
     set_result "itinerary" (VStr itinerary_text))
  (fun e =>
     _ ← m_end_call env itin_idx VNone (Some e);
     results ← get_results;
     attractions_names ← m_lift (attractions_names_of results);
     set_result "itinerary"
       (VStr (get_fallback_itinerary env to_city from_city start_date end_date
                travelers budget preferences attractions_names))).

Definition pipeline (from_city to_city start_date end_date budget : string)
(travelers : Z) (preferences : string) : M unit :=
_ ← step_culture to_city;
_ ← step_tool "current_weather" "get_current_weather" [("city", VStr to_city)];
_ ← step_tool "forecast" "get_weather_forecast" [("city", VStr to_city)];
_ ← step_tool "flights" "search_flights"
      [("from_city", VStr from_city); ("to_city", VStr to_city);
       ("date", VStr start_date); ("travelers", VInt travelers)];
_ ← step_tool "hotels" "search_hotels"
      [("city", VStr to_city); ("checkin", VStr start_date);
       ("checkout", VStr end_date); ("guests", VInt travelers)];
_ ← step_tool "attractions" "get_attractions" [("city", VStr to_city)];
step_itinerary from_city to_city start_date end_date budget travelers preferences.

Definition meta (from_city to_city start_date end_date budget : string)
(travelers : Z) (preferences : string) : dict :=
[("from_city", VStr from_city);
 ("to_city", VStr to_city);
 ("start_date", VStr start_date);
 ("end_date", VStr end_date);
 ("budget", VStr budget);
 ("travelers", VInt travelers);
 ("preferences", VStr preferences)].

(** [run_trip_agent] with the module's names as parameters. *)
Definition run_trip_agent_with (from_city to_city start_date end_date budget : string)
(travelers : Z) (preferences : string) : World -> outcome (dict * MCPTrace) * World :=
run_pipeline
  (pipeline from_city to_city start_date end_date budget travelers preferences)
  (meta from_city to_city start_date end_date budget travelers preferences).
End Pipeline.
End agent_trip.

(** ** utils/agent_market.py *)

Module agent_market.
Section Pipeline.
Context {R : RandomModule}.
Variable env : Env.
Variable TOOL_REGISTRY : list (string * tool).
Variable ask : string -> outcome string.

Definition summary_prompt (country currency_name idx_names extra_query : string)
: string :=
"Write a brief paragraph (100-150 words) about " ++ country ++ "'s financial market landscape.
Cover: the official currency (" ++ currency_name ++ "), 
major stock exchanges, key indices (" ++ idx_names ++ "), and the country's position 
in global financial markets. 
" ++ (if String.eqb extra_query "" then "" else "Additional context: " ++ extra_query) ++ "
Keep it factual and informative.".

Definition step_tool (key name : string) (kwargs : dict) : M unit :=
v ← _call_tool env TOOL_REGISTRY name kwargs;
set_result key v.

(** [results[key]]: the key has been assigned by an earlier step. *)
Definition result_of (key : string) (results : dict) : value :=
dict_get_default key VNone results.

(** [[i.get("index_name", "") for i in results.get("indices", [])
    if isinstance(i, dict)]]. *)
Definition idx_names_of (results : dict) : outcome (list value) :=
items ← py_iter (dict_get_default "indices" (VList []) results);
Returned (gets_of_dicts "index_name" (VStr "") items).

(** Step 5. *)
Definition step_summary (country extra_query : string) : M unit :=
summary_idx ← m_start_call env "llm_market_summary"
  [("country", VStr country); ("prompt_type", VStr "market_overview")];
m_try
  (results ← get_results;
   idx_names ← m_lift (idx_names_of results);
   currency_name ← m_lift (py_get (result_of "currency_info" results)
                             "currency_name" (VStr "N/A"));
   joined ← m_lift (py_join ", " idx_names);
   summary_text ← m_lift (ask (summary_prompt country (fmt env currency_name)
                                 joined extra_query));
   if String.eqb summary_text LLM_UNAVAILABLE then
     summary_text ← m_lift (get_fallback_market_summary env country
                              currency_name idx_names);
     _ ← m_end_call env summary_idx
           (VStr "Used pre-written fallback (LLM unavailable)") None;
     set_result "market_summary" (VStr summary_text)
   else
     _ ← m_end_call env summary_idx
           (VStr (str_take 200 summary_text ++ "...")) None;
     set_result "market_summary" (VStr summary_text))
  (fun e =>
     _ ← m_end_call env summary_idx VNone (Some e);
     results ← get_results;
     idx_names ← m_lift (idx_names_of results);
     currency_name ← m_lift (py_get (result_of "currency_info" results)
                               "currency_name" (VStr "N/A"));
     summary_text ← m_lift (get_fallback_market_summary env country
                              currency_name idx_names);
     set_result "market_summary" (VStr summary_text)).

Definition pipeline (country extra_query : string) : M unit :=
_ ← step_tool "currency_info" "get_currency_info" [("country", VStr country)];
results ← get_results;
currency_code ← m_lift (py_get (result_of "currency_info" results)
                          "currency_code" (VStr "USD"));
_ ← step_tool "fx_rates" "get_fx_rates" [("currency_code", currency_code)];
_ ← step_tool "exchanges" "get_exchange_info" [("country", VStr country)];
_ ← step_tool "indices" "get_stock_indices" [("country", VStr country)];
step_summary country extra_query.

Definition meta (country extra_query : string) : dict :=
[("country", VStr country); ("extra_query", VStr extra_query)].

(** [run_market_agent] with the module's names as parameters. *)
Definition run_market_agent_with (country extra_query : string)
: World -> outcome (dict * MCPTrace) * World :=
run_pipeline (pipeline country extra_query) (meta country extra_query).
End Pipeline.
End agent_market.

(** ** The tools as registered

    The call of a registered function binds the keyword arguments by name.  The tools are embedded at
    the types of their annotations; a call that does not fit them is
    rendered as a TypeError. *)

Section Registry.
Context {R : RandomModule}.
Variable env : Env.

Definition arg_str (k : string) (kwargs : dict) : outcome string :=
  match dict_get k kwargs with
  | Some (VStr s) => Returned s
  | _ => Raised ("bad argument '" ++ k ++ "'")
  end.

Definition arg_int (k : string) (kwargs : dict) : outcome Z :=
  match dict_get k kwargs with
  | Some (VInt z) => Returned z
  | _ => Raised ("bad argument '" ++ k ++ "'")
  end.

(** A list of records as a value. *)
Definition records (l : list dict) : value := VList (map VDict l).

(** A tool that leaves the process-wide state alone. *)
Definition pure_tool (f : dict -> outcome value) : tool :=
  fun kwargs w => (f kwargs, w).

(** A tool that draws from the random module. *)
Definition rand_tool (f : dict -> outcome (Rand value)) : tool :=
  fun kwargs w =>
    match f kwargs with
    | Returned m =>
        let (v, g) := m (w_rng w) in (Returned v, mkWorld g (w_ticks w))
    | Raised e => (Raised e, w)
    end.

Definition tool_get_current_weather : tool :=
  pure_tool (fun kw =>
    city ← arg_str "city" kw;
    Returned (VDict (get_current_weather env city))).

Definition tool_get_weather_forecast : tool :=
  pure_tool (fun kw =>
    city ← arg_str "city" kw;
    Returned (records (get_weather_forecast env city))).

Definition tool_search_flights : tool :=
  rand_tool (fun kw =>
    from_city ← arg_str "from_city" kw;
    to_city ← arg_str "to_city" kw;
    date ← arg_str "date" kw;
    travelers ← arg_int "travelers" kw;
    Returned (fun g =>
                let (l, g') := search_flights env from_city to_city date travelers g in
                (records l, g'))).

Definition tool_search_hotels : tool :=
  rand_tool (fun kw =>
    city ← arg_str "city" kw;
    checkin ← arg_str "checkin" kw;
    checkout ← arg_str "checkout" kw;
    guests ← arg_int "guests" kw;
    Returned (fun g =>
                let (l, g') := search_hotels env city checkin checkout guests g in
                (records l, g'))).

Definition tool_get_attractions : tool :=
  pure_tool (fun kw =>
    city ← arg_str "city" kw;
    Returned (records (get_attractions env city))).

Definition tool_get_currency_info : tool :=
  pure_tool (fun kw =>
    country ← arg_str "country" kw;
    Returned (VDict (get_currency_info env country))).

Definition tool_get_fx_rates : tool :=
  pure_tool (fun kw =>
    currency_code ← arg_str "currency_code" kw;
    Returned (VDict (get_fx_rates env currency_code))).

Definition tool_get_stock_indices : tool :=
  pure_tool (fun kw =>
    country ← arg_str "country" kw;
    Returned (records (get_stock_indices env country))).

Definition tool_get_exchange_info : tool :=
  pure_tool (fun kw =>
    country ← arg_str "country" kw;
    Returned (records (get_exchange_info country))).

(** [agent_trip.TOOL_REGISTRY]. *)
Definition TRIP_TOOL_REGISTRY : list (string * tool) :=
  [("get_current_weather", tool_get_current_weather);
   ("get_weather_forecast", tool_get_weather_forecast);
   ("search_flights", tool_search_flights);
   ("search_hotels", tool_search_hotels);
   ("get_attractions", tool_get_attractions)].

(** [agent_market.TOOL_REGISTRY]. *)
Definition MARKET_TOOL_REGISTRY : list (string * tool) :=
  [("get_currency_info", tool_get_currency_info);
   ("get_fx_rates", tool_get_fx_rates);
   ("get_stock_indices", tool_get_stock_indices);
   ("get_exchange_info", tool_get_exchange_info)].

(** [run_trip_agent] as the module defines it. *)
Definition run_trip_agent (from_city to_city start_date end_date budget : string)
  (travelers : Z) (preferences : string) : World -> outcome (dict * MCPTrace) * World :=
  agent_trip.run_trip_agent_with env TRIP_TOOL_REGISTRY (ask_gemini env)
    from_city to_city start_date end_date budget travelers preferences.

(** [run_market_agent] as the module defines it. *)
Definition run_market_agent (country extra_query : string)
  : World -> outcome (dict * MCPTrace) * World :=
  agent_market.run_market_agent_with env MARKET_TOOL_REGISTRY (ask_gemini env)
    country extra_query.
End Registry.

(** ** The remaining functions of utils/trace.py and utils/llm.py *)

(** [MCPTrace.reset]: the list of calls is replaced by an empty one. *)
Definition reset (t : MCPTrace) : MCPTrace := mkTrace [].

(** [configure_gemini]: [True] when one of the two keys is set, [None]
    otherwise. *)
Definition configure_gemini (env : Env) : value :=
  if negb (String.eqb (GROQ_API_KEY env) "") then VBool true
  else if negb (String.eqb (GOOGLE_API_KEY env) "") then VBool true
  else VNone.

(** * Vocabulary of the statements *)

(** The primary backend fails: no credential, or the call raises. *)
Definition groq_fails (env : Env) (prompt : string) : Prop :=
  GROQ_API_KEY env = "" \/
  exists e, groq_chat env (GROQ_API_KEY env) prompt = Raised e.

(** The secondary backend fails: no library, no credential, or the call
    raises. *)
Definition gemini_fails (env : Env) (prompt : string) : Prop :=
  HAS_GOOGLE env = false \/
  GOOGLE_API_KEY env = "" \/
  exists e, gemini_generate env (GOOGLE_API_KEY env) prompt = Raised e.

(** A handle that designates an existing call not yet finished: a position
    [start_call] returned, whose record is still pending. *)
Definition open_handle (t : MCPTrace) (h : Z) : Prop :=
  exists call,
    0 <= h /\ calls t !! Z.to_nat h = Some call /\ status call = "pending".

(** A trace whose only call has been started and finished. *)
Definition finished_once : MCPTrace :=
  mkTrace [mkToolCall "get_current_weather" [("city", VStr "Tokyo")]
             (VStr "first") "success" 0 1000.0 None].

(** The record of a call started at time 2 and ended at time 1. *)
Definition set_back_call : ToolCall :=
  mkToolCall "get_current_weather" [("city", VStr "Tokyo")] (VStr "sunny")
    "success" 2 (-1000.0) None.

(** The record stores the int [p] under the key [k]. *)
Definition storesb (k : string) (p : Z) (r : dict) : bool :=
  match dict_get k r with
  | Some (VInt z) => z =? p
  | _ => false
  end.

(** Both records store an int under [k], and the one of [a] is not the
    larger. *)
Definition price_le (k : string) (a b : dict) : Prop :=
  exists pa pb,
    dict_get k a = Some (VInt pa) /\ dict_get k b = Some (VInt pb) /\ pa <= pb.

(** The record carries the boolean flag [sample], with value [b]. *)
Definition has_flag (r : dict) (b : bool) : Prop :=
  dict_get "sample" r = Some (VBool b).

(** The record has no key [sample]. *)
Definition no_flag (r : dict) : Prop := dict_get "sample" r = None.

(** An environment without any credential, whose services all fail. *)
Definition offline_env : Env :=
  mkEnv "" "" "" "" false
    (fun _ _ => Raised "connection refused")
    (fun _ _ => Raised "connection refused")
    (fun _ _ => Raised "connection refused")
    (fun _ _ => Raised "connection refused")
    (fun _ => Raised "connection refused")
    (fun _ _ => Raised "connection refused")
    (fun _ => Raised "No data returned")
    (fun s => Z.of_nat (String.length s) * 7919)
    (fun _ => None)
    (fun _ => "?")
    (fun n => inject_Z (Z.of_nat n)).

(** An environment with every credential set, whose services all fail. *)
Definition unreachable_env : Env :=
  mkEnv "weather-key" "fx-key" "groq-key" "google-key" true
    (fun _ _ => Raised "connection refused")
    (fun _ _ => Raised "connection refused")
    (fun _ _ => Raised "connection refused")
    (fun _ _ => Raised "connection refused")
    (fun _ => Raised "connection refused")
    (fun _ _ => Raised "connection refused")
    (fun _ => Raised "No data returned")
    (fun s => Z.of_nat (String.length s) * 7919)
    (fun _ => None)
    (fun _ => "?")
    (fun n => inject_Z (Z.of_nat n)).

(** A record that has been finalized. *)
Definition finalized (c : ToolCall) : Prop :=
  status c = "success" \/ status c = "error".

(** How often the history asks to start, and to end, the call at [i]. *)
Definition is_start (i : Z) (e : event) : bool :=
  match e with EvStart j => j =? i | EvEnd _ => false end.

Definition is_end (i : Z) (e : event) : bool :=
  match e with EvEnd j => j =? i | EvStart _ => false end.

Definition starts_of (i : Z) (h : list event) : nat :=
  length (List.filter (is_start i) h).

Definition ends_of (i : Z) (h : list event) : nat :=
  length (List.filter (is_end i) h).

Definition in_range (n : nat) (i : Z) : bool := (0 <=? i) && (i <? Z.of_nat n).

(** The positions below [s] have been started once and those below [e]
    ended once; nothing else has been started or ended. *)
Definition matched (s e : nat) (h : list event) : Prop :=
  forall i,
    starts_of i h = (if in_range s i then 1 else 0)%nat /\
    ends_of i h = (if in_range e i then 1 else 0)%nat.

(** The country service gives no usable answer: the request raises, or the
    response is empty or lists no currency. *)
Definition restcountries_fails (env : Env) (country : string) : Prop :=
  forall c, restcountries env country <> Returned (Some c).

(** The rate service gives no usable answer: no credential, or the request
    raises, or the response does not say success. *)
Definition exchangerate_fails (env : Env) (currency_code : string) : Prop :=
  EXCHANGERATE_API_KEY env = "" \/
  forall d, exchangerate env (EXCHANGERATE_API_KEY env) currency_code
            <> Returned (Some d).

(** The placeholder of the exchange adapter for France. *)
Definition france_placeholder : dict :=
  [("name", VStr "France Stock Exchange");
   ("city", VStr "Unknown");
   ("maps_link",
    VStr "https://www.google.com/maps/search/?api=1&query=France+Stock+Exchange");
   ("established", VStr "N/A");
   ("description", VStr "Stock exchange information for France not in database.");
   ("major_indices", VList []);
   ("sample", VBool true)].

(** The generic market summary for France, with the currency name and the
    index names the pipeline passes when nothing is known. *)
Definition france_summary : string :=
  "France's financial market features the Unknown as its "
  ++ "official currency. The country's stock exchanges and major indices "
  ++ "() play an important role in the "
  ++ "regional and global financial landscape. Investors monitor these markets for insights "
  ++ "into the country's economic health, trade dynamics, and growth prospects.".

(** A small linear congruential generator, as an instance of the random
    module to run the tools on. *)
Definition lcg_next (g : Z) : Z := (g * 1103515245 + 12345) mod 2147483648.

Definition lcg_randbelow (n : Z) (g : Z) : Z * Z :=
  ((lcg_next g / 65536) mod Z.max n 1, lcg_next g).

Definition lcg_random (g : Z) : Q * Z :=
  (Qmake ((lcg_next g / 65536) mod 1000) 1000, lcg_next g).

Lemma lcg_randbelow_range n g : 0 < n -> 0 <= fst (lcg_randbelow n g) < n.
Proof.
  intros Hn. cbn. rewrite Z.max_l by lia. apply Z.mod_pos_bound. lia.
Qed.

Lemma lcg_random_range g :
  (0 <= fst (lcg_random g))%Q /\ (fst (lcg_random g) < 1)%Q.
Proof.
  unfold Qle, Qlt. cbn.
  pose proof (Z.mod_pos_bound (lcg_next g / 65536) 1000). lia.
Qed.

Definition lcg : RandomModule :=
  @mkRandomModule Z (fun n => n) lcg_randbelow lcg_random
    lcg_randbelow_range lcg_random_range.

(** A registry in which no tool is registered, and a gateway that raises. *)
Definition empty_registry {R : RandomModule} : list (string * tool) := [].

Definition broken_gateway (prompt : string) : outcome string :=
  Raised "gateway down".

(** What the two pipelines compute when every step raises: no tool
    registered, gateway down, the generator [lcg]. *)
Definition failing_trip_run : outcome (dict * MCPTrace) * World :=
  agent_trip.run_trip_agent_with (R := lcg) offline_env empty_registry
    broken_gateway "Delhi" "Tokyo" "2025-06-01" "2025-06-05" "Medium" 2 ""
    (@mkWorld lcg 0 0%nat).

Definition failing_market_run : outcome (dict * MCPTrace) * World :=
  agent_market.run_market_agent_with (R := lcg) offline_env empty_registry
    broken_gateway "France" "" (@mkWorld lcg 0 0%nat).

Definition results_of (run : outcome (dict * MCPTrace) * @World lcg) : dict :=
  match fst run with Returned (results, _) => results | Raised _ => [] end.

Definition trace_of (run : outcome (dict * MCPTrace) * @World lcg) : MCPTrace :=
  match fst run with Returned (_, trace) => trace | Raised _ => new_trace end.

Definition failing_trip_results : dict :=
  Eval vm_compute in results_of failing_trip_run.
Definition failing_trip_trace : MCPTrace :=
  Eval vm_compute in trace_of failing_trip_run.
Definition failing_trip_world : @World lcg :=
  Eval vm_compute in snd failing_trip_run.

Definition failing_market_results : dict :=
  Eval vm_compute in results_of failing_market_run.
Definition failing_market_trace : MCPTrace :=
  Eval vm_compute in trace_of failing_market_run.
Definition failing_market_world : @World lcg :=
  Eval vm_compute in snd failing_market_run.

(** The order [list.sort(key=...)] sorts by. *)
Definition key_le {A} (key : A -> Z) (a b : A) : Prop := key a <= key b.

(** The test for [no_flag]. *)
Definition no_flagb (r : dict) : bool := negb (dict_has "sample" r).

Section RecorderStates.
Context {R : RandomModule}.

(** From a state satisfying [P], the statement either returns [a] in a
    state satisfying [Q a] or raises in a state satisfying [E]. *)
Definition triple {A} (P : Store -> Prop) (m : M A) (Q : A -> Store -> Prop)
  (E : Store -> Prop) : Prop :=
  forall st, P st ->
    match m st with
    | (Returned a, st') => Q a st'
    | (Raised _, st') => E st'
    end.

(** A property of the trace and the history alone. *)
Definition recorder_only (P : Store -> Prop) : Prop :=
  forall st st',
    st_trace st = st_trace st' -> st_history st = st_history st' ->
    P st -> P st'.

(** [n] calls recorded, all finalized, each started and ended once. *)
Definition closed (n : nat) (st : Store) : Prop :=
  length (calls (st_trace st)) = n /\
  Forall finalized (calls (st_trace st)) /\
  matched n n (st_history st).

(** [n] finalized calls followed by one that has been started and not
    ended. *)
Definition opened (n : nat) (st : Store) : Prop :=
  exists cs c,
    calls (st_trace st) = (cs ++ [c])%list /\ length cs = n /\
    Forall finalized cs /\
    matched (S n) n (st_history st).

(** The record [c] has been added to the trace, with status success. *)
Definition recorded_success (st st' : Store) : Prop :=
  exists c,
    calls (st_trace st') = (calls (st_trace st) ++ [c])%list /\
    status c = "success" /\ error c = None.

(** No constraint on the state. *)
Definition anything : Store -> Prop := fun _ => True.
End RecorderStates.


(** * Vocabulary of the further properties *)

(** The fare of a flight record: a price per person between 100 and 1400
    and the total for the travellers. *)
Definition flight_priced (travelers : Z) (r : dict) : Prop :=
  exists price,
    dict_get "price_usd" r = Some (VInt price) /\ 100 <= price <= 1400 /\
    dict_get "total_usd" r = Some (VInt (price * travelers)) /\
    dict_get "travelers" r = Some (VInt travelers).

(** The record repeats the search it answers. *)
Definition flight_echoes (from_city to_city date : string) (r : dict) : Prop :=
  dict_get "from" r = Some (VStr from_city) /\
  dict_get "to" r = Some (VStr to_city) /\
  dict_get "date" r = Some (VStr date).

(** The label that goes with a number of stops. *)
Definition stop_label_of (stops : Z) : string :=
  if stops =? 0 then "Non-stop" else if stops =? 1 then "1 stop" else "2 stops".

(** Airline, flight number, departure, stops, duration and class of a flight
    record. *)
Definition flight_scheduled (r : dict) : Prop :=
  exists airline number hour minute stops duration cabin,
    In airline AIRLINES /\ 100 <= number <= 999 /\
    5 <= hour <= 22 /\ In minute [0; 15; 30; 45] /\
    0 <= stops <= 2 /\ In duration DURATIONS /\
    In cabin ["Economy"; "Premium Economy"; "Business"] /\
    dict_get "airline" r = Some (VStr airline) /\
    dict_get "flight_no" r
    = Some (VStr (upper (str_take 2 airline) ++ str_of_int number)) /\
    dict_get "departure" r = Some (VStr (fmt_02d hour ++ ":" ++ fmt_02d minute)) /\
    String.length (fmt_02d hour ++ ":" ++ fmt_02d minute) = 5%nat /\
    dict_get "stops" r = Some (VInt stops) /\
    dict_get "stop_label" r = Some (VStr (stop_label_of stops)) /\
    dict_get "duration" r = Some (VStr duration) /\
    dict_get "class" r = Some (VStr cabin).

(** Name, stars, rating, nightly price and location of a hotel record. *)
Definition hotel_described (city checkin checkout : string) (guests : Z)
  (r : dict) : Prop :=
  exists prefix suffix stars rating price location,
    In prefix PREFIXES /\ In suffix SUFFIXES /\
    In stars [3; 4; 5] /\
    (3 <= rating)%Q /\ (rating <= 5)%Q /\
    40 <= price <= 350 /\ In location LOCATIONS /\
    dict_get "name" r = Some (VStr (prefix ++ " " ++ city ++ " " ++ suffix)) /\
    dict_get "stars" r = Some (VInt stars) /\
    dict_get "rating" r = Some (VFloat rating) /\
    dict_get "price_per_night_usd" r = Some (VInt price) /\
    dict_get "location" r = Some (VStr location) /\
    dict_get "guests" r = Some (VInt guests) /\
    dict_get "checkin" r = Some (VStr checkin) /\
    dict_get "checkout" r = Some (VStr checkout).

(** The amenities of a hotel record: three to seven of the pool, none
    twice. *)
Definition hotel_amenities (r : dict) : Prop :=
  exists amenities,
    dict_get "amenities" r = Some (VList (map VStr amenities)) /\
    (3 <= length amenities <= 7)%nat /\
    NoDup amenities /\
    (forall a, In a amenities -> In a AMENITIES_POOL).

(** The record has a string under [k]. *)
Definition str_at (k : string) (r : dict) : Prop :=
  exists s, dict_get k r = Some (VStr s).

(** The record has a number under [k], an [int] or a [float]. *)
Definition number_at (k : string) (r : dict) : Prop :=
  (exists z, dict_get k r = Some (VInt z)) \/
  (exists q, dict_get k r = Some (VFloat q)).

(** The record has each of the keys [ks]. *)
Definition has_keys (ks : list string) (r : dict) : Prop :=
  Forall (fun k => dict_has k r = true) ks.


Definition CURRENCY_KEYS : list string :=
  ["country"; "currency_code"; "currency_name"; "currency_symbol"; "capital";
   "latlng"; "flag"; "sample"].

(** An attraction record: name, category and description are strings, the
    rating a float. *)
Definition attraction_record (r : dict) : Prop :=
  str_at "name" r /\ str_at "category" r /\ str_at "description" r /\
  exists q, dict_get "rating" r = Some (VFloat q).

(** A forecast row: a date, a description, two temperatures and a
    humidity. *)
Definition forecast_row (r : dict) : Prop :=
  str_at "date" r /\ str_at "description" r /\
  number_at "temp_min" r /\ number_at "temp_max" r /\
  (exists z, dict_get "humidity" r = Some (VInt z)).




(** A row of the sample forecast as [get_weather_forecast] returns it: the
    flag and the note, then the fields of the table row [f]. *)
Definition sample_row (note : string) (f : dict) : dict :=
  ("sample", VBool true) :: ("note", VStr note) :: f.

(** The names under which the steps of the two pipelines are recorded, in
    the order of the steps. *)
Definition TRIP_STEPS : list string :=
  ["llm_cultural_paragraph"; "get_current_weather"; "get_weather_forecast";
   "search_flights"; "search_hotels"; "get_attractions"; "llm_day_itinerary"].

Definition MARKET_STEPS : list string :=
  ["get_currency_info"; "get_fx_rates"; "get_exchange_info";
   "get_stock_indices"; "llm_market_summary"].

(** The call ended without an error. *)
Definition succeeded (c : ToolCall) : Prop :=
  status c = "success" /\ error c = None.

(** An environment with a Google key and no Google library. *)
Definition keyed_without_library_env : Env :=
  mkEnv "" "" "" "google-key" false
    (fun _ _ => Raised "connection refused")
    (fun _ _ => Raised "connection refused")
    (fun _ _ => Raised "connection refused")
    (fun _ _ => Raised "connection refused")
    (fun _ => Raised "connection refused")
    (fun _ _ => Raised "connection refused")
    (fun _ => Raised "No data returned")
    (fun s => Z.of_nat (String.length s) * 7919)
    (fun _ => None)
    (fun _ => "?")
    (fun n => inject_Z (Z.of_nat n)).

(** An environment in which both backends answer. *)
Definition answering_env : Env :=
  mkEnv "" "" "groq-key" "google-key" true
    (fun _ _ => Returned (Some "from groq"))
    (fun _ _ => Returned (Some "from gemini"))
    (fun _ _ => Raised "connection refused")
    (fun _ _ => Raised "connection refused")
    (fun _ => Raised "connection refused")
    (fun _ _ => Raised "connection refused")
    (fun _ => Raised "No data returned")
    (fun s => Z.of_nat (String.length s) * 7919)
    (fun _ => None)
    (fun _ => "?")
    (fun n => inject_Z (Z.of_nat n)).

(** A registry whose only tool raises an exception without a message. *)
Definition silent_registry : list (string * @tool lcg) :=
  [("get_current_weather", fun _ w => (Raised "", w))].

Section RunVocabulary.
Context {R : RandomModule}.

(** The record [c] has been added to the trace under [name], with status
    success and no error. *)
Definition recorded_as (name : string) (st st' : Store) : Prop :=
  exists c,
    calls (st_trace st') = (calls (st_trace st) ++ [c])%list /\
    tool_name c = name /\ succeeded c.

(** The record added to the trace by a call that failed with the message
    [e]. *)
Definition recorded_failure (name : string) (kwargs : dict) (e : string)
  (st st' : Store) : Prop :=
  exists c,
    calls (st_trace st') = (calls (st_trace st) ++ [c])%list /\
    tool_name c = name /\ inputs c = kwargs /\ output c = VNone /\
    error c = Some e /\
    status c = (if String.eqb e "" then "success" else "error").
End RunVocabulary.

(** Decidable versions, for checking the tables row by row. *)
Definition str_atb (k : string) (r : dict) : bool :=
  match dict_get k r with Some (VStr _) => true | _ => false end.

Definition float_atb (k : string) (r : dict) : bool :=
  match dict_get k r with Some (VFloat _) => true | _ => false end.

Definition attraction_recordb (r : dict) : bool :=
  str_atb "name" r && str_atb "category" r && str_atb "description" r
  && float_atb "rating" r.


(** The keys of a dict, in order. *)
Definition keys (d : dict) : list string := map fst d.

(** The text a step stores: the answer of the gateway, or the fallback when
    the answer is the sentinel. *)
Definition text_or_fallback (answer fallback : string) : string :=
  if String.eqb answer LLM_UNAVAILABLE then fallback else answer.

(** No space in a string. *)
Fixpoint no_spaceb (s : string) : bool :=
  match s with
  | EmptyString => true
  | String c s' => negb (Ascii.eqb c " ") && no_spaceb s'
  end.

(** An exchange record: a name, and a link for the map without a space. *)
Definition exchange_record (r : dict) : Prop :=
  str_at "name" r /\ str_at "city" r /\
  exists link, dict_get "maps_link" r = Some (VStr link) /\ no_spaceb link = true.

Definition exchange_recordb (r : dict) : bool :=
  str_atb "name" r && str_atb "city" r &&
  match dict_get "maps_link" r with
  | Some (VStr link) => no_spaceb link
  | _ => false
  end.

(** The keys of the results of the two pipelines, in order. *)
Definition TRIP_RESULT_KEYS : list string :=
  ["cultural_info"; "current_weather"; "forecast"; "flights"; "hotels";
   "attractions"; "itinerary"; "meta"].

Definition MARKET_RESULT_KEYS : list string :=
  ["currency_info"; "fx_rates"; "exchanges"; "indices"; "market_summary";
   "meta"].

(** An environment without a Groq key, in which Gemini answers. *)
Definition gemini_only_env : Env :=
  mkEnv "" "" "" "google-key" true
    (fun _ _ => Raised "connection refused")
    (fun _ _ => Returned (Some "from gemini"))
    (fun _ _ => Raised "connection refused")
    (fun _ _ => Raised "connection refused")
    (fun _ => Raised "connection refused")
    (fun _ _ => Raised "connection refused")
    (fun _ => Raised "No data returned")
    (fun s => Z.of_nat (String.length s) * 7919)
    (fun _ => None)
    (fun _ => "?")
    (fun n => inject_Z (Z.of_nat n)).

(** * Properties *)

(** ** The text-completion gateway *)

Lemma ask_groq_fails env prompt :
  groq_fails env prompt -> _ask_groq env prompt = Returned None.
Proof.
  unfold groq_fails, _ask_groq. intros [Hkey | [e He]].
  - now rewrite Hkey.
  - destruct (String.eqb _ _); [reflexivity | now rewrite He].
Qed.

Lemma ask_gemini_backend_fails env prompt :
  gemini_fails env prompt -> _ask_gemini env prompt = Returned None.
Proof.
  unfold gemini_fails, _ask_gemini. intros [Hlib | [Hkey | [e He]]].
  - now rewrite Hlib.
  - destruct (HAS_GOOGLE env); [now rewrite Hkey | reflexivity].
  - destruct (HAS_GOOGLE env); [| reflexivity]. cbn.
    destruct (String.eqb _ _); [reflexivity | now rewrite He].
Qed.

Lemma ask_gemini_unavailable env prompt :
  groq_fails env prompt -> gemini_fails env prompt ->
  ask_gemini env prompt = Returned LLM_UNAVAILABLE.
Proof.
  intros Hg Hm. unfold ask_gemini.
  rewrite (ask_groq_fails _ _ Hg). cbn.
  now rewrite (ask_gemini_backend_fails _ _ Hm).
Qed.

(** Neither helper raises: each returns the text of its backend or [None]. *)
Lemma ask_groq_returns env prompt : exists r, _ask_groq env prompt = Returned r.
Proof.
  unfold _ask_groq. destruct (String.eqb _ _); [now eexists |].
  destruct (groq_chat _ _ _); cbn; now eexists.
Qed.

Lemma ask_gemini_backend_returns env prompt :
  exists r, _ask_gemini env prompt = Returned r.
Proof.
  unfold _ask_gemini. destruct (HAS_GOOGLE env); cbn; [| now eexists].
  destruct (String.eqb _ _); [now eexists |].
  destruct (gemini_generate _ _ _); cbn; now eexists.
Qed.

Lemma truthy_str_spec o :
  truthy_str o = true <-> exists s, o = Some s /\ s <> "".
Proof.
  split.
  - destruct o as [[| c s] |]; cbn; try discriminate.
    intros _. exists (String c s). split; [reflexivity | discriminate].
  - intros (s & -> & Hs). destruct s; [contradiction | reflexivity].
Qed.

(** C3: when the Groq backend and the Gemini backend both fail (missing
    credential, missing library, or a call that raises), [ask_gemini]
    returns exactly the sentinel [__LLM_UNAVAILABLE__]; it returns, it does
    not raise. *)
Theorem ask_gemini_sentinel_when_both_fail (env : Env) (prompt : string) :
  groq_fails env prompt ->
  gemini_fails env prompt ->
  ask_gemini env prompt = Returned "__LLM_UNAVAILABLE__".
Proof. exact (ask_gemini_unavailable env prompt). Qed.

(** C10: [ask_gemini] always returns, never the empty string: its result is
    the non-empty text of Groq, or, Groq's answer being empty or [None], the
    non-empty text of Gemini, or, both being empty or [None], the
    sentinel. *)
Theorem ask_gemini_never_empty (env : Env) (prompt : string) :
  exists s,
    ask_gemini env prompt = Returned s /\ s <> "" /\
    (_ask_groq env prompt = Returned (Some s)
     \/ (exists r, _ask_groq env prompt = Returned r /\ truthy_str r = false
                   /\ _ask_gemini env prompt = Returned (Some s))
     \/ (exists r1 r2, _ask_groq env prompt = Returned r1 /\ truthy_str r1 = false
                       /\ _ask_gemini env prompt = Returned r2
                       /\ truthy_str r2 = false /\ s = LLM_UNAVAILABLE)).
Proof.
  destruct (ask_groq_returns env prompt) as [r1 H1].
  destruct (ask_gemini_backend_returns env prompt) as [r2 H2].
  unfold ask_gemini. rewrite H1. cbn.
  destruct (truthy_str r1) eqn:T1.
  - apply truthy_str_spec in T1 as (s & -> & Hs).
    exists s. cbn. repeat split; auto.
  - rewrite H2. cbn. destruct (truthy_str r2) eqn:T2.
    + apply truthy_str_spec in T2 as (s & -> & Hs).
      exists s. cbn. repeat split; auto. right; left. now exists r1.
    + exists LLM_UNAVAILABLE. repeat split; [discriminate |].
      right; right. now exists r1, r2.
Qed.

(** ** The stable sort *)

Section SortBy.
Context {A : Type} (key : A -> Z).

Lemma insert_by_perm x l : Permutation (x :: l) (insert_by key x l).
Proof.
  induction l as [| y l IH]; cbn; [reflexivity |].
  destruct (key x <=? key y); [reflexivity |].
  rewrite perm_swap. now apply perm_skip.
Qed.

Lemma sort_by_perm l : Permutation l (sort_by key l).
Proof.
  induction l as [| x l IH]; cbn; [reflexivity |].
  rewrite <- insert_by_perm. now apply perm_skip.
Qed.

Lemma insert_by_sorted x l :
  StronglySorted (key_le key) l -> StronglySorted (key_le key) (insert_by key x l).
Proof.
  induction 1 as [| y l Hs IH Hy]; cbn.
  - repeat constructor.
  - destruct (Z.leb_spec (key x) (key y)) as [Hxy | Hxy].
    + constructor; [now constructor |].
      constructor; [exact Hxy |].
      eapply Forall_impl; [exact Hy |].
      intros z Hz. unfold key_le in *. lia.
    + constructor; [exact IH |].
      rewrite <- (insert_by_perm x l).
      constructor; [unfold key_le; lia | exact Hy].
Qed.

Lemma sort_by_sorted l : StronglySorted (key_le key) (sort_by key l).
Proof.
  induction l as [| x l IH]; cbn; [constructor | now apply insert_by_sorted].
Qed.

(** Stability: the items with a given key come out in the order they went
    in. *)
Lemma filter_insert_by p x l :
  List.filter (fun a => key a =? p) (insert_by key x l)
  = List.filter (fun a => key a =? p) (x :: l).
Proof.
  induction l as [| y l IH]; [reflexivity |].
  cbn [insert_by]. destruct (Z.leb_spec (key x) (key y)) as [Hxy | Hxy];
    [reflexivity |].
  cbn [List.filter] in *. rewrite IH.
  destruct (Z.eqb_spec (key x) p), (Z.eqb_spec (key y) p); try reflexivity.
  lia.
Qed.

Lemma filter_sort_by p l :
  List.filter (fun a => key a =? p) (sort_by key l)
  = List.filter (fun a => key a =? p) l.
Proof.
  induction l as [| x l IH]; [reflexivity |].
  cbn [sort_by]. rewrite filter_insert_by. cbn [List.filter]. now rewrite IH.
Qed.
End SortBy.

(** ** The sample generators *)

Section Generators.
Context {R : RandomModule} (env : Env).

(** Unfolding the binds of a computation that draws. *)
Ltac rand_unfold :=
  unfold mbind, Rand_bind, rand_bind, mret, Rand_ret, rand_ret.

Lemma collect_Forall {A} (P : A -> Prop) (body : Rand A) :
  (forall g, P (fst (body g))) ->
  forall n g, Forall P (fst (collect n body g)).
Proof.
  intros Hbody n. induction n as [| n IH]; intros g; cbn.
  - constructor.
  - rand_unfold. specialize (Hbody g). destruct (body g) as [x g1].
    specialize (IH g1). destruct (collect n body g1) as [xs g2].
    cbn in *. now constructor.
Qed.

Lemma flight_option_fields from_city to_city date travelers g :
  let r := fst (flight_option from_city to_city date travelers g) in
  (exists z, dict_get "price_usd" r = Some (VInt z)) /\
  dict_get "sample" r = Some (VBool true).
Proof.
  unfold flight_option, randint, choice, choices1. rand_unfold.
  repeat match goal with
         | |- context [randbelow ?n ?g] => destruct (randbelow n g) as [? ?]
         | |- context [random ?g] => destruct (random g) as [? ?]
         end.
  cbn. split; [eexists |]; reflexivity.
Qed.

Lemma hotel_option_fields city checkin checkout guests g :
  let r := fst (hotel_option env city checkin checkout guests g) in
  (exists z, dict_get "price_per_night_usd" r = Some (VInt z)) /\
  dict_get "sample" r = Some (VBool true).
Proof.
  unfold hotel_option, randint, choice, uniform, sample. rand_unfold.
  repeat match goal with
         | |- context [randbelow ?n ?g] => destruct (randbelow n g) as [? ?]
         | |- context [random ?g] => destruct (random g) as [? ?]
         | |- context [sample_pool ?d ?p ?n ?k ?g] =>
             destruct (sample_pool d p n k g) as [? ?]
         end.
  cbn. split; [eexists |]; reflexivity.
Qed.

Lemma search_flights_sorts from_city to_city date travelers g :
  fst (search_flights env from_city to_city date travelers g)
  = sort_by (int_field "price_usd")
      (fst (generate_flights env from_city to_city date travelers g)).
Proof.
  unfold search_flights. rand_unfold.
  now destruct (generate_flights env from_city to_city date travelers g).
Qed.

Lemma search_hotels_sorts city checkin checkout guests g :
  fst (search_hotels env city checkin checkout guests g)
  = sort_by (int_field "price_per_night_usd")
      (fst (generate_hotels env city checkin checkout guests g)).
Proof.
  unfold search_hotels. rand_unfold.
  now destruct (generate_hotels env city checkin checkout guests g).
Qed.

Lemma generate_flights_fields from_city to_city date travelers g :
  Forall (fun r => (exists z, dict_get "price_usd" r = Some (VInt z)) /\
                   dict_get "sample" r = Some (VBool true))
    (fst (generate_flights env from_city to_city date travelers g)).
Proof.
  unfold generate_flights, seed. rand_unfold.
  destruct (randint 3 5 _) as [n g1].
  apply collect_Forall. intros g'. apply flight_option_fields.
Qed.

Lemma generate_hotels_fields city checkin checkout guests g :
  Forall (fun r => (exists z, dict_get "price_per_night_usd" r = Some (VInt z)) /\
                   dict_get "sample" r = Some (VBool true))
    (fst (generate_hotels env city checkin checkout guests g)).
Proof.
  unfold generate_hotels, seed. rand_unfold.
  destruct (randint 4 6 _) as [n g1].
  apply collect_Forall. intros g'. apply hotel_option_fields.
Qed.

(** Seeding makes the outcome independent of the state of the generator. *)
Lemma search_flights_state_free from_city to_city date travelers g1 g2 :
  fst (search_flights env from_city to_city date travelers g1)
  = fst (search_flights env from_city to_city date travelers g2).
Proof.
  unfold search_flights, generate_flights, seed. rand_unfold. reflexivity.
Qed.

Lemma search_hotels_state_free city checkin checkout guests g1 g2 :
  fst (search_hotels env city checkin checkout guests g1)
  = fst (search_hotels env city checkin checkout guests g2).
Proof.
  unfold search_hotels, generate_hotels, seed. rand_unfold. reflexivity.
Qed.
End Generators.

(** C4: two calls of [search_flights] with the same arguments return the
    same ordered list of records, and so do two calls of [search_hotels],
    whatever state other calls left the generator in between; in particular
    for a search from Delhi to Tokyo on 2025-06-01. *)
Theorem sample_searches_deterministic {R : RandomModule} (env : Env) :
  (forall from_city to_city date travelers (g1 g2 : rng),
      fst (search_flights env from_city to_city date travelers g1)
      = fst (search_flights env from_city to_city date travelers g2)) /\
  (forall city checkin checkout guests (g1 g2 : rng),
      fst (search_hotels env city checkin checkout guests g1)
      = fst (search_hotels env city checkin checkout guests g2)) /\
  (forall travelers (g1 g2 : rng),
      fst (search_flights env "Delhi" "Tokyo" "2025-06-01" travelers g1)
      = fst (search_flights env "Delhi" "Tokyo" "2025-06-01" travelers g2)).
Proof.
  split; [| split]; intros.
  - apply search_flights_state_free.
  - apply search_hotels_state_free.
  - apply search_flights_state_free.
Qed.

(** The order of the sort keys is the order of the stored prices, on
    records that store an [int] under [k]. *)
Lemma sorted_by_stored_price k (l : list dict) :
  Forall (fun r => exists z, dict_get k r = Some (VInt z)) l ->
  StronglySorted (key_le (int_field k)) l ->
  StronglySorted (price_le k) l.
Proof.
  intros Hall Hs. induction Hs as [| a l Hs IH Ha]; [constructor |].
  inversion Hall as [| ? ? [pa Hpa] Hl]; subst.
  constructor; [now apply IH |].
  clear IH Hs Hall. induction Hl as [| b l [pb Hpb] Hl IHl]; [constructor |].
  inversion Ha as [| ? ? Hab Ha']; subst.
  constructor; [| now apply IHl].
  exists pa, pb. split; [exact Hpa |]. split; [exact Hpb |].
  unfold key_le, int_field in Hab. now rewrite Hpa, Hpb in Hab.
Qed.

Lemma filter_storesb k p (l : list dict) :
  Forall (fun r => exists z, dict_get k r = Some (VInt z)) l ->
  List.filter (storesb k p) l = List.filter (fun r => int_field k r =? p) l.
Proof.
  induction 1 as [| r l [z Hz] _ IH]; [reflexivity |].
  cbn [List.filter]. unfold storesb at 1, int_field at 1. rewrite Hz.
  now rewrite IH.
Qed.

Lemma sorted_stable_on_stored_price k (generated : list dict) :
  Forall (fun r => exists z, dict_get k r = Some (VInt z)) generated ->
  let sorted := sort_by (int_field k) generated in
  StronglySorted (price_le k) sorted /\
  Permutation generated sorted /\
  (forall p, List.filter (storesb k p) sorted
             = List.filter (storesb k p) generated) /\
  Forall (fun r => exists z, dict_get k r = Some (VInt z)) sorted.
Proof.
  intros Hall sorted.
  assert (Forall (fun r => exists z, dict_get k r = Some (VInt z)) sorted)
    as Hsorted by (unfold sorted; now rewrite <- sort_by_perm).
  split; [apply sorted_by_stored_price; [exact Hsorted | apply sort_by_sorted] |].
  split; [apply sort_by_perm |]. split; [| exact Hsorted].
  intros p. rewrite !filter_storesb by assumption. apply filter_sort_by.
Qed.

(** C5: the list [search_flights] returns is non-decreasing in the
    [price_usd] its records store, and the list [search_hotels] returns is
    non-decreasing in the [price_per_night_usd] its records store; each is a
    rearrangement of the generated list in which the records that store any
    one price keep their generation order; every record stores its price as
    an [int]. *)
Theorem search_results_sorted_stable {R : RandomModule} (env : Env)
  (from_city to_city date : string) (travelers : Z)
  (city checkin checkout : string) (guests : Z) (g : rng) :
  let generated := fst (generate_flights env from_city to_city date travelers g) in
  let flights := fst (search_flights env from_city to_city date travelers g) in
  let generated' := fst (generate_hotels env city checkin checkout guests g) in
  let hotels := fst (search_hotels env city checkin checkout guests g) in
  (StronglySorted (price_le "price_usd") flights /\
   Permutation generated flights /\
   (forall p, List.filter (storesb "price_usd" p) flights
              = List.filter (storesb "price_usd" p) generated) /\
   Forall (fun r => exists z, dict_get "price_usd" r = Some (VInt z)) flights) /\
  (StronglySorted (price_le "price_per_night_usd") hotels /\
   Permutation generated' hotels /\
   (forall p, List.filter (storesb "price_per_night_usd" p) hotels
              = List.filter (storesb "price_per_night_usd" p) generated') /\
   Forall (fun r => exists z, dict_get "price_per_night_usd" r = Some (VInt z))
     hotels).
Proof.
  cbv zeta. rewrite search_flights_sorts, search_hotels_sorts. split.
  - apply sorted_stable_on_stored_price.
    eapply Forall_impl; [apply generate_flights_fields |]. now intros r [H _].
  - apply sorted_stable_on_stored_price.
    eapply Forall_impl; [apply generate_hotels_fields |]. now intros r [H _].
Qed.

(** ** The trace recorder *)

Lemma round_half_even_nonneg q : (0 <= q)%Q -> 0 <= round_half_even q.
Proof.
  intros Hq. unfold round_half_even.
  assert (0 <= Qfloor q) as Hn.
  { change 0 with (Qfloor 0). now apply Qfloor_resp_le. }
  destruct (Qcompare _ _); [destruct (Z.even _) | |]; lia.
Qed.

Lemma py_round_nonneg digits q : (0 <= q)%Q -> (0 <= py_round digits q)%Q.
Proof.
  intros Hq. unfold py_round, Qle. cbn.
  assert (0 <= round_half_even (q * inject_Z (Z.pos (10 ^ digits)))%Q).
  { apply round_half_even_nonneg. apply Qmult_le_0_compat; [exact Hq |].
    unfold Qle; cbn; lia. }
  lia.
Qed.

Lemma py_index_in_range {A} (l : list A) (i : Z) :
  0 <= i < Z.of_nat (length l) -> py_index l i = Some (Z.to_nat i).
Proof.
  intros Hi. unfold py_index.
  destruct (Z.leb_spec 0 i), (Z.ltb_spec i (Z.of_nat (length l))); cbn;
    (reflexivity || lia).
Qed.

Lemma py_index_from_end {A} (l : list A) (i : Z) :
  - Z.of_nat (length l) <= i < 0 ->
  py_index l i = Some (Z.to_nat (Z.of_nat (length l) + i)).
Proof.
  intros Hi. unfold py_index.
  destruct (Z.leb_spec 0 i); [lia |]. cbn.
  destruct (Z.leb_spec (- Z.of_nat (length l)) i), (Z.ltb_spec i 0); cbn;
    (reflexivity || lia).
Qed.

Lemma py_index_out_of_range {A} (l : list A) (i : Z) :
  i < - Z.of_nat (length l) \/ Z.of_nat (length l) <= i -> py_index l i = None.
Proof.
  intros Hi. unfold py_index.
  destruct (Z.leb_spec 0 i), (Z.ltb_spec i (Z.of_nat (length l))); cbn;
    try lia;
    destruct (Z.leb_spec (- Z.of_nat (length l)) i), (Z.ltb_spec i 0); cbn;
    (reflexivity || lia).
Qed.

Lemma py_index_lt {A} (l : list A) (i : Z) k :
  py_index l i = Some k -> (k < length l)%nat.
Proof.
  unfold py_index.
  destruct (Z.leb_spec 0 i), (Z.ltb_spec i (Z.of_nat (length l))); cbn;
    try (intros [= <-]; lia);
    destruct (Z.leb_spec (- Z.of_nat (length l)) i), (Z.ltb_spec i 0); cbn;
    try discriminate; intros [= <-]; lia.
Qed.

(** The handle [start_call] returns is the position of the new record. *)
Lemma start_call_spec now name kwargs t :
  start_call now name kwargs t
  = (Z.of_nat (length (calls t)),
     mkTrace (calls t ++ [mkToolCall name kwargs VNone "pending" now 0 None])).
Proof.
  unfold start_call. f_equal. rewrite length_app. cbn. lia.
Qed.

(** [end_call] on a handle in range rewrites the record it designates. *)
Lemma end_call_at now index out err t k call :
  py_index (calls t) index = Some k ->
  calls t !! k = Some call ->
  end_call now index out err t
  = Returned (mkTrace (<[k := finalize now out err call]> (calls t))).
Proof. intros Hk Hc. unfold end_call. now rewrite Hk, Hc. Qed.

Lemma end_call_after_start t0 t1 name kwargs out err t :
  end_call t1 (fst (start_call t0 name kwargs t)) out err
    (snd (start_call t0 name kwargs t))
  = Returned
      (mkTrace (calls t ++
                [finalize t1 out err
                   (mkToolCall name kwargs VNone "pending" t0 0 None)])).
Proof.
  rewrite start_call_spec. cbn [fst snd].
  rewrite (end_call_at t1 _ out err _ (length (calls t))
             (mkToolCall name kwargs VNone "pending" t0 0 None)).
  - f_equal. f_equal. cbn [calls].
    replace (length (calls t)) with (length (calls t) + 0)%nat at 1 by lia.
    now rewrite insert_app_r.
  - cbn [calls]. rewrite py_index_in_range; [now rewrite Nat2Z.id |].
    rewrite length_app. cbn. lia.
  - cbn [calls]. rewrite lookup_app_r by lia. now rewrite Nat.sub_diag.
Qed.

(** C6, counterexample: the clock is read once when the record is built
    and once in [end_call]; when the second reading is earlier than the
    first (the wall clock was set back between the two), the call started at
    time 2 and ended at time 1 is recorded with a duration of -1000.0
    milliseconds, which is negative. *)
Lemma clock_set_back_gives_negative_duration :
  end_call 1
    (fst (start_call 2 "get_current_weather" [("city", VStr "Tokyo")] new_trace))
    (VStr "sunny") None
    (snd (start_call 2 "get_current_weather" [("city", VStr "Tokyo")] new_trace))
  = Returned (mkTrace [set_back_call]) /\
  status set_back_call = "success" /\
  duration_ms set_back_call = (-1000.0)%Q /\
  ~ (0 <= duration_ms set_back_call)%Q.
Proof.
  split; [reflexivity |]. split; [reflexivity |]. split; [reflexivity |].
  intros H. unfold Qle in H. cbn in H. lia.
Qed.

(** C6, amended: after [start_call] returning the handle [h], [end_call] on
    [h] succeeds and the record at [h] has status error exactly when the
    error passed is a non-empty string and status success otherwise; its
    output is the output passed, its error the error passed, its inputs and
    name those given to [start_call]; its duration is the rounded difference
    of the two clock readings in milliseconds, and it is not negative
    whenever the second reading is not earlier than the first; the records
    before [h] are untouched. *)
Theorem start_then_end_call (t : MCPTrace) (name : string) (kwargs : dict)
  (out : value) (err : option string) (t0 t1 : Q) :
  let h := fst (start_call t0 name kwargs t) in
  exists t' call,
    end_call t1 h out err (snd (start_call t0 name kwargs t)) = Returned t' /\
    h = Z.of_nat (length (calls t)) /\
    calls t' !! Z.to_nat h = Some call /\
    (status call = "error" <-> exists s, err = Some s /\ s <> "") /\
    (status call = "success" <-> ~ exists s, err = Some s /\ s <> "") /\
    output call = out /\
    error call = err /\
    inputs call = kwargs /\
    tool_name call = name /\
    duration_ms call = py_round 1 ((t1 - t0) * 1000)%Q /\
    ((t0 <= t1)%Q -> (0 <= duration_ms call)%Q) /\
    length (calls t') = S (length (calls t)) /\
    (forall i, (i < length (calls t))%nat -> calls t' !! i = calls t !! i).
Proof.
  intros h. subst h.
  eexists. eexists. split; [apply end_call_after_start |].
  rewrite start_call_spec. cbn [fst calls].
  split; [reflexivity |].
  split. { rewrite Nat2Z.id, lookup_app_r by lia. now rewrite Nat.sub_diag. }
  cbn [finalize status output error inputs tool_name duration_ms timestamp].
  rewrite <- truthy_str_spec.
  repeat split.
  - destruct (truthy_str err); [reflexivity | discriminate].
  - now intros ->.
  - destruct (truthy_str err); [discriminate | now intros _].
  - destruct (truthy_str err); [| reflexivity]. intros H. now contradiction H.
  - intros Hclock.
    apply py_round_nonneg. apply Qmult_le_0_compat; [| unfold Qle; cbn; lia].
    unfold Qminus. now rewrite <- Qle_minus_iff.
  - rewrite length_app. cbn. lia.
  - intros i Hi. now rewrite lookup_app_l.
Qed.

(** C9, counterexample: on the trace left by one [start_call] and one
    [end_call], the handle 0 designates a finished call and the handle -1 was
    never returned by [start_call]; [end_call] on either succeeds and
    rewrites the record. *)
Lemma end_call_overwrites_finished_call :
  end_call 1 0 (VStr "first") None
    (snd (start_call 0 "get_current_weather" [("city", VStr "Tokyo")] new_trace))
  = Returned finished_once /\
  ~ open_handle finished_once 0 /\
  ~ open_handle finished_once (-1) /\
  end_call 3 0 (VStr "second") (Some "late") finished_once
  = Returned (mkTrace [mkToolCall "get_current_weather" [("city", VStr "Tokyo")]
                         (VStr "second") "error" 0 3000.0 (Some "late")]) /\
  end_call 3 (-1) VNone None finished_once
  = Returned (mkTrace [mkToolCall "get_current_weather" [("city", VStr "Tokyo")]
                         VNone "success" 0 3000.0 None]).
Proof.
  split; [reflexivity |].
  split. { intros (call & _ & Hc & Hs). cbn in Hc. injection Hc as <-. discriminate. }
  split. { intros (call & Hh & _). lia. }
  split; reflexivity.
Qed.

(** C9, amended: [end_call] raises the IndexError, and leaves trace, results
    and clock as they were, exactly when the handle is below [-n] or at
    least [n], for [n] the number of recorded calls; on any handle within
    these bounds it succeeds and rewrites the record at that position, counted
    from the end when the handle is negative, whatever the status of the
    record. *)
Theorem end_call_fails_exactly_out_of_range {R : RandomModule} (env : Env)
  (st : Store) (index : Z) (out : value) (err : option string) :
  let n := Z.of_nat (length (calls (st_trace st))) in
  let now := clock env (w_ticks (st_world st)) in
  if (- n <=? index) && (index <? n)
  then exists call st',
      calls (st_trace st) !! Z.to_nat (index mod n) = Some call /\
      m_end_call env index out err st = (Returned tt, st') /\
      calls (st_trace st')
      = <[Z.to_nat (index mod n) := finalize now out err call]> (calls (st_trace st)) /\
      st_results st' = st_results st
  else m_end_call env index out err st = (Raised "list index out of range", st).
Proof.
  intros n now. unfold m_end_call.
  destruct (Z.leb_spec (- n) index) as [Hlo | Hlo];
    destruct (Z.ltb_spec index n) as [Hhi | Hhi]; cbn [andb].
  - assert (exists k, py_index (calls (st_trace st)) index = Some k
                      /\ k = Z.to_nat (index mod n)) as (k & Hk & Hkn).
    { destruct (Z.neg_nonneg_cases index) as [Hneg | Hpos].
      - eexists; split; [apply py_index_from_end; fold n; lia |]. fold n.
        f_equal. rewrite <- (Z.mod_unique index n (-1) (n + index)); lia.
      - eexists; split; [apply py_index_in_range; fold n; lia |].
        now rewrite Z.mod_small by lia. }
    pose proof (py_index_lt _ _ _ Hk) as Hlt.
    destruct (lookup_lt_is_Some_2 _ _ Hlt) as [call Hcall].
    rewrite (end_call_at _ _ _ _ _ _ _ Hk Hcall). subst k.
    eexists _, _. split; [exact Hcall |]. split; [reflexivity |]. now cbn.
  - unfold end_call. rewrite py_index_out_of_range by (fold n; lia). reflexivity.
  - unfold end_call. rewrite py_index_out_of_range by (fold n; lia). reflexivity.
  - unfold end_call. rewrite py_index_out_of_range by (fold n; lia). reflexivity.
Qed.

(** ** The tool adapters and the sample flag *)

Lemma dict_get_set_eq k v d : dict_get k (dict_set k v d) = Some v.
Proof.
  induction d as [| [k' v'] d IH]; cbn.
  - now rewrite String.eqb_refl.
  - destruct (String.eqb k k') eqn:E; cbn; now rewrite E.
Qed.

Lemma dict_get_set_ne k k' v d :
  k <> k' -> dict_get k (dict_set k' v d) = dict_get k d.
Proof.
  intros Hne. induction d as [| [k0 v0] d IH]; cbn.
  - destruct (String.eqb_spec k k'); [contradiction | reflexivity].
  - destruct (String.eqb_spec k' k0) as [-> | Hk]; cbn.
    + destruct (String.eqb_spec k k0); [contradiction | reflexivity].
    + destruct (String.eqb k k0); [reflexivity | exact IH].
Qed.

(** A property that holds of every row of a table holds of the row found. *)
Lemma table_get_forallb {A} (P : A -> bool) k (t : list (string * A)) a :
  forallb (fun kv => P (snd kv)) t = true -> table_get k t = Some a -> P a = true.
Proof.
  induction t as [| [k' a'] t IH]; cbn; [discriminate |].
  intros [Ha Ht]%andb_prop. destruct (String.eqb k k'); [| now apply IH].
  now intros [= <-].
Qed.

Lemma no_flagb_spec r : no_flagb r = true -> no_flag r.
Proof.
  unfold no_flagb, dict_has, no_flag. now destruct (dict_get "sample" r).
Qed.

Lemma forallb_no_flag l : forallb no_flagb l = true -> Forall no_flag l.
Proof.
  intros H. apply Forall_forall. intros r Hr. apply no_flagb_spec.
  rewrite forallb_forall in H. apply H. now apply list_elem_of_In.
Qed.

Lemma parse_attraction_line_no_flag env line a :
  parse_attraction_line env line = Some a -> no_flag a.
Proof.
  unfold parse_attraction_line.
  destruct (strip line) as [| c s]; [discriminate |].
  destruct (is_digit c); [| discriminate]. cbn [negb].
  destruct (Nat.leb 3 _); [| discriminate].
  now intros [= <-].
Qed.

Lemma parse_attraction_lines_no_flag env lines :
  Forall no_flag (parse_attraction_lines env lines).
Proof.
  induction lines as [| line lines IH]; cbn; [constructor |].
  destruct (parse_attraction_line env line) eqn:E; [| exact IH].
  constructor; [| exact IH]. eapply parse_attraction_line_no_flag; eassumption.
Qed.

Lemma get_attractions_no_flag env city : Forall no_flag (get_attractions env city).
Proof.
  unfold get_attractions.
  destruct (table_get _ CURATED_ATTRACTIONS) as [curated |] eqn:E.
  - apply forallb_no_flag.
    eapply (table_get_forallb (forallb no_flagb) _ CURATED_ATTRACTIONS);
      [vm_compute; reflexivity | exact E].
  - destruct (attractions_from_llm env city) as [[| a l] | e] eqn:El;
      [repeat constructor | | repeat constructor].
    unfold attractions_from_llm in El.
    destruct (ask_gemini env _) as [response | e]; [| discriminate]. cbn in El.
    destruct (_ || _); [discriminate |]. injection El as El.
    rewrite <- El. apply parse_attraction_lines_no_flag.
Qed.

Lemma sample_forecast_flag note : Forall (fun r => has_flag r true) (sample_forecast note).
Proof. repeat constructor. Qed.

Lemma get_exchange_info_cases country :
  match table_get (strip (lower country)) EXCHANGES with
  | Some (x :: l) =>
      get_exchange_info country = x :: l /\ Forall no_flag (x :: l)
  | _ =>
      exists r, get_exchange_info country = [r] /\ has_flag r true
  end.
Proof.
  unfold get_exchange_info.
  destruct (table_get _ EXCHANGES) as [[| x l] |] eqn:E; cbn [default].
  - eexists; split; reflexivity.
  - split; [reflexivity |]. apply forallb_no_flag.
    eapply (table_get_forallb (forallb no_flagb) _ EXCHANGES);
      [vm_compute; reflexivity | exact E].
  - eexists; split; reflexivity.
Qed.

Lemma get_currency_info_flag env country :
  exists b, has_flag (get_currency_info env country) b /\
            (b = false <-> exists c, restcountries env country = Returned (Some c)).
Proof.
  unfold get_currency_info, has_flag.
  assert (forall fb : dict,
             dict_get "sample"
               (dict_merge (dict_merge [("country", VStr country)] fb)
                  [("flag", VStr ""); ("sample", VBool true);
                   ("note", VStr "Fallback data used")])
             = Some (VBool true)) as Hmerge.
  { intros fb. unfold dict_merge at 1. cbn [fold_left fst snd].
    rewrite dict_get_set_ne by discriminate. apply dict_get_set_eq. }
  destruct (restcountries env country) as [[c |] | e].
  - exists false. split; [reflexivity |]. split; [now exists c | reflexivity].
  - exists true. split.
    + destruct (table_get _ FALLBACK_CURRENCIES); [apply Hmerge | reflexivity].
    + split; [discriminate | now intros [c [=]]].
  - exists true. split.
    + destruct (table_get _ FALLBACK_CURRENCIES); [apply Hmerge | reflexivity].
    + split; [discriminate | now intros [c [=]]].
Qed.

Lemma fx_fallback_flag code n1 n2 : has_flag (fx_fallback code n1 n2) true.
Proof. unfold fx_fallback. now destruct (table_get code FALLBACK_RATES). Qed.

Lemma get_fx_rates_flag env code :
  exists b, has_flag (get_fx_rates env code) b /\
            (EXCHANGERATE_API_KEY env = "" -> b = true).
Proof.
  unfold get_fx_rates.
  destruct (String.eqb_spec (EXCHANGERATE_API_KEY env) "") as [Hk | Hk].
  - exists true. split; [apply fx_fallback_flag | reflexivity].
  - destruct (exchangerate env _ code) as [[data |] | e].
    + exists false. split; [reflexivity | contradiction].
    + exists true. split; [apply fx_fallback_flag | reflexivity].
    + exists true. split; [apply fx_fallback_flag | reflexivity].
Qed.

Lemma get_stock_indices_flag env country :
  Forall (fun r => exists b, has_flag r b) (get_stock_indices env country).
Proof.
  unfold get_stock_indices.
  destruct (default [] (table_get _ COUNTRY_INDICES)) as [| i l];
    [repeat constructor; now exists true |].
  apply Forall_forall. intros r [i' [-> _]]%list_elem_of_fmap.
  unfold index_row. destruct (yf_history env _); eexists; reflexivity.
Qed.

(** C2, counterexample: with no credential configured, the attraction lookup
    for Tokyo returns the six curated records, none of which has the key
    [sample]; the exchange lookup for Japan returns the listed record, which
    has no such key either. *)
Lemma curated_records_carry_no_flag :
  GROQ_API_KEY offline_env = "" /\ GOOGLE_API_KEY offline_env = "" /\
  table_get "tokyo" CURATED_ATTRACTIONS = Some (get_attractions offline_env "Tokyo") /\
  length (get_attractions offline_env "Tokyo") = 6%nat /\
  Forall no_flag (get_attractions offline_env "Tokyo") /\
  table_get "japan" EXCHANGES = Some (get_exchange_info "Japan") /\
  length (get_exchange_info "Japan") = 1%nat /\
  Forall no_flag (get_exchange_info "Japan").
Proof.
  repeat split; try reflexivity; repeat constructor.
Qed.

(** C2, amended: every record returned by the weather, forecast, flight,
    hotel, currency, FX and index adapters carries the boolean flag
    [sample]; whenever the credential the adapter depends on is absent the
    flag is true: for weather and forecast when OPENWEATHER_API_KEY is
    absent, for FX when EXCHANGERATE_API_KEY is absent, and always for
    flights and hotels, which are sample data by nature (the currency and
    index adapters depend on no credential).  The exchange adapter returns
    either the records listed under one key of its table, none of which has
    the flag, or one placeholder record whose flag is true.  The records of
    the attraction adapter have no flag. *)
Theorem adapters_sample_flag {R : RandomModule} (env : Env) :
  (forall city, exists b,
      has_flag (get_current_weather env city) b /\
      (OPENWEATHER_API_KEY env = "" -> b = true)) /\
  (forall city,
      Forall (fun r => exists b,
                  has_flag r b /\ (OPENWEATHER_API_KEY env = "" -> b = true))
        (get_weather_forecast env city)) /\
  (forall from_city to_city date travelers (g : rng),
      Forall (fun r => has_flag r true)
        (fst (search_flights env from_city to_city date travelers g))) /\
  (forall city checkin checkout guests (g : rng),
      Forall (fun r => has_flag r true)
        (fst (search_hotels env city checkin checkout guests g))) /\
  (forall country, exists b, has_flag (get_currency_info env country) b) /\
  (forall currency_code, exists b,
      has_flag (get_fx_rates env currency_code) b /\
      (EXCHANGERATE_API_KEY env = "" -> b = true)) /\
  (forall country,
      Forall (fun r => exists b, has_flag r b) (get_stock_indices env country)) /\
  (forall country,
      (exists key listed,
          table_get key EXCHANGES = Some listed /\
          get_exchange_info country = listed /\
          listed <> [] /\ Forall no_flag listed) \/
      (exists r, get_exchange_info country = [r] /\ has_flag r true)) /\
  (forall city, Forall no_flag (get_attractions env city)).
Proof.
  repeat apply conj.
  - intros city. unfold get_current_weather.
    destruct (String.eqb_spec (OPENWEATHER_API_KEY env) "") as [Hk | Hk].
    + exists true. split; reflexivity.
    + destruct (owm_weather env _ city).
      * exists false. split; [reflexivity | contradiction].
      * exists true. split; reflexivity.
  - intros city. unfold get_weather_forecast.
    destruct (String.eqb_spec (OPENWEATHER_API_KEY env) "") as [Hk | Hk].
    + eapply Forall_impl; [apply sample_forecast_flag |].
      intros r Hr. now exists true.
    + destruct (owm_forecast env _ city) as [daily | e].
      * apply Forall_forall. intros r [d [-> _]]%list_elem_of_fmap.
        exists false. split; [reflexivity | contradiction].
      * eapply Forall_impl; [apply sample_forecast_flag |].
        intros r Hr. now exists true.
  - intros. rewrite search_flights_sorts, <- sort_by_perm.
    eapply Forall_impl; [apply generate_flights_fields |]. now intros r [_ H].
  - intros. rewrite search_hotels_sorts, <- sort_by_perm.
    eapply Forall_impl; [apply generate_hotels_fields |]. now intros r [_ H].
  - intros country.
    destruct (get_currency_info_flag env country) as (b & Hb & _). now exists b.
  - apply get_fx_rates_flag.
  - apply get_stock_indices_flag.
  - intros country. pose proof (get_exchange_info_cases country) as H.
    destruct (table_get (strip (lower country)) EXCHANGES) as [[| x l] |] eqn:E;
      [now right | | now right].
    left. exists (strip (lower country)), (x :: l).
    destruct H as [Heq Hno]. now repeat split.
  - apply get_attractions_no_flag.
Qed.

(** ** Reasoning about statements *)

Section Triples.
Context {R : RandomModule}.

Lemma triple_ret {A} (P : Store -> Prop) (a : A) E :
  triple P (mret a) (fun a' st => a' = a /\ P st) E.
Proof. intros st HP. cbn. now split. Qed.

Lemma triple_bind {A B} P (m : M A) (k : A -> M B) Q Q' E :
  triple P m Q E ->
  (forall a, triple (Q a) (k a) Q' E) ->
  triple P (m ≫= k) Q' E.
Proof.
  intros Hm Hk st HP. specialize (Hm st HP).
  unfold mbind, M_bind, m_bind. destruct (m st) as [[a | e] st'].
  - now apply Hk.
  - exact Hm.
Qed.

Lemma triple_try {A} P (body : M A) (handler : string -> M A) Q E E' :
  triple P body Q E ->
  (forall e, triple E (handler e) Q E') ->
  triple P (m_try body handler) Q E'.
Proof.
  intros Hb Hh st HP. specialize (Hb st HP).
  unfold m_try. destruct (body st) as [[a | e] st'].
  - exact Hb.
  - now apply Hh.
Qed.

Lemma triple_conseq {A} (P P' : Store -> Prop) (m : M A)
  (Q Q' : A -> Store -> Prop) (E E' : Store -> Prop) :
  triple P' m Q' E' ->
  (forall st, P st -> P' st) ->
  (forall a st, Q' a st -> Q a st) ->
  (forall st, E' st -> E st) ->
  triple P m Q E.
Proof.
  intros Hm HP HQ HE st Hst. specialize (Hm st (HP st Hst)).
  destruct (m st) as [[a | e] st']; auto.
Qed.

Lemma triple_if {A} (b : bool) P (m1 m2 : M A) Q E :
  triple P m1 Q E -> triple P m2 Q E -> triple P (if b then m1 else m2) Q E.
Proof. now destruct b. Qed.

Lemma triple_lift {A} P (o : outcome A) : triple P (m_lift o) (fun _ => P) P.
Proof. intros st HP. unfold m_lift. now destruct o. Qed.

Lemma triple_get_results P : triple P get_results (fun _ => P) P.
Proof. now intros st HP. Qed.

Lemma triple_set_result P k v E :
  recorder_only P -> triple P (set_result k v) (fun _ => P) E.
Proof. intros HP st Hst. cbn. now apply (HP st). Qed.

Lemma triple_tool P fn kwargs :
  recorder_only P -> triple P (m_tool fn kwargs) (fun _ => P) P.
Proof.
  intros HP st Hst. unfold m_tool.
  destruct (fn kwargs (st_world st)) as [[v | e] w']; now apply (HP st).
Qed.

(** *** The two states of the recorder between statements *)

Lemma closed_recorder_only n : recorder_only (closed n).
Proof. intros st st' Ht Hh. unfold closed. now rewrite Ht, Hh. Qed.

Lemma opened_recorder_only n : recorder_only (opened n).
Proof. intros st st' Ht Hh. unfold opened. now rewrite Ht, Hh. Qed.

Lemma in_range_S n i :
  in_range (S n) i = in_range n i || (i =? Z.of_nat n).
Proof.
  unfold in_range.
  destruct (Z.leb_spec 0 i), (Z.ltb_spec i (Z.of_nat (S n))),
    (Z.ltb_spec i (Z.of_nat n)), (Z.eqb_spec i (Z.of_nat n));
    cbn; (reflexivity || lia).
Qed.

Lemma in_range_self n : in_range n (Z.of_nat n) = false.
Proof.
  unfold in_range. destruct (Z.ltb_spec (Z.of_nat n) (Z.of_nat n)); [lia |].
  now rewrite andb_false_r.
Qed.

Lemma matched_start n h :
  matched n n h -> matched (S n) n (h ++ [EvStart (Z.of_nat n)]).
Proof.
  intros Hm i. destruct (Hm i) as [Hs He].
  unfold starts_of, ends_of in *.
  rewrite !List.filter_app, !length_app, Hs, He, in_range_S. cbn.
  rewrite (Z.eqb_sym (Z.of_nat n) i).
  destruct (Z.eqb_spec i (Z.of_nat n)) as [-> |]; cbn.
  - rewrite in_range_self. cbn. split; lia.
  - rewrite orb_false_r. split; lia.
Qed.

Lemma matched_end n h :
  matched (S n) n h -> matched (S n) (S n) (h ++ [EvEnd (Z.of_nat n)]).
Proof.
  intros Hm i. destruct (Hm i) as [Hs He].
  unfold starts_of, ends_of in *.
  rewrite !List.filter_app, !length_app, Hs, He, !in_range_S. cbn.
  rewrite (Z.eqb_sym (Z.of_nat n) i).
  destruct (Z.eqb_spec i (Z.of_nat n)) as [-> |]; cbn.
  - rewrite in_range_self. cbn. split; lia.
  - rewrite !orb_false_r. split; lia.
Qed.

Section WithEnv.
Variable env : Env.

Lemma triple_start_call n name kwargs E :
  triple (closed n) (m_start_call env name kwargs)
    (fun idx st => idx = Z.of_nat n /\ opened n st) E.
Proof.
  intros st (Hlen & Hfin & Hm). unfold m_start_call.
  rewrite start_call_spec. cbn. split; [now rewrite Hlen |].
  eexists _, _. split; [reflexivity |]. split; [exact Hlen |].
  split; [exact Hfin |]. rewrite Hlen. now apply matched_start.
Qed.

(** Ending the call that is open always succeeds. *)
Lemma triple_end_call n out err E :
  triple (opened n) (m_end_call env (Z.of_nat n) out err)
    (fun _ => closed (S n)) E.
Proof.
  intros st (cs & c & Hcs & Hlen & Hfin & Hm). unfold m_end_call.
  rewrite (end_call_at _ _ _ _ _ n c).
  - cbn. unfold closed. cbn. rewrite Hcs.
    rewrite insert_app_r_alt by lia.
    replace (n - length cs)%nat with 0%nat by lia. cbn.
    split; [rewrite length_app; cbn; lia |].
    split; [| now apply matched_end].
    apply Forall_app. split; [exact Hfin |]. constructor; [| constructor].
    unfold finalized, finalize. cbn. destruct (truthy_str err); auto.
  - rewrite py_index_in_range; [now rewrite Nat2Z.id |].
    rewrite Hcs, length_app. cbn. lia.
  - rewrite Hcs, lookup_app_r by lia.
    replace (n - length cs)%nat with 0%nat by lia. reflexivity.
Qed.

Lemma triple_end_call_at n idx out err E :
  triple (fun st => idx = Z.of_nat n /\ opened n st)
    (m_end_call env idx out err) (fun _ => closed (S n)) E.
Proof. intros st [-> Ho]. exact (triple_end_call n out err E st Ho). Qed.

Lemma opened_at_recorder_only n (idx : Z) :
  recorder_only (fun st => idx = Z.of_nat n /\ opened n st).
Proof.
  intros st st' Ht Hh [Hi Ho]. split; [exact Hi |].
  now apply (opened_recorder_only n st).
Qed.

(** [_call_tool] finalizes the call it starts, whatever the registry
    holds and whatever the tool does, and does not raise. *)
Lemma triple_call_tool n registry name kwargs E :
  triple (closed n) (_call_tool env registry name kwargs)
    (fun _ => closed (S n)) E.
Proof.
  unfold _call_tool.
  eapply triple_bind; [apply triple_start_call |].
  intros idx.
  apply triple_try with (E := fun st => idx = Z.of_nat n /\ opened n st).
  - eapply triple_bind; [apply triple_lift |].
    intros fn. eapply triple_bind;
      [apply triple_tool, opened_at_recorder_only |].
    intros result. eapply triple_bind; [apply triple_end_call_at |].
    intros _ st Hc. exact Hc.
  - intros e. eapply triple_bind; [apply triple_end_call_at |].
    intros _ st Hc. exact Hc.
Qed.
End WithEnv.
End Triples.

(** ** Every call a pipeline starts is finalized *)

Section Finalization.
Context {R : RandomModule}.
Variable env : Env.
Variable registry : list (string * tool).
Variable ask : string -> outcome string.

Lemma triple_any_exn {A} P (m : M A) Q E :
  triple P m Q E -> triple P m Q anything.
Proof.
  intros Hm. eapply triple_conseq; [exact Hm | auto | auto | exact (fun _ _ => I)].
Qed.

Lemma triple_trip_step_tool n key name kwargs E :
  triple (closed n) (agent_trip.step_tool env registry key name kwargs)
    (fun _ => closed (S n)) E.
Proof.
  unfold agent_trip.step_tool.
  eapply triple_bind; [apply triple_call_tool |].
  intros v. apply triple_set_result, closed_recorder_only.
Qed.

Lemma triple_market_step_tool n key name kwargs E :
  triple (closed n) (agent_market.step_tool env registry key name kwargs)
    (fun _ => closed (S n)) E.
Proof.
  unfold agent_market.step_tool.
  eapply triple_bind; [apply triple_call_tool |].
  intros v. apply triple_set_result, closed_recorder_only.
Qed.

(** Ending the open call and then storing a result. *)
Lemma triple_end_then_set n idx out err key v E :
  triple (fun st => idx = Z.of_nat n /\ opened n st)
    (_ ← m_end_call env idx out err; set_result key v)
    (fun _ => closed (S n)) E.
Proof.
  eapply triple_bind; [apply triple_end_call_at |].
  intros ?. apply triple_set_result, closed_recorder_only.
Qed.

(** Step 1 of the trip pipeline: its handler cannot raise. *)
Lemma triple_step_culture n to_city E :
  triple (closed n) (agent_trip.step_culture env ask to_city)
    (fun _ => closed (S n)) E.
Proof.
  unfold agent_trip.step_culture.
  eapply triple_bind; [apply triple_start_call |].
  intros idx.
  apply triple_try with (E := fun st => idx = Z.of_nat n /\ opened n st).
  - eapply triple_bind; [apply triple_lift |].
    intros culture_text. apply triple_if; apply triple_end_then_set.
  - intros e. apply triple_end_then_set.
Qed.

(** Step 7 of the trip pipeline: the handler may raise, after it has ended
    the call. *)
Lemma triple_step_itinerary n from_city to_city start_date end_date budget
  travelers preferences :
  triple (closed n)
    (agent_trip.step_itinerary env ask from_city to_city start_date end_date
       budget travelers preferences)
    (fun _ => closed (S n)) anything.
Proof.
  unfold agent_trip.step_itinerary.
  eapply triple_bind; [apply triple_start_call |].
  intros idx.
  apply triple_try with (E := fun st => idx = Z.of_nat n /\ opened n st).
  - eapply triple_bind; [apply triple_get_results |]. intros results.
    do 6 (eapply triple_bind; [apply triple_lift |]; intros ?).
    apply triple_if; apply triple_end_then_set.
  - intros e. eapply triple_bind; [apply triple_end_call_at |]. intros ?.
    eapply triple_bind.
    { eapply triple_any_exn, (triple_get_results (closed (S n))). }
    intros results. eapply triple_bind.
    { eapply triple_any_exn, (triple_lift (closed (S n))). }
    intros names. apply triple_set_result, closed_recorder_only.
Qed.

Lemma triple_trip_pipeline from_city to_city start_date end_date budget
  travelers preferences :
  triple (closed 0)
    (agent_trip.pipeline env registry ask from_city to_city start_date end_date
       budget travelers preferences)
    (fun _ => closed 7) anything.
Proof.
  unfold agent_trip.pipeline.
  eapply triple_bind; [apply triple_step_culture |]. intros ?.
  do 5 (eapply triple_bind; [apply triple_trip_step_tool |]; intros ?).
  apply triple_step_itinerary.
Qed.

(** Step 5 of the market pipeline. *)
Lemma triple_step_summary n country extra_query :
  triple (closed n) (agent_market.step_summary env ask country extra_query)
    (fun _ => closed (S n)) anything.
Proof.
  unfold agent_market.step_summary.
  eapply triple_bind; [apply triple_start_call |].
  intros idx.
  apply triple_try with (E := fun st => idx = Z.of_nat n /\ opened n st).
  - eapply triple_bind; [apply triple_get_results |]. intros results.
    do 4 (eapply triple_bind; [apply triple_lift |]; intros ?).
    apply triple_if.
    + eapply triple_bind; [apply triple_lift |]. intros summary_text.
      apply triple_end_then_set.
    + apply triple_end_then_set.
  - intros e. eapply triple_bind; [apply triple_end_call_at |]. intros ?.
    eapply triple_bind.
    { eapply triple_any_exn, (triple_get_results (closed (S n))). }
    intros results.
    do 3 (eapply triple_bind;
          [eapply triple_any_exn, (triple_lift (closed (S n))) |]; intros ?).
    apply triple_set_result, closed_recorder_only.
Qed.

Lemma triple_market_pipeline country extra_query :
  triple (closed 0) (agent_market.pipeline env registry ask country extra_query)
    (fun _ => closed 5) anything.
Proof.
  unfold agent_market.pipeline.
  eapply triple_bind; [apply triple_market_step_tool |]. intros ?.
  eapply triple_bind.
  { eapply triple_any_exn, (triple_get_results (closed 1)). }
  intros results. eapply triple_bind.
  { eapply triple_any_exn, (triple_lift (closed 1)). }
  intros currency_code.
  do 3 (eapply triple_bind; [apply triple_market_step_tool |]; intros ?).
  apply triple_step_summary.
Qed.

Lemma closed_initial w : closed 0 (initial_store w).
Proof.
  split; [reflexivity |]. split; [constructor |]. intros i.
  assert (in_range 0 i = false) as ->.
  { unfold in_range. destruct (Z.leb_spec 0 i), (Z.ltb_spec i (Z.of_nat 0));
      cbn; (reflexivity || lia). }
  now split.
Qed.
End Finalization.

Lemma finalized_not_pending c : finalized c -> status c <> "pending".
Proof. intros [H | H]; rewrite H; discriminate. Qed.

(** C8: whatever the registered tools and the text-completion call do
    (return any value, raise, change the process-wide state), when
    [run_trip_agent] returns its trace holds 7 calls and when
    [run_market_agent] returns its trace holds 5 calls, none of them pending:
    each has status success or error, and each position was given to
    [start_call] once and to [end_call] once. *)
Theorem pipelines_finalize_every_call {R : RandomModule} (env : Env)
  (registry : list (string * tool)) (ask : string -> outcome string) :
  (forall from_city to_city start_date end_date budget travelers preferences
          w results trace w',
      agent_trip.run_trip_agent_with env registry ask from_city to_city
        start_date end_date budget travelers preferences w
      = (Returned (results, trace), w') ->
      length (calls trace) = 7%nat /\
      Forall (fun c => status c <> "pending") (calls trace) /\
      Forall finalized (calls trace) /\
      exists st,
        agent_trip.pipeline env registry ask from_city to_city start_date
          end_date budget travelers preferences (initial_store w)
        = (Returned tt, st) /\
        st_trace st = trace /\ matched 7 7 (st_history st)) /\
  (forall country extra_query w results trace w',
      agent_market.run_market_agent_with env registry ask country extra_query w
      = (Returned (results, trace), w') ->
      length (calls trace) = 5%nat /\
      Forall (fun c => status c <> "pending") (calls trace) /\
      Forall finalized (calls trace) /\
      exists st,
        agent_market.pipeline env registry ask country extra_query
          (initial_store w)
        = (Returned tt, st) /\
        st_trace st = trace /\ matched 5 5 (st_history st)).
Proof.
  split.
  - intros from_city to_city start_date end_date budget travelers preferences
      w results trace w' Hrun.
    unfold agent_trip.run_trip_agent_with, run_pipeline in Hrun.
    pose proof (triple_trip_pipeline env registry ask from_city to_city
                  start_date end_date budget travelers preferences
                  (initial_store w) (closed_initial w)) as Hc.
    destruct (agent_trip.pipeline _ _ _ _ _ _ _ _ _ _ _) as [[[] | e] st];
      [| discriminate].
    injection Hrun as _ <- _. destruct Hc as (Hlen & Hfin & Hm).
    split; [exact Hlen |].
    split; [eapply Forall_impl; [exact Hfin | apply finalized_not_pending] |].
    split; [exact Hfin |]. now exists st.
  - intros country extra_query w results trace w' Hrun.
    unfold agent_market.run_market_agent_with, run_pipeline in Hrun.
    pose proof (triple_market_pipeline env registry ask country extra_query
                  (initial_store w) (closed_initial w)) as Hc.
    destruct (agent_market.pipeline _ _ _ _ _ _) as [[[] | e] st];
      [| discriminate].
    injection Hrun as _ <- _. destruct Hc as (Hlen & Hfin & Hm).
    split; [exact Hlen |].
    split; [eapply Forall_impl; [exact Hfin | apply finalized_not_pending] |].
    split; [exact Hfin |]. now exists st.
Qed.

(** ** Runs in which nothing raises *)

Ltac m_unfold := unfold mbind, M_bind, m_bind, mret, M_ret, m_ret.

Section Runs.
Context {R : RandomModule}.
Variable env : Env.

Lemma m_start_call_eq name kwargs st :
  m_start_call env name kwargs st
  = (Returned (Z.of_nat (length (calls (st_trace st)))),
     mkStore (mkWorld (w_rng (st_world st)) (S (w_ticks (st_world st))))
       (mkTrace (calls (st_trace st)
                 ++ [mkToolCall name kwargs VNone "pending"
                       (clock env (w_ticks (st_world st))) 0 None]))
       (st_results st)
       (st_history st ++ [EvStart (Z.of_nat (length (calls (st_trace st))))])).
Proof. unfold m_start_call. now rewrite start_call_spec. Qed.

Lemma m_end_call_last cs c out err st :
  calls (st_trace st) = (cs ++ [c])%list ->
  m_end_call env (Z.of_nat (length cs)) out err st
  = (Returned tt,
     mkStore (mkWorld (w_rng (st_world st)) (S (w_ticks (st_world st))))
       (mkTrace (cs ++ [finalize (clock env (w_ticks (st_world st))) out err c]))
       (st_results st)
       (st_history st ++ [EvEnd (Z.of_nat (length cs))])).
Proof.
  intros Hcs. unfold m_end_call.
  rewrite (end_call_at _ _ _ _ _ (length cs) c).
  - rewrite Hcs, insert_app_r_alt by lia. now rewrite Nat.sub_diag.
  - rewrite py_index_in_range; [now rewrite Nat2Z.id |].
    rewrite Hcs, length_app. cbn. lia.
  - rewrite Hcs, lookup_app_r by lia. now rewrite Nat.sub_diag.
Qed.

(** A registered tool that returns: the call is recorded as a success and
    the value handed back. *)
Lemma call_tool_returns (registry : list (string * tool)) name kwargs (fn : tool)
  (G : value -> Prop) st :
  table_get name registry = Some fn ->
  (forall w, exists v w', fn kwargs w = (Returned v, w') /\ G v) ->
  exists v st',
    _call_tool env registry name kwargs st = (Returned v, st') /\ G v /\
    st_results st' = st_results st /\ recorded_success st st'.
Proof.
  intros Hreg Hfn. unfold _call_tool. m_unfold.
  rewrite m_start_call_eq. unfold m_try, m_lift. rewrite Hreg.
  unfold m_tool. cbn [st_world].
  destruct (Hfn (mkWorld (w_rng (st_world st)) (S (w_ticks (st_world st)))))
    as (v & w' & Hv & HG).
  rewrite Hv. erewrite m_end_call_last by reflexivity.
  exists v. eexists. split; [reflexivity |]. split; [exact HG |].
  split; [reflexivity |]. eexists. split; [reflexivity |]. now split.
Qed.

Lemma trip_step_tool_returns (registry : list (string * tool)) key name kwargs
  (fn : tool) (G : value -> Prop) st :
  table_get name registry = Some fn ->
  (forall w, exists v w', fn kwargs w = (Returned v, w') /\ G v) ->
  exists v st',
    agent_trip.step_tool env registry key name kwargs st = (Returned tt, st') /\
    G v /\ st_results st' = dict_set key v (st_results st) /\
    recorded_success st st'.
Proof.
  intros Hreg Hfn.
  destruct (call_tool_returns registry name kwargs fn G st Hreg Hfn)
    as (v & st' & Hcall & HG & Hres & Hrec).
  unfold agent_trip.step_tool. m_unfold. rewrite Hcall.
  exists v. eexists. split; [reflexivity |]. split; [exact HG |].
  cbn. now rewrite Hres.
Qed.

Lemma market_step_tool_returns (registry : list (string * tool)) key name kwargs
  (fn : tool) (G : value -> Prop) st :
  table_get name registry = Some fn ->
  (forall w, exists v w', fn kwargs w = (Returned v, w') /\ G v) ->
  exists v st',
    agent_market.step_tool env registry key name kwargs st = (Returned tt, st') /\
    G v /\ st_results st' = dict_set key v (st_results st) /\
    recorded_success st st'.
Proof.
  intros Hreg Hfn.
  destruct (call_tool_returns registry name kwargs fn G st Hreg Hfn)
    as (v & st' & Hcall & HG & Hres & Hrec).
  unfold agent_market.step_tool. m_unfold. rewrite Hcall.
  exists v. eexists. split; [reflexivity |]. split; [exact HG |].
  cbn. now rewrite Hres.
Qed.

(** Step 1 when the gateway answers with the sentinel. *)
Lemma step_culture_fallback ask to_city st :
  ask (agent_trip.culture_prompt to_city) = Returned LLM_UNAVAILABLE ->
  exists st',
    agent_trip.step_culture env ask to_city st = (Returned tt, st') /\
    st_results st'
    = dict_set "cultural_info" (VStr (get_fallback_cultural_info to_city))
        (st_results st) /\
    recorded_success st st'.
Proof.
  intros Hask. unfold agent_trip.step_culture. m_unfold.
  rewrite m_start_call_eq. unfold m_try, m_lift. rewrite Hask.
  rewrite String.eqb_refl. erewrite m_end_call_last by reflexivity.
  eexists. split; [reflexivity |]. split; [reflexivity |].
  eexists. split; [reflexivity |]. now split.
Qed.

(** Step 7 when the prompt can be built and the gateway answers with the
    sentinel. *)
Lemma step_itinerary_fallback ask from_city to_city start_date end_date budget
  travelers preferences names attractions first3 days forecast st :
  agent_trip.attractions_names_of (st_results st) = Returned names ->
  py_join ", " names = Returned attractions ->
  py_slice_to 3 (dict_get_default "forecast" (VList []) (st_results st))
  = Returned first3 ->
  py_iter first3 = Returned days ->
  py_join ", " (gets_of_dicts "description" (VStr "N/A") days) = Returned forecast ->
  ask (agent_trip.itin_prompt from_city to_city start_date end_date budget
         travelers preferences attractions forecast)
  = Returned LLM_UNAVAILABLE ->
  exists st',
    agent_trip.step_itinerary env ask from_city to_city start_date end_date
      budget travelers preferences st = (Returned tt, st') /\
    st_results st'
    = dict_set "itinerary"
        (VStr (get_fallback_itinerary env to_city from_city start_date end_date
                 travelers budget preferences names))
        (st_results st) /\
    recorded_success st st'.
Proof.
  intros Hnames Hjoin Hslice Hiter Hfc Hask.
  unfold agent_trip.step_itinerary. m_unfold.
  rewrite m_start_call_eq. unfold m_try, m_lift, get_results.
  cbn [st_results]. rewrite Hnames, Hjoin, Hslice, Hiter, Hfc, Hask.
  rewrite String.eqb_refl. erewrite m_end_call_last by reflexivity.
  eexists. split; [reflexivity |]. split; [reflexivity |].
  eexists. split; [reflexivity |]. now split.
Qed.

(** Step 5 of the market pipeline when the prompt can be built, the gateway
    answers with the sentinel and the fallback text can be built. *)
Lemma step_summary_fallback ask country extra_query idx_names currency_name
  joined text st :
  agent_market.idx_names_of (st_results st) = Returned idx_names ->
  py_get (agent_market.result_of "currency_info" (st_results st))
    "currency_name" (VStr "N/A") = Returned currency_name ->
  py_join ", " idx_names = Returned joined ->
  ask (agent_market.summary_prompt country (fmt env currency_name) joined
         extra_query) = Returned LLM_UNAVAILABLE ->
  get_fallback_market_summary env country currency_name idx_names
  = Returned text ->
  exists st',
    agent_market.step_summary env ask country extra_query st
    = (Returned tt, st') /\
    st_results st' = dict_set "market_summary" (VStr text) (st_results st) /\
    recorded_success st st'.
Proof.
  intros Hidx Hname Hjoin Hask Htext.
  unfold agent_market.step_summary. m_unfold.
  rewrite m_start_call_eq. unfold m_try, m_lift, get_results.
  cbn [st_results]. rewrite Hidx, Hname, Hjoin, Hask.
  rewrite String.eqb_refl, Htext. erewrite m_end_call_last by reflexivity.
  eexists. split; [reflexivity |]. split; [reflexivity |].
  eexists. split; [reflexivity |]. now split.
Qed.
End Runs.

(** ** Scenario: a trip to Tokyo without credentials *)

Section TokyoOffline.
Context {R : RandomModule}.
Variable env : Env.

Lemma tool_get_current_weather_returns city w :
  tool_get_current_weather env [("city", VStr city)] w
  = (Returned (VDict (get_current_weather env city)), w).
Proof. reflexivity. Qed.

Lemma tool_get_weather_forecast_returns city w :
  tool_get_weather_forecast env [("city", VStr city)] w
  = (Returned (records (get_weather_forecast env city)), w).
Proof. reflexivity. Qed.

Lemma tool_get_attractions_returns city w :
  tool_get_attractions env [("city", VStr city)] w
  = (Returned (records (get_attractions env city)), w).
Proof. reflexivity. Qed.

Lemma tool_search_flights_returns from_city to_city date travelers w :
  exists v w',
    tool_search_flights env
      [("from_city", VStr from_city); ("to_city", VStr to_city);
       ("date", VStr date); ("travelers", VInt travelers)] w
    = (Returned v, w') /\ True.
Proof.
  unfold tool_search_flights, rand_tool. cbn.
  destruct (search_flights env from_city to_city date travelers (w_rng w)).
  now eexists _, _.
Qed.

Lemma tool_search_hotels_returns city checkin checkout guests w :
  exists v w',
    tool_search_hotels env
      [("city", VStr city); ("checkin", VStr checkin);
       ("checkout", VStr checkout); ("guests", VInt guests)] w
    = (Returned v, w') /\ True.
Proof.
  unfold tool_search_hotels, rand_tool. cbn.
  destruct (search_hotels env city checkin checkout guests (w_rng w)).
  now eexists _, _.
Qed.

Lemma get_current_weather_no_key city :
  OPENWEATHER_API_KEY env = "" ->
  get_current_weather env city
  = dict_merge SAMPLE_CURRENT
      [("city", VStr city);
       ("note", VStr "SAMPLE DATA - OPENWEATHER_API_KEY not set")].
Proof. intros H. unfold get_current_weather. now rewrite H. Qed.

Lemma get_weather_forecast_no_key city :
  OPENWEATHER_API_KEY env = "" ->
  get_weather_forecast env city = sample_forecast "SAMPLE DATA".
Proof. intros H. unfold get_weather_forecast. now rewrite H. Qed.

Lemma get_attractions_tokyo :
  table_get "tokyo" CURATED_ATTRACTIONS = Some (get_attractions env "Tokyo").
Proof. reflexivity. Qed.
End TokyoOffline.

(** C1: with OPENWEATHER_API_KEY, GROQ_API_KEY and GOOGLE_API_KEY unset,
    [run_trip_agent] for the destination Tokyo returns; the cultural
    paragraph is the Tokyo entry of [CULTURAL_INFO], the current weather is
    the sample record with [sample] true and [temp_c] 22, the itinerary is
    the Tokyo entry of [ITINERARIES], and the trace holds exactly 7 calls,
    all with status success, none with status error. *)
Theorem trip_agent_tokyo_without_credentials {R : RandomModule} (env : Env)
  (from_city start_date end_date budget : string) (travelers : Z)
  (preferences : string) (w : World) :
  OPENWEATHER_API_KEY env = "" ->
  GROQ_API_KEY env = "" ->
  GOOGLE_API_KEY env = "" ->
  exists results trace w',
    run_trip_agent env from_city "Tokyo" start_date end_date budget travelers
      preferences w = (Returned (results, trace), w') /\
    table_get "tokyo" CULTURAL_INFO = Some CULTURAL_INFO_tokyo /\
    dict_get "cultural_info" results = Some (VStr CULTURAL_INFO_tokyo) /\
    (exists weather,
        dict_get "current_weather" results = Some (VDict weather) /\
        dict_get "sample" weather = Some (VBool true) /\
        dict_get "temp_c" weather = Some (VInt 22)) /\
    table_get "tokyo" ITINERARIES = Some ITINERARIES_tokyo /\
    dict_get "itinerary" results = Some (VStr ITINERARIES_tokyo) /\
    length (calls trace) = 7%nat /\
    Forall (fun c => status c = "success") (calls trace) /\
    Forall (fun c => status c <> "error") (calls trace).
Proof.
  intros Hweather Hgroq Hgoogle.
  assert (forall p, ask_gemini env p = Returned LLM_UNAVAILABLE) as Hask.
  { intros p. apply ask_gemini_unavailable; [now left | right; now left]. }
  unfold run_trip_agent, agent_trip.run_trip_agent_with, run_pipeline,
    agent_trip.pipeline. m_unfold.
  destruct (step_culture_fallback env (ask_gemini env) "Tokyo" (initial_store w)
              (Hask _)) as (st1 & E1 & R1 & T1).
  rewrite E1.
  destruct (trip_step_tool_returns env (TRIP_TOOL_REGISTRY env) "current_weather"
              "get_current_weather" [("city", VStr "Tokyo")]
              (tool_get_current_weather env)
              (fun v => v = VDict (get_current_weather env "Tokyo")) st1 eq_refl)
    as (v2 & st2 & E2 & -> & R2 & T2).
  { intros w0. now eexists _, _. }
  rewrite E2.
  destruct (trip_step_tool_returns env (TRIP_TOOL_REGISTRY env) "forecast"
              "get_weather_forecast" [("city", VStr "Tokyo")]
              (tool_get_weather_forecast env)
              (fun v => v = records (get_weather_forecast env "Tokyo")) st2 eq_refl)
    as (v3 & st3 & E3 & -> & R3 & T3).
  { intros w0. now eexists _, _. }
  rewrite E3.
  destruct (trip_step_tool_returns env (TRIP_TOOL_REGISTRY env) "flights"
              "search_flights"
              [("from_city", VStr from_city); ("to_city", VStr "Tokyo");
               ("date", VStr start_date); ("travelers", VInt travelers)]
              (tool_search_flights env) (fun _ => True) st3 eq_refl)
    as (v4 & st4 & E4 & _ & R4 & T4).
  { intros w0. apply tool_search_flights_returns. }
  rewrite E4.
  destruct (trip_step_tool_returns env (TRIP_TOOL_REGISTRY env) "hotels"
              "search_hotels"
              [("city", VStr "Tokyo"); ("checkin", VStr start_date);
               ("checkout", VStr end_date); ("guests", VInt travelers)]
              (tool_search_hotels env) (fun _ => True) st4 eq_refl)
    as (v5 & st5 & E5 & _ & R5 & T5).
  { intros w0. apply tool_search_hotels_returns. }
  rewrite E5.
  destruct (trip_step_tool_returns env (TRIP_TOOL_REGISTRY env) "attractions"
              "get_attractions" [("city", VStr "Tokyo")]
              (tool_get_attractions env)
              (fun v => v = records (get_attractions env "Tokyo")) st5 eq_refl)
    as (v6 & st6 & E6 & -> & R6 & T6).
  { intros w0. now eexists _, _. }
  rewrite E6.
  assert (st_results st6
          = [("cultural_info", VStr CULTURAL_INFO_tokyo);
             ("current_weather", VDict (get_current_weather env "Tokyo"));
             ("forecast", records (sample_forecast "SAMPLE DATA"));
             ("flights", v4); ("hotels", v5);
             ("attractions", records (get_attractions env "Tokyo"))]) as Hres.
  { rewrite R6, R5, R4, R3, R2, R1.
    now rewrite (get_weather_forecast_no_key env "Tokyo" Hweather). }
  edestruct (step_itinerary_fallback env (ask_gemini env) from_city "Tokyo"
               start_date end_date budget travelers preferences)
    with (st := st6) as (st7 & E7 & R7 & T7).
  { rewrite Hres. reflexivity. }
  { reflexivity. }
  { rewrite Hres. reflexivity. }
  { reflexivity. }
  { reflexivity. }
  { apply Hask. }
  rewrite E7.
  eexists _, _, _. split; [reflexivity |].
  split; [reflexivity |].
  split. { rewrite R7, Hres. reflexivity. }
  split.
  { eexists. split; [rewrite R7, Hres; reflexivity |].
    rewrite (get_current_weather_no_key env "Tokyo" Hweather). now split. }
  split; [reflexivity |].
  split. { rewrite R7, Hres. reflexivity. }
  destruct T1 as (c1 & T1 & S1 & _), T2 as (c2 & T2 & S2 & _),
    T3 as (c3 & T3 & S3 & _), T4 as (c4 & T4 & S4 & _),
    T5 as (c5 & T5 & S5 & _), T6 as (c6 & T6 & S6 & _),
    T7 as (c7 & T7 & S7 & _).
  rewrite T7, T6, T5, T4, T3, T2, T1. cbn.
  split; [reflexivity |].
  split; repeat constructor; try assumption;
    match goal with H : status ?c = "success" |- status ?c <> _ => now rewrite H end.
Qed.

(** ** Scenario: the market of a country no table knows *)

Section FranceOffline.
Context {R : RandomModule}.
Variable env : Env.

Lemma france_in_no_table :
  table_get (strip (lower "France")) FALLBACK_CURRENCIES = None /\
  table_get (strip (lower "France")) EXCHANGES = None /\
  table_get (strip (lower "France")) COUNTRY_INDICES = None /\
  table_get (strip (lower "France")) MARKET_SUMMARIES = None /\
  table_get "N/A" FALLBACK_RATES = None.
Proof. repeat split. Qed.

Lemma get_currency_info_france :
  restcountries_fails env "France" ->
  get_currency_info env "France"
  = [("country", VStr "France");
     ("currency_code", VStr "N/A");
     ("currency_name", VStr "Unknown");
     ("currency_symbol", VStr "");
     ("capital", VStr "Unknown");
     ("latlng", VList [VInt 0; VInt 0]);
     ("flag", VStr "");
     ("sample", VBool true);
     ("note", VStr "Country not found")].
Proof.
  intros Hfail. unfold get_currency_info.
  destruct (restcountries env "France") as [[c |] | e] eqn:E;
    [now contradiction (Hfail c) | reflexivity | reflexivity].
Qed.

Lemma get_fx_rates_unknown :
  exchangerate_fails env "N/A" ->
  exists note,
    get_fx_rates env "N/A"
    = [("base", VStr "N/A");
       ("rates", VDict zero_rates);
       ("last_updated", VStr "N/A");
       ("sample", VBool true);
       ("note", VStr note)].
Proof.
  intros Hfail. unfold get_fx_rates.
  destruct (String.eqb_spec (EXCHANGERATE_API_KEY env) "") as [Hk | Hk].
  - now eexists.
  - destruct Hfail as [Hk' | Hfail]; [contradiction |].
    destruct (exchangerate env _ "N/A") as [[d |] | e] eqn:E;
      [now contradiction (Hfail d) | now eexists | now eexists].
Qed.

Lemma tool_get_currency_info_returns country w :
  tool_get_currency_info env [("country", VStr country)] w
  = (Returned (VDict (get_currency_info env country)), w).
Proof. reflexivity. Qed.

Lemma tool_get_fx_rates_returns code w :
  tool_get_fx_rates env [("currency_code", VStr code)] w
  = (Returned (VDict (get_fx_rates env code)), w).
Proof. reflexivity. Qed.
End FranceOffline.

(** C7: when the country service, the rate service and both text backends
    fail, [run_market_agent] for France returns; [currency_info] has
    [sample] true and [currency_code] N/A; [fx_rates] has [sample] true and
    the rates USD, INR, GBP and EUR all 0.0; [exchanges] is the single
    placeholder record for France, whose [sample] is true; [market_summary]
    is the generic templated text for France. *)
Theorem market_agent_france_all_failing {R : RandomModule} (env : Env)
  (extra_query : string) (w : World) :
  restcountries_fails env "France" ->
  exchangerate_fails env "N/A" ->
  (forall prompt, groq_fails env prompt /\ gemini_fails env prompt) ->
  exists results trace w',
    run_market_agent env "France" extra_query w = (Returned (results, trace), w') /\
    (exists info,
        dict_get "currency_info" results = Some (VDict info) /\
        dict_get "sample" info = Some (VBool true) /\
        dict_get "currency_code" info = Some (VStr "N/A")) /\
    (exists fx,
        dict_get "fx_rates" results = Some (VDict fx) /\
        dict_get "sample" fx = Some (VBool true) /\
        dict_get "rates" fx
        = Some (VDict [("USD", VFloat 0.0); ("INR", VFloat 0.0);
                       ("GBP", VFloat 0.0); ("EUR", VFloat 0.0)])) /\
    dict_get "exchanges" results = Some (VList [VDict france_placeholder]) /\
    dict_get "sample" france_placeholder = Some (VBool true) /\
    dict_get "market_summary" results = Some (VStr france_summary) /\
    get_fallback_market_summary env "France" (VStr "Unknown") [VStr ""]
    = Returned france_summary /\
    length (calls trace) = 5%nat /\
    Forall (fun c => status c = "success") (calls trace).
Proof.
  intros Hrc Hfx Hllm.
  assert (forall p, ask_gemini env p = Returned LLM_UNAVAILABLE) as Hask.
  { intros p. destruct (Hllm p). now apply ask_gemini_unavailable. }
  destruct (get_fx_rates_unknown env Hfx) as [note Hrates].
  unfold run_market_agent, agent_market.run_market_agent_with, run_pipeline,
    agent_market.pipeline. m_unfold.
  destruct (market_step_tool_returns env (MARKET_TOOL_REGISTRY env) "currency_info"
              "get_currency_info" [("country", VStr "France")]
              (tool_get_currency_info env)
              (fun v => v = VDict (get_currency_info env "France"))
              (initial_store w) eq_refl)
    as (v1 & st1 & E1 & -> & R1 & T1).
  { intros w0. now eexists _, _. }
  rewrite E1. unfold get_results, m_lift. rewrite R1.
  rewrite (get_currency_info_france env Hrc). cbn [initial_store st_results].
  change (py_get _ "currency_code" (VStr "USD")) with (Returned (VStr "N/A")).
  destruct (market_step_tool_returns env (MARKET_TOOL_REGISTRY env) "fx_rates"
              "get_fx_rates" [("currency_code", VStr "N/A")]
              (tool_get_fx_rates env)
              (fun v => v = VDict (get_fx_rates env "N/A")) st1 eq_refl)
    as (v2 & st2 & E2 & -> & R2 & T2).
  { intros w0. now eexists _, _. }
  rewrite E2.
  destruct (market_step_tool_returns env (MARKET_TOOL_REGISTRY env) "exchanges"
              "get_exchange_info" [("country", VStr "France")]
              (tool_get_exchange_info)
              (fun v => v = VList [VDict france_placeholder]) st2 eq_refl)
    as (v3 & st3 & E3 & -> & R3 & T3).
  { intros w0. now eexists _, _. }
  rewrite E3.
  destruct (market_step_tool_returns env (MARKET_TOOL_REGISTRY env) "indices"
              "get_stock_indices" [("country", VStr "France")]
              (tool_get_stock_indices env)
              (fun v => v = records (get_stock_indices env "France")) st3 eq_refl)
    as (v4 & st4 & E4 & -> & R4 & T4).
  { intros w0. now eexists _, _. }
  rewrite E4.
  assert (st_results st4
          = [("currency_info", VDict (get_currency_info env "France"));
             ("fx_rates", VDict (get_fx_rates env "N/A"));
             ("exchanges", VList [VDict france_placeholder]);
             ("indices", records (get_stock_indices env "France"))]) as Hres.
  { now rewrite R4, R3, R2, R1. }
  edestruct (step_summary_fallback env (ask_gemini env) "France" extra_query)
    with (st := st4) (text := france_summary) as (st5 & E5 & R5 & T5).
  { rewrite Hres. reflexivity. }
  { rewrite Hres, (get_currency_info_france env Hrc). reflexivity. }
  { reflexivity. }
  { apply Hask. }
  { reflexivity. }
  rewrite E5.
  eexists _, _, _. split; [reflexivity |].
  split.
  { eexists. split; [rewrite R5, Hres; reflexivity |].
    rewrite (get_currency_info_france env Hrc). now split. }
  split.
  { eexists. split; [rewrite R5, Hres; reflexivity |]. rewrite Hrates. now split. }
  split. { rewrite R5, Hres. reflexivity. }
  split; [reflexivity |].
  split. { rewrite R5, Hres. reflexivity. }
  split; [reflexivity |].
  destruct T1 as (c1 & T1 & S1 & _), T2 as (c2 & T2 & S2 & _),
    T3 as (c3 & T3 & S3 & _), T4 as (c4 & T4 & S4 & _),
    T5 as (c5 & T5 & S5 & _).
  rewrite T5, T4, T3, T2, T1. cbn.
  split; [reflexivity |]. repeat constructor; assumption.
Qed.

(** ** The statements at concrete inputs *)

(** C1 at a concrete run: Delhi to Tokyo, no credential, the generator
    [lcg]. *)
Lemma trip_agent_tokyo_witness :
  OPENWEATHER_API_KEY offline_env = "" /\
  GROQ_API_KEY offline_env = "" /\
  GOOGLE_API_KEY offline_env = "" /\
  exists results trace w',
    run_trip_agent (R := lcg) offline_env "Delhi" "Tokyo" "2025-06-01"
      "2025-06-05" "Medium" 2 "" (@mkWorld lcg 0 0%nat)
    = (Returned (results, trace), w') /\
    dict_get "cultural_info" results = Some (VStr CULTURAL_INFO_tokyo) /\
    dict_get "itinerary" results = Some (VStr ITINERARIES_tokyo) /\
    length (calls trace) = 7%nat.
Proof.
  repeat (split; [reflexivity |]).
  destruct (trip_agent_tokyo_without_credentials (R := lcg) offline_env "Delhi"
              "2025-06-01" "2025-06-05" "Medium" 2 "" (@mkWorld lcg 0 0%nat)
              eq_refl eq_refl eq_refl)
    as (results & trace & w' & Hrun & _ & Hc & _ & _ & Hi & Hlen & _).
  exists results, trace, w'. repeat split; assumption.
Defined.

(** C2 at a concrete environment: without credentials the weather and the
    rate adapters flag their results. *)
Lemma adapters_sample_flag_witness :
  has_flag (get_current_weather offline_env "Tokyo") true /\
  has_flag (get_fx_rates offline_env "JPY") true.
Proof.
  destruct (adapters_sample_flag (R := lcg) offline_env)
    as (Hweather & _ & _ & _ & _ & Hfx & _).
  destruct (Hweather "Tokyo") as (b1 & Hb1 & Hk1).
  destruct (Hfx "JPY") as (b2 & Hb2 & Hk2).
  rewrite (Hk1 eq_refl) in Hb1. rewrite (Hk2 eq_refl) in Hb2.
  split; assumption.
Defined.

(** C3 at a concrete environment: both credentials set, both calls raise. *)
Lemma ask_gemini_sentinel_witness :
  groq_fails unreachable_env "Hello" /\
  gemini_fails unreachable_env "Hello" /\
  ask_gemini unreachable_env "Hello" = Returned "__LLM_UNAVAILABLE__".
Proof.
  assert (groq_fails unreachable_env "Hello") as Hg.
  { right. eexists. reflexivity. }
  assert (gemini_fails unreachable_env "Hello") as Hm.
  { right. right. eexists. reflexivity. }
  split; [exact Hg |]. split; [exact Hm |].
  exact (ask_gemini_sentinel_when_both_fail unreachable_env "Hello" Hg Hm).
Defined.

(** C6 at a concrete call: started at time 1, ended at time 2 with an
    error. *)
Lemma start_then_end_call_witness :
  (1 <= 2)%Q /\
  exists t' call,
    end_call 2 (fst (start_call 1 "search_flights" [] new_trace)) VNone
      (Some "boom") (snd (start_call 1 "search_flights" [] new_trace))
    = Returned t' /\
    calls t' !! 0%nat = Some call /\
    (0 <= duration_ms call)%Q.
Proof.
  assert (1 <= 2)%Q as Hclock by (unfold Qle; cbn; discriminate).
  split; [exact Hclock |].
  destruct (start_then_end_call new_trace "search_flights" [] VNone (Some "boom")
              1 2)
    as (t' & call & Hend & _ & Hat & _ & _ & _ & _ & _ & _ & _ & Hdur & _).
  exists t', call. split; [exact Hend |]. split; [exact Hat |].
  exact (Hdur Hclock).
Defined.

(** C7 at a concrete environment: no credential, every service down. *)
Lemma market_agent_france_witness :
  restcountries_fails offline_env "France" /\
  exchangerate_fails offline_env "N/A" /\
  (forall prompt, groq_fails offline_env prompt /\ gemini_fails offline_env prompt) /\
  exists results trace w',
    run_market_agent (R := lcg) offline_env "France" "" (@mkWorld lcg 0 0%nat)
    = (Returned (results, trace), w') /\
    dict_get "market_summary" results = Some (VStr france_summary) /\
    length (calls trace) = 5%nat.
Proof.
  assert (restcountries_fails offline_env "France") as Hrc.
  { intros c. discriminate. }
  assert (exchangerate_fails offline_env "N/A") as Hfx.
  { left. reflexivity. }
  assert (forall prompt,
             groq_fails offline_env prompt /\ gemini_fails offline_env prompt)
    as Hllm.
  { intros prompt. split; left; reflexivity. }
  split; [exact Hrc |]. split; [exact Hfx |]. split; [exact Hllm |].
  destruct (market_agent_france_all_failing (R := lcg) offline_env ""
              (@mkWorld lcg 0 0%nat) Hrc Hfx Hllm)
    as (results & trace & w' & Hrun & _ & _ & _ & _ & Hsum & _ & Hlen & _).
  exists results, trace, w'. repeat split; assumption.
Defined.

(** C8 at runs in which every step raises: no tool is registered and the
    gateway is down; both pipelines return and every call is finalized. *)
Lemma pipelines_finalize_witness :
  (failing_trip_run
   = (Returned (failing_trip_results, failing_trip_trace), failing_trip_world) /\
   length (calls failing_trip_trace) = 7%nat /\
   Forall (fun c => status c <> "pending") (calls failing_trip_trace)) /\
  (failing_market_run
   = (Returned (failing_market_results, failing_market_trace),
      failing_market_world) /\
   length (calls failing_market_trace) = 5%nat /\
   Forall (fun c => status c <> "pending") (calls failing_market_trace)).
Proof.
  destruct (pipelines_finalize_every_call (R := lcg) offline_env empty_registry
              broken_gateway) as [Htrip Hmarket].
  unfold failing_trip_run, failing_market_run.
  assert (agent_trip.run_trip_agent_with (R := lcg) offline_env empty_registry
            broken_gateway "Delhi" "Tokyo" "2025-06-01" "2025-06-05" "Medium" 2
            "" (@mkWorld lcg 0 0%nat)
          = (Returned (failing_trip_results, failing_trip_trace),
             failing_trip_world)) as Hrun.
  { vm_cast_no_check
      (eq_refl (Returned (failing_trip_results, failing_trip_trace),
                failing_trip_world)). }
  assert (agent_market.run_market_agent_with (R := lcg) offline_env
            empty_registry broken_gateway "France" "" (@mkWorld lcg 0 0%nat)
          = (Returned (failing_market_results, failing_market_trace),
             failing_market_world)) as Hrun'.
  { vm_cast_no_check
      (eq_refl (Returned (failing_market_results, failing_market_trace),
                failing_market_world)). }
  split.
  - split; [exact Hrun |].
    destruct (Htrip "Delhi" "Tokyo" "2025-06-01" "2025-06-05" "Medium" 2 ""
                (@mkWorld lcg 0 0%nat) failing_trip_results failing_trip_trace
                failing_trip_world Hrun) as (Hlen & Hpend & _).
    split; assumption.
  - split; [exact Hrun' |].
    destruct (Hmarket "France" "" (@mkWorld lcg 0 0%nat) failing_market_results
                failing_market_trace failing_market_world Hrun')
      as (Hlen & Hpend & _).
    split; assumption.
Defined.

(** * Further properties *)

(** ** The recorder: one record at a time *)

Lemma finalize_keeps_identity now out err call :
  tool_name (finalize now out err call) = tool_name call /\
  inputs (finalize now out err call) = inputs call /\
  timestamp (finalize now out err call) = timestamp call.
Proof. now repeat split. Qed.

(** X1: a successful [end_call] rewrites the one record its handle
    designates: the number of records is unchanged, every other record is
    left as it was, and the name, the inputs and the timestamp of the
    rewritten record are kept. *)
Theorem end_call_rewrites_one_record (now : Q) (index : Z) (out : value)
  (err : option string) (t t' : MCPTrace) :
  end_call now index out err t = Returned t' ->
  exists k call,
    py_index (calls t) index = Some k /\
    calls t !! k = Some call /\
    calls t' !! k = Some (finalize now out err call) /\
    length (calls t') = length (calls t) /\
    (forall i, i <> k -> calls t' !! i = calls t !! i) /\
    map tool_name (calls t') = map tool_name (calls t) /\
    map inputs (calls t') = map inputs (calls t) /\
    map timestamp (calls t') = map timestamp (calls t).
Proof.
  unfold end_call. destruct (py_index (calls t) index) as [k |] eqn:Hk;
    [| discriminate].
  destruct (calls t !! k) as [call |] eqn:Hc; [| discriminate].
  intros [= <-]. exists k, call. cbn [calls].
  pose proof (lookup_lt_Some _ _ _ Hc) as Hlt.
  split; [reflexivity |]. split; [exact Hc |].
  split; [now apply list_lookup_insert_eq |].
  split; [apply length_insert |].
  split; [intros i Hi; now apply list_lookup_insert_ne |].
  assert (forall (B : Type) (f : ToolCall -> B),
             f (finalize now out err call) = f call ->
             map f (<[k := finalize now out err call]> (calls t))
             = map f (calls t)) as Hmap.
  { intros B f Hf. change (map f) with (fmap (M := list) f).
    rewrite list_fmap_insert, Hf. apply list_insert_id.
    now rewrite list_lookup_fmap, Hc. }
  repeat split; now apply Hmap.
Qed.

(** X2: two calls in flight.  When a second call is started before the
    first is ended, the handles are consecutive, both [end_call]s succeed,
    and each record ends up with the output and the error passed for its
    own handle. *)
Theorem interleaved_calls_keep_their_results (t : MCPTrace)
  (name_a name_b : string) (kwargs_a kwargs_b : dict)
  (out_a out_b : value) (err_a err_b : option string) (t1 t2 t3 t4 : Q) :
  let ha := fst (start_call t1 name_a kwargs_a t) in
  let ta := snd (start_call t1 name_a kwargs_a t) in
  let hb := fst (start_call t2 name_b kwargs_b ta) in
  let tb := snd (start_call t2 name_b kwargs_b ta) in
  hb = ha + 1 /\
  exists tc td ca cb,
    end_call t3 ha out_a err_a tb = Returned tc /\
    end_call t4 hb out_b err_b tc = Returned td /\
    calls td !! Z.to_nat ha = Some ca /\
    calls td !! Z.to_nat hb = Some cb /\
    tool_name ca = name_a /\ inputs ca = kwargs_a /\
    output ca = out_a /\ error ca = err_a /\
    tool_name cb = name_b /\ inputs cb = kwargs_b /\
    output cb = out_b /\ error cb = err_b /\
    length (calls td) = S (S (length (calls t))).
Proof.
  cbv zeta. rewrite !start_call_spec. cbn [fst snd calls].
  set (n := length (calls t)).
  set (a := mkToolCall name_a kwargs_a VNone "pending" t1 0 None).
  set (b := mkToolCall name_b kwargs_b VNone "pending" t2 0 None).
  assert (length (calls t ++ [a])%list = S n) as Hla
      by (rewrite length_app; cbn; lia).
  rewrite Hla. split; [lia |].
  assert (((calls t ++ [a]) ++ [b])%list !! n = Some a) as Ha.
  { rewrite lookup_app_l by lia. rewrite lookup_app_r by lia.
    now rewrite Nat.sub_diag. }
  assert (forall c, (<[n := c]> ((calls t ++ [a]) ++ [b])%list) !! S n = Some b)
    as Hb.
  { intros c. rewrite list_lookup_insert_ne by lia.
    rewrite lookup_app_r by lia. now rewrite Hla, Nat.sub_diag. }
  eexists _, _, _, _.
  split.
  { apply (end_call_at _ _ _ _ _ n a); cbn [calls]; [| exact Ha].
    rewrite py_index_in_range; [now rewrite Nat2Z.id |].
    rewrite length_app, Hla. cbn. lia. }
  split.
  { apply (end_call_at _ _ _ _ _ (S n) b); cbn [calls]; [| apply Hb].
    rewrite py_index_in_range; [now rewrite Nat2Z.id |].
    rewrite length_insert, length_app, Hla. cbn. lia. }
  cbn [calls]. rewrite !Nat2Z.id.
  split.
  { rewrite list_lookup_insert_ne by lia. apply list_lookup_insert_eq.
    rewrite length_app, Hla. cbn. lia. }
  split.
  { apply list_lookup_insert_eq.
    rewrite length_insert, length_app, Hla. cbn. lia. }
  repeat split. rewrite !length_insert, length_app, Hla. cbn. lia.
Qed.

(** X3: after [reset] the trace is empty: every handle, old or new, is
    refused by [end_call] until a call is started again, and the next
    [start_call] hands out the handle 0 once more. *)
Theorem reset_refuses_every_handle (t : MCPTrace) (now : Q) (index : Z)
  (out : value) (err : option string) (name : string) (kwargs : dict) :
  get_calls (reset t) = [] /\
  end_call now index out err (reset t) = Raised "list index out of range" /\
  fst (start_call now name kwargs (reset t)) = 0 /\
  end_call now 0 out err (snd (start_call now name kwargs (reset t)))
  = Returned (mkTrace [finalize now out err
                         (mkToolCall name kwargs VNone "pending" now 0 None)]).
Proof.
  split; [reflexivity |]. split.
  - unfold end_call. rewrite py_index_out_of_range; [reflexivity |].
    cbn. lia.
  - split; reflexivity.
Qed.

(** ** The gateway and its availability check *)

(** X4: when [configure_gemini] answers [None], no key being set,
    [ask_gemini] returns the sentinel for every prompt; and whenever
    [ask_gemini] returns anything but the sentinel, [configure_gemini]
    answers [True]. *)
Theorem configure_gemini_none_means_unavailable (env : Env) :
  (configure_gemini env = VNone ->
   forall prompt, ask_gemini env prompt = Returned LLM_UNAVAILABLE) /\
  (forall prompt s,
      ask_gemini env prompt = Returned s -> s <> LLM_UNAVAILABLE ->
      configure_gemini env = VBool true).
Proof.
  assert (configure_gemini env = VNone ->
          forall prompt, ask_gemini env prompt = Returned LLM_UNAVAILABLE) as H.
  { unfold configure_gemini.
    destruct (String.eqb_spec (GROQ_API_KEY env) "") as [Hg |]; [| discriminate].
    destruct (String.eqb_spec (GOOGLE_API_KEY env) "") as [Hm |]; [| discriminate].
    intros _ prompt. apply ask_gemini_unavailable; [now left | right; now left]. }
  split; [exact H |].
  intros prompt s Hs Hne. unfold configure_gemini.
  destruct (String.eqb_spec (GROQ_API_KEY env) "") as [Hg |]; [| reflexivity].
  destruct (String.eqb_spec (GOOGLE_API_KEY env) "") as [Hm |]; [| reflexivity].
  exfalso. apply Hne.
  rewrite (ask_gemini_unavailable env prompt) in Hs;
    [now injection Hs as <- | now left | right; now left].
Qed.

(** X5: the check can answer [True] although no backend can serve: with no
    Groq key, a Google key set and the Google library missing,
    [configure_gemini] is [True] and [ask_gemini] still returns the sentinel
    for every prompt. *)
Theorem configure_gemini_ignores_missing_library (env : Env) :
  GROQ_API_KEY env = "" ->
  GOOGLE_API_KEY env <> "" ->
  HAS_GOOGLE env = false ->
  configure_gemini env = VBool true /\
  forall prompt, ask_gemini env prompt = Returned LLM_UNAVAILABLE.
Proof.
  intros Hg Hm Hlib. split.
  - unfold configure_gemini. rewrite Hg. cbn.
    now destruct (String.eqb_spec (GOOGLE_API_KEY env) "").
  - intros prompt. apply ask_gemini_unavailable; [now left | now left].
Qed.

(** X6: Groq comes first.  When a Groq key is set and the Groq call returns
    a non-empty text, [ask_gemini] returns that text, whatever the Gemini
    backend would have answered; when Groq fails or answers with an empty
    text and Gemini, configured, returns a non-empty text, [ask_gemini]
    returns Gemini's. *)
Theorem ask_gemini_prefers_groq (env : Env) (prompt text : string) :
  text <> "" ->
  (GROQ_API_KEY env <> "" ->
   groq_chat env (GROQ_API_KEY env) prompt = Returned (Some text) ->
   ask_gemini env prompt = Returned text) /\
  ((groq_fails env prompt \/
    groq_chat env (GROQ_API_KEY env) prompt = Returned (Some "") \/
    groq_chat env (GROQ_API_KEY env) prompt = Returned None) ->
   HAS_GOOGLE env = true ->
   GOOGLE_API_KEY env <> "" ->
   gemini_generate env (GOOGLE_API_KEY env) prompt = Returned (Some text) ->
   ask_gemini env prompt = Returned text).
Proof.
  intros Htext. split.
  - intros Hkey Hcall. unfold ask_gemini, _ask_groq.
    destruct (String.eqb_spec (GROQ_API_KEY env) ""); [contradiction |].
    rewrite Hcall. cbn. destruct text; [contradiction | reflexivity].
  - intros Hgroq Hlib Hkey Hcall.
    assert (exists r, _ask_groq env prompt = Returned r /\ truthy_str r = false)
      as (r & Hr & Ht).
    { destruct Hgroq as [Hf | [He | Hn]].
      - exists None. split; [now apply ask_groq_fails | reflexivity].
      - unfold _ask_groq. destruct (String.eqb _ _); [now exists None |].
        rewrite He. now exists (Some "").
      - unfold _ask_groq. destruct (String.eqb _ _); [now exists None |].
        rewrite Hn. now exists None. }
    unfold ask_gemini. rewrite Hr. cbn. rewrite Ht.
    unfold _ask_gemini. rewrite Hlib. cbn.
    destruct (String.eqb_spec (GOOGLE_API_KEY env) ""); [contradiction |].
    rewrite Hcall. cbn. destruct text; [contradiction | reflexivity].
Qed.

(** ** What the draws can give *)

Section Draws.
Context {R : RandomModule}.

Lemma randint_range a b (g : rng) :
  a <= b -> a <= fst (randint a b g) <= b.
Proof.
  intros Hab. unfold randint, randbelow.
  unfold mbind, Rand_bind, rand_bind, mret, Rand_ret, rand_ret.
  pose proof (rng_randbelow_range (b - a + 1) g) as Hr.
  destruct (rng_randbelow (b - a + 1) g) as [r g']. cbn in *. lia.
Qed.

Lemma choice_In {A} (d : A) (seq : list A) (g : rng) :
  seq <> [] -> In (fst (choice d seq g)) seq.
Proof.
  intros Hne. unfold choice, randbelow.
  unfold mbind, Rand_bind, rand_bind, mret, Rand_ret, rand_ret.
  assert (0 < Z.of_nat (length seq)) as Hlen by (destruct seq; [easy | cbn; lia]).
  pose proof (rng_randbelow_range (Z.of_nat (length seq)) g Hlen) as Hr.
  destruct (rng_randbelow _ g) as [i g']. cbn in *.
  apply nth_In. lia.
Qed.

Lemma bisect_le cum x hi : (bisect cum x hi <= hi)%nat.
Proof.
  unfold bisect. etransitivity; [apply length_filter |].
  rewrite length_take. lia.
Qed.

Lemma choices1_In {A} (d : A) (population : list A) weights (g : rng) :
  population <> [] -> In (fst (choices1 d population weights g)) population.
Proof.
  intros Hne. unfold choices1, random.
  unfold mbind, Rand_bind, rand_bind, mret, Rand_ret, rand_ret.
  destruct (rng_random g) as [r g']. cbn.
  apply nth_In.
  pose proof (bisect_le (accumulate_from 0 weights)
                (r * List.last (accumulate_from 0 weights) 0)%Q
                (length population - 1)).
  destruct population; [easy | cbn in *; lia].
Qed.

Lemma uniform_range a b (g : rng) :
  (a <= b)%Q ->
  (a <= fst (uniform a b g))%Q /\ (fst (uniform a b g) <= b)%Q.
Proof.
  intros Hab. unfold uniform, random.
  unfold mbind, Rand_bind, rand_bind, mret, Rand_ret, rand_ret.
  pose proof (rng_random_range g) as [H0 H1].
  destruct (rng_random g) as [r g']. cbn in *.
  assert (0 <= b - a)%Q as Hd by (unfold Qminus; now rewrite <- Qle_minus_iff).
  split.
  - rewrite <- (Qplus_0_r a) at 1. apply Qplus_le_r.
    now apply Qmult_le_0_compat.
  - apply Qle_trans with (a + (b - a) * 1)%Q.
    + apply Qplus_le_r.
      rewrite (Qmult_comm (b - a) r), (Qmult_comm (b - a) 1).
      apply Qmult_le_compat_r; [now apply Qlt_le_weak | exact Hd].
    + assert (a + (b - a) * 1 == b)%Q as -> by ring. apply Qle_refl.
Qed.

Lemma collect_length {A} (body : Rand A) n (g : rng) :
  length (fst (collect n body g)) = n.
Proof.
  revert g. induction n as [| n IH]; intros g; cbn; [reflexivity |].
  unfold mbind, Rand_bind, rand_bind, mret, Rand_ret, rand_ret.
  destruct (body g) as [x g1]. specialize (IH g1).
  destruct (collect n body g1) as [xs g2]. cbn in *. now rewrite IH.
Qed.

(** One turn of the selection loop: the item picked and the items still
    unselected are the items that were unselected before. *)
Lemma pool_step_perm {A} (d : A) (pool : list A) (n j : nat) :
  (0 < n)%nat -> (n <= length pool)%nat -> (j < n)%nat ->
  Permutation
    (nth j pool d :: take (n - 1) (<[j := nth (n - 1) pool d]> pool))
    (take n pool).
Proof.
  intros Hn Hlen Hj.
  destruct (lookup_lt_is_Some_2 pool (n - 1) ltac:(lia)) as [z Hz].
  destruct (lookup_lt_is_Some_2 pool j ltac:(lia)) as [y Hy].
  rewrite (nth_lookup_Some _ _ _ _ Hz), (nth_lookup_Some _ _ _ _ Hy).
  replace n with (S (n - 1)) at 2 by lia.
  rewrite (take_S_r _ _ _ Hz).
  destruct (decide (j = n - 1)%nat) as [-> | Hne].
  - rewrite take_insert_ge by lia.
    assert (y = z) as -> by congruence.
    apply Permutation_cons_append.
  - rewrite take_insert_lt by lia.
    assert (take (n - 1) pool !! j = Some y) as Hty
        by (rewrite lookup_take_lt by lia; exact Hy).
    rewrite insert_take_drop
      by (rewrite length_take; lia).
    rewrite <- (take_drop_middle _ _ _ Hty) at 3.
    rewrite <- !app_assoc. cbn.
    rewrite <- !Permutation_middle. now rewrite app_nil_r.
Qed.

(** [random.sample]: [k] items, no position of the population used twice,
    every item from the population. *)
Lemma sample_pool_spec {A} (d : A) k :
  forall (pool : list A) (n : nat) (g : rng),
    (n <= length pool)%nat -> (k <= n)%nat -> NoDup (take n pool) ->
    let picked := fst (sample_pool d pool n k g) in
    length picked = k /\ NoDup picked /\
    (forall x, In x picked -> In x (take n pool)).
Proof.
  induction k as [| k IH]; intros pool n g Hlen Hk Hnd; cbn.
  - repeat split; [constructor | intros x []].
  - unfold mbind, Rand_bind, rand_bind, mret, Rand_ret, rand_ret, randbelow.
    pose proof (rng_randbelow_range (Z.of_nat n) g ltac:(lia)) as Hr.
    destruct (rng_randbelow (Z.of_nat n) g) as [j g1]. cbn [fst] in Hr.
    set (j' := Z.to_nat j).
    assert (j' < n)%nat as Hj by (unfold j'; lia).
    set (pool' := <[j' := nth (n - 1) pool d]> pool).
    pose proof (pool_step_perm d pool n j' ltac:(lia) Hlen Hj) as Hperm.
    fold pool' in Hperm.
    assert (NoDup (nth j' pool d :: take (n - 1) pool')) as Hnd'
        by (now rewrite Hperm).
    apply NoDup_cons in Hnd' as [Hnotin Hnd'].
    specialize (IH pool' (n - 1)%nat g1).
    destruct (sample_pool d pool' (n - 1) k g1) as [rest g2].
    cbn [fst] in *.
    destruct IH as (Hl & Hn & Hin);
      [unfold pool'; rewrite length_insert; lia | lia | exact Hnd' |].
    split; [cbn; now rewrite Hl |].
    split.
    + apply NoDup_cons. split; [| exact Hn].
      intros Hx%list_elem_of_In. apply Hnotin, list_elem_of_In. now apply Hin.
    + intros x [<- | Hx].
      * apply list_elem_of_In. rewrite <- Hperm. left.
      * apply list_elem_of_In. rewrite <- Hperm. right.
        apply list_elem_of_In. now apply Hin.
Qed.
End Draws.

(** Rounding to one decimal stays between two bounds that are themselves
    multiples of a tenth. *)
Lemma round_half_even_between (lo hi : Z) q :
  (inject_Z lo <= q)%Q -> (q <= inject_Z hi)%Q ->
  lo <= round_half_even q <= hi.
Proof.
  intros Hlo Hhi. unfold round_half_even. cbv zeta.
  pose proof (Qfloor_resp_le _ _ Hlo) as H1. rewrite Qfloor_Z in H1.
  pose proof (Qfloor_resp_le _ _ Hhi) as H2. rewrite Qfloor_Z in H2.
  destruct (Z.eq_dec (Qfloor q) hi) as [Heq | Hne].
  - assert (q - inject_Z (Qfloor q) == 0)%Q as Hfrac.
    { rewrite Heq. apply Qle_antisym.
      - unfold Qminus. rewrite <- (Qplus_opp_r (inject_Z hi)).
        now apply Qplus_le_l.
      - unfold Qminus. rewrite <- Qle_minus_iff. rewrite <- Heq.
        apply Qfloor_le. }
    rewrite Hfrac. change (0 ?= 1 # 2)%Q with Lt. cbv iota. lia.
  - destruct (Qcompare _ _); [destruct (Z.even _) | |]; lia.
Qed.

(** ** The sample records *)

Section Samples.
Context {R : RandomModule}.
Variable env : Env.

(** Naming the next draw together with what is known of it. *)
Ltac draw :=
  lazymatch goal with
  | |- context [randint ?a ?b ?g] =>
      let H := fresh "Hdraw" in
      pose proof (randint_range a b g ltac:(lia)) as H;
      destruct (randint a b g) as [? ?]; cbn [fst] in H
  | |- context [choices1 ?d ?p ?w ?g] =>
      let H := fresh "Hdraw" in
      pose proof (choices1_In d p w g ltac:(discriminate)) as H;
      destruct (choices1 d p w g) as [? ?]; cbn [fst] in H
  | |- context [choice ?d ?l ?g] =>
      let H := fresh "Hdraw" in
      pose proof (choice_In d l g ltac:(discriminate)) as H;
      destruct (choice d l g) as [? ?]; cbn [fst] in H
  | |- context [uniform ?a ?b ?g] =>
      let H := fresh "Hdraw" in
      pose proof (uniform_range a b g ltac:(unfold Qle; cbn; lia)) as H;
      destruct (uniform a b g) as [? ?]; cbn [fst] in H
  end; cbv beta iota.

Ltac rand_binds :=
  unfold mbind, Rand_bind, rand_bind, mret, Rand_ret, rand_ret.

Lemma str_length_append s1 s2 :
  String.length (s1 ++ s2) = (String.length s1 + String.length s2)%nat.
Proof.
  induction s1 as [| c s1 IH]; [reflexivity |].
  change (S (String.length (s1 ++ s2))
          = S (String.length s1 + String.length s2)).
  now rewrite IH.
Qed.

Lemma fmt_02d_length z : 0 <= z <= 99 -> String.length (fmt_02d z) = 2%nat.
Proof.
  intros Hz.
  assert (forallb (fun n => Nat.eqb (String.length (fmt_02d (Z.of_nat n))) 2)
            (seq 0 100) = true) as Hall by (vm_compute; reflexivity).
  rewrite forallb_forall in Hall.
  specialize (Hall (Z.to_nat z)). rewrite Z2Nat.id in Hall by lia.
  apply Nat.eqb_eq, Hall, in_seq. lia.
Qed.

Lemma flight_option_record from_city to_city date travelers (g : rng) :
  let r := fst (flight_option from_city to_city date travelers g) in
  flight_priced travelers r /\ flight_echoes from_city to_city date r /\
  flight_scheduled r.
Proof.
  unfold flight_option. rand_binds. do 9 draw. cbn [fst].
  repeat match goal with H : In _ (_ :: _) |- _ => cbn [In] in H end.
  split; [| split].
  - eexists. split; [reflexivity |]. split; [| split; reflexivity].
    assert (z1 = 0 \/ z1 = 1 \/ z1 = 2) as Hs by intuition congruence.
    nia.
  - now repeat split.
  - exists s, z4, z, z0, z1, s0, s1.
    split; [cbn [In]; tauto |]. split; [lia |]. split; [lia |].
    split; [cbn [In]; intuition congruence |].
    split; [intuition lia |].
    split; [cbn [In]; tauto |].
    split; [cbn [In]; intuition congruence |].
    split; [reflexivity |]. split; [reflexivity |]. split; [reflexivity |].
    split.
    { rewrite !str_length_append, !fmt_02d_length; [reflexivity | |];
        intuition lia. }
    split; [reflexivity |]. split; [| split; reflexivity].
    cbn. unfold stop_label_of.
    assert (z1 = 0 \/ z1 = 1 \/ z1 = 2) as [-> | [-> | ->]]
        by intuition congruence.
    all: reflexivity.
Qed.
Lemma py_round_1_between (lo hi : Z) u :
  (inject_Z lo <= u)%Q -> (u <= inject_Z hi)%Q ->
  (inject_Z lo <= py_round 1 u)%Q /\ (py_round 1 u <= inject_Z hi)%Q.
Proof.
  intros Hlo Hhi. unfold py_round.
  change (Z.pos (10 ^ 1)) with 10. change (10 ^ 1)%positive with 10%positive.
  assert (lo * 10 <= round_half_even (u * inject_Z 10) <= hi * 10) as Hr.
  { apply round_half_even_between.
    - rewrite inject_Z_mult. apply Qmult_le_compat_r; [exact Hlo |].
      unfold Qle; cbn; lia.
    - rewrite inject_Z_mult. apply Qmult_le_compat_r; [exact Hhi |].
      unfold Qle; cbn; lia. }
  unfold Qle. cbn. lia.
Qed.

Lemma amenities_pool_NoDup : NoDup AMENITIES_POOL.
Proof. apply (bool_decide_unpack _). vm_compute. reflexivity. Qed.

Lemma hotel_option_record city checkin checkout guests (g : rng) :
  let r := fst (hotel_option env city checkin checkout guests g) in
  hotel_described city checkin checkout guests r /\ hotel_amenities r.
Proof.
  unfold hotel_option. rand_binds. do 6 draw.
  unfold sample.
  pose proof (sample_pool_spec "" (Z.to_nat z1) AMENITIES_POOL
                (length AMENITIES_POOL) r4) as Hsample.
  destruct (sample_pool "" AMENITIES_POOL (length AMENITIES_POOL)
              (Z.to_nat z1) r4) as [amenities g'].
  cbv beta iota. draw. cbn [fst] in *.
  destruct Hsample as (Hlen & Hnd & Hin);
    [reflexivity | cbn; lia | rewrite firstn_all; apply amenities_pool_NoDup |].
  rewrite firstn_all in Hin.
  destruct Hdraw1 as [Hlo Hhi].
  assert (inject_Z 3 <= q)%Q as Hlo'
      by (eapply Qle_trans; [| exact Hlo]; unfold Qle; cbn; lia).
  assert (q <= inject_Z 5)%Q as Hhi'
      by (eapply Qle_trans; [exact Hhi |]; unfold Qle; cbn; lia).
  destruct (py_round_1_between 3 5 q Hlo' Hhi') as [Hrlo Hrhi].
  split.
  - exists s, s0, z, (py_round 1 q), z0, s1.
    split; [exact Hdraw |]. split; [exact Hdraw0 |].
    split; [cbn [In] in *; intuition congruence |].
    split; [exact Hrlo |]. split; [exact Hrhi |].
    split; [lia |]. split; [exact Hdraw5 |].
    now repeat split.
  - exists amenities. split; [reflexivity |].
    split; [lia |]. split; [exact Hnd | exact Hin].
Qed.
End Samples.

Section SampleSearches.
Context {R : RandomModule}.
Variable env : Env.

Lemma generate_flights_length from_city to_city date travelers (g : rng) :
  (3 <= length (fst (generate_flights env from_city to_city date travelers g))
   <= 5)%nat.
Proof.
  unfold generate_flights, seed.
  unfold mbind, Rand_bind, rand_bind, mret, Rand_ret, rand_ret.
  pose proof (randint_range 3 5 (rng_seed (py_hash env (from_city ++ to_city ++ date)
                                            mod 2 ^ 31)) ltac:(lia)) as Hn.
  destruct (randint 3 5 _) as [n g1]. cbn [fst] in Hn.
  rewrite collect_length. lia.
Qed.

Lemma generate_hotels_length city checkin checkout guests (g : rng) :
  (4 <= length (fst (generate_hotels env city checkin checkout guests g))
   <= 6)%nat.
Proof.
  unfold generate_hotels, seed.
  unfold mbind, Rand_bind, rand_bind, mret, Rand_ret, rand_ret.
  pose proof (randint_range 4 6 (rng_seed (py_hash env (city ++ checkin ++ checkout)
                                            mod 2 ^ 31)) ltac:(lia)) as Hn.
  destruct (randint 4 6 _) as [n g1]. cbn [fst] in Hn.
  rewrite collect_length. lia.
Qed.

Lemma search_flights_Forall (P : dict -> Prop) from_city to_city date travelers :
  (forall g : rng, P (fst (flight_option from_city to_city date travelers g))) ->
  forall g : rng,
    Forall P (fst (search_flights env from_city to_city date travelers g)).
Proof.
  intros HP g. rewrite search_flights_sorts, <- sort_by_perm.
  unfold generate_flights, seed.
  unfold mbind, Rand_bind, rand_bind, mret, Rand_ret, rand_ret.
  destruct (randint 3 5 _) as [n g1]. now apply collect_Forall.
Qed.

Lemma search_hotels_Forall (P : dict -> Prop) city checkin checkout guests :
  (forall g : rng, P (fst (hotel_option env city checkin checkout guests g))) ->
  forall g : rng,
    Forall P (fst (search_hotels env city checkin checkout guests g)).
Proof.
  intros HP g. rewrite search_hotels_sorts, <- sort_by_perm.
  unfold generate_hotels, seed.
  unfold mbind, Rand_bind, rand_bind, mret, Rand_ret, rand_ret.
  destruct (randint 4 6 _) as [n g1]. now apply collect_Forall.
Qed.
End SampleSearches.

(** X7: [search_flights] returns three to five records and [search_hotels]
    four to six, whatever the arguments. *)
Theorem sample_search_counts {R : RandomModule} (env : Env)
  (from_city to_city date : string) (travelers : Z)
  (city checkin checkout : string) (guests : Z) (g : rng) :
  (3 <= length (fst (search_flights env from_city to_city date travelers g))
   <= 5)%nat /\
  (4 <= length (fst (search_hotels env city checkin checkout guests g))
   <= 6)%nat.
Proof.
  rewrite search_flights_sorts, search_hotels_sorts.
  rewrite <- !(Permutation_length (sort_by_perm _ _)).
  split; [apply generate_flights_length | apply generate_hotels_length].
Qed.

(** X8: every flight record costs between 100 and 1400 per person, its
    total is that price times the number of travellers, and it repeats the
    origin, the destination, the date and the number of travellers of the
    search. *)
Theorem flights_priced_for_the_search {R : RandomModule} (env : Env)
  (from_city to_city date : string) (travelers : Z) (g : rng) :
  Forall (fun r => flight_priced travelers r /\
                   flight_echoes from_city to_city date r)
    (fst (search_flights env from_city to_city date travelers g)).
Proof.
  apply search_flights_Forall. intros g'.
  destruct (flight_option_record from_city to_city date travelers g')
    as (Hp & He & _).
  now split.
Qed.

(** X9: every flight record names an airline of [AIRLINES], a flight number
    made of the first two letters of the airline in upper case and a number
    from 100 to 999, a departure HH:MM of five characters between 05:00 and
    22:45 on a quarter of an hour, zero to two stops with the label that
    goes with them, a duration of [DURATIONS] and one of three classes. *)
Theorem flights_scheduled {R : RandomModule} (env : Env)
  (from_city to_city date : string) (travelers : Z) (g : rng) :
  Forall flight_scheduled
    (fst (search_flights env from_city to_city date travelers g)).
Proof.
  apply search_flights_Forall. intros g'.
  now destruct (flight_option_record from_city to_city date travelers g')
    as (_ & _ & Hs).
Qed.

(** X10: every hotel record is named prefix, city, suffix with the city of
    the search, has 3, 4 or 5 stars, a rating between 3.0 and 5.0, a nightly
    price between 40 and 350, a location of [LOCATIONS], and repeats the
    dates and the number of guests of the search. *)
Theorem hotels_described {R : RandomModule} (env : Env)
  (city checkin checkout : string) (guests : Z) (g : rng) :
  Forall (hotel_described city checkin checkout guests)
    (fst (search_hotels env city checkin checkout guests g)).
Proof.
  apply search_hotels_Forall. intros g'.
  now destruct (hotel_option_record env city checkin checkout guests g').
Qed.

(** X11: every hotel record lists three to seven amenities, all from
    [AMENITIES_POOL], none of them twice. *)
Theorem hotels_amenities_distinct {R : RandomModule} (env : Env)
  (city checkin checkout : string) (guests : Z) (g : rng) :
  Forall hotel_amenities
    (fst (search_hotels env city checkin checkout guests g)).
Proof.
  apply search_hotels_Forall. intros g'.
  now destruct (hotel_option_record env city checkin checkout guests g').
Qed.

(** ** [_call_tool] when the call fails *)

Section CallToolFails.
Context {R : RandomModule}.
Variable env : Env.

Lemma call_tool_handler (registry : list (string * tool)) name kwargs e st st1 :
  st_trace st1
  = mkTrace (calls (st_trace st)
             ++ [mkToolCall name kwargs VNone "pending"
                   (clock env (w_ticks (st_world st))) 0 None]) ->
  st_results st1 = st_results st ->
  exists st',
    (_ ← m_end_call env (Z.of_nat (length (calls (st_trace st)))) VNone (Some e);
     mret (VDict [("error", VStr e)])) st1
    = (Returned (VDict [("error", VStr e)]), st') /\
    st_results st' = st_results st /\
    recorded_failure name kwargs e st st'.
Proof.
  intros Ht Hres. m_unfold.
  erewrite m_end_call_last by (rewrite Ht; reflexivity).
  eexists. split; [reflexivity |]. split; [exact Hres |].
  eexists. split; [reflexivity |]. cbn.
  repeat split. now destruct e.
Qed.
End CallToolFails.

(** X12: a registered tool that raises.  [_call_tool] does not raise: it
    returns the dict with the one key error holding the message, leaves
    [results] alone, and adds one record with the name and the arguments of
    the call, output [None] and the message as its error.  The status of
    the record is error, unless the message is empty: an exception without
    a message is recorded with status success. *)
Theorem call_tool_contains_raise {R : RandomModule} (env : Env)
  (registry : list (string * tool)) (fn : tool) (name : string) (kwargs : dict)
  (e : string) (w' : World) (st : Store) :
  table_get name registry = Some fn ->
  fn kwargs (mkWorld (w_rng (st_world st)) (S (w_ticks (st_world st))))
  = (Raised e, w') ->
  exists st',
    _call_tool env registry name kwargs st
    = (Returned (VDict [("error", VStr e)]), st') /\
    st_results st' = st_results st /\
    recorded_failure name kwargs e st st'.
Proof.
  intros Hreg Hfn. unfold _call_tool. m_unfold.
  rewrite m_start_call_eq. unfold m_try, m_lift. rewrite Hreg.
  unfold m_tool. cbn [st_world]. rewrite Hfn.
  apply (call_tool_handler env registry); reflexivity.
Qed.

(** X13: a name the registry does not know.  The lookup fails inside the
    [try], so [_call_tool] returns a dict with the key error and a message
    that is not empty, no tool is run, and the call is recorded with status
    error. *)
Theorem call_tool_unknown_name {R : RandomModule} (env : Env)
  (registry : list (string * tool)) (name : string) (kwargs : dict)
  (st : Store) :
  table_get name registry = None ->
  exists e st',
    e <> "" /\
    _call_tool env registry name kwargs st
    = (Returned (VDict [("error", VStr e)]), st') /\
    st_results st' = st_results st /\
    w_rng (st_world st') = w_rng (st_world st) /\
    recorded_failure name kwargs e st st' /\
    Exists (fun c => tool_name c = name /\ status c = "error")
      (calls (st_trace st')).
Proof.
  intros Hreg. exists ("'" ++ name ++ "'").
  unfold _call_tool. m_unfold.
  rewrite m_start_call_eq. unfold m_try, m_lift. rewrite Hreg.
  m_unfold. erewrite m_end_call_last by reflexivity.
  eexists. split; [discriminate |]. split; [reflexivity |].
  split; [reflexivity |]. split; [reflexivity |].
  split.
  - eexists. split; [reflexivity |]. now repeat split.
  - cbn [st_trace calls]. apply Exists_app. right. constructor. now split.
Qed.

(** ** The shape of what the adapters return *)

Lemma str_atb_spec k r : str_atb k r = true -> str_at k r.
Proof.
  unfold str_atb, str_at. destruct (dict_get k r) as [[] |]; try discriminate.
  intros _. now eexists.
Qed.

Lemma attraction_recordb_spec r : attraction_recordb r = true -> attraction_record r.
Proof.
  unfold attraction_recordb, attraction_record.
  intros [[[H1 H2]%andb_prop H3]%andb_prop H4]%andb_prop.
  repeat split; try now apply str_atb_spec.
  unfold float_atb in H4. destruct (dict_get "rating" r) as [[] |]; try discriminate.
  now eexists.
Qed.

Lemma parse_attraction_line_record env line a :
  parse_attraction_line env line = Some a -> attraction_record a.
Proof.
  unfold parse_attraction_line.
  destruct (strip line) as [| c s]; [discriminate |].
  destruct (is_digit c); [| discriminate]. cbn [negb].
  destruct (Nat.leb 3 _); [| discriminate].
  intros [= <-]. repeat split; now eexists.
Qed.

Lemma parse_attraction_lines_record env lines :
  Forall attraction_record (parse_attraction_lines env lines).
Proof.
  induction lines as [| line lines IH]; cbn; [constructor |].
  destruct (parse_attraction_line env line) eqn:E; [| exact IH].
  constructor; [| exact IH]. eapply parse_attraction_line_record; eassumption.
Qed.

Lemma get_attractions_shape env city :
  get_attractions env city <> [] /\
  Forall attraction_record (get_attractions env city).
Proof.
  unfold get_attractions.
  destruct (table_get _ CURATED_ATTRACTIONS) as [curated |] eqn:E.
  - pose proof (table_get_forallb
                  (fun l => negb (Nat.eqb (length l) 0) && forallb attraction_recordb l)
                  _ CURATED_ATTRACTIONS curated eq_refl E) as [Hn Hr]%andb_prop.
    split; [now destruct curated |].
    apply Forall_forall. intros r Hr'. apply attraction_recordb_spec.
    rewrite forallb_forall in Hr. apply Hr. now apply list_elem_of_In.
  - destruct (attractions_from_llm env city) as [[| a l] | e] eqn:El.
    + split; [discriminate |]. repeat constructor; now eexists.
    + split; [discriminate |].
      unfold attractions_from_llm in El.
      destruct (ask_gemini env _) as [response | e]; [| discriminate]. cbn in El.
      destruct (_ || _); [discriminate |]. injection El as El.
      rewrite <- El. apply parse_attraction_lines_record.
    + split; [discriminate |]. repeat constructor; now eexists.
Qed.

Lemma sample_forecast_rows note :
  length (sample_forecast note) = 5%nat /\
  Forall forecast_row (sample_forecast note).
Proof.
  split; [reflexivity |].
  repeat constructor; try (now eexists); left; now eexists.
Qed.

(** Without a key, or when the request raises, the forecast is the sample
    table, each row with the flag and the note in front. *)
Lemma get_weather_forecast_sample env city :
  OPENWEATHER_API_KEY env = "" \/
  (exists e, owm_forecast env (OPENWEATHER_API_KEY env) city = Raised e) ->
  exists note,
    get_weather_forecast env city = map (sample_row note) SAMPLE_FORECAST /\
    (OPENWEATHER_API_KEY env = "" -> note = "SAMPLE DATA") /\
    (OPENWEATHER_API_KEY env <> "" ->
     forall e, owm_forecast env (OPENWEATHER_API_KEY env) city = Raised e ->
               note = "SAMPLE DATA - API error: " ++ e).
Proof.
  intros H. unfold get_weather_forecast.
  destruct (String.eqb_spec (OPENWEATHER_API_KEY env) "") as [Hk | Hk].
  - exists "SAMPLE DATA". split; [reflexivity |].
    split; [reflexivity | contradiction].
  - destruct H as [H | [e He]]; [contradiction |]. rewrite He.
    exists ("SAMPLE DATA - API error: " ++ e). split; [reflexivity |].
    split; [contradiction |]. intros e' He'. congruence.
Qed.

Lemma get_weather_forecast_shape env city :
  (length (get_weather_forecast env city) <= 5)%nat /\
  Forall forecast_row (get_weather_forecast env city) /\
  (OPENWEATHER_API_KEY env = "" \/
   (exists e, owm_forecast env (OPENWEATHER_API_KEY env) city = Raised e) ->
   length (get_weather_forecast env city) = 5%nat /\
   Forall (fun r => has_flag r true) (get_weather_forecast env city)).
Proof.
  unfold get_weather_forecast.
  destruct (String.eqb_spec (OPENWEATHER_API_KEY env) "") as [Hk | Hk].
  - destruct (sample_forecast_rows "SAMPLE DATA") as [Hl Hr].
    split; [rewrite Hl; lia |]. split; [exact Hr |].
    intros _. split; [exact Hl | apply sample_forecast_flag].
  - destruct (owm_forecast env _ city) as [daily | e].
    + split; [rewrite length_map, length_take; lia |].
      split.
      * apply Forall_forall. intros r [d [-> _]]%list_elem_of_fmap.
        repeat split; try (now eexists); right; now eexists.
      * intros [Hk' | [e [=]]]. contradiction.
    + destruct (sample_forecast_rows ("SAMPLE DATA - API error: " ++ e)) as [Hl Hr].
      split; [rewrite Hl; lia |]. split; [exact Hr |].
      intros _. split; [exact Hl | apply sample_forecast_flag].
Qed.


Lemma fx_fallback_shape code n1 n2 :
  dict_get "base" (fx_fallback code n1 n2) = Some (VStr code) /\
  dict_has "last_updated" (fx_fallback code n1 n2) = true /\
  exists rates,
    dict_get "rates" (fx_fallback code n1 n2) = Some (VDict rates) /\
    keys rates = target_currencies.
Proof.
  unfold fx_fallback. destruct (table_get code FALLBACK_RATES) as [rates |] eqn:E.
  - split; [reflexivity |]. split; [reflexivity |].
    exists rates. split; [reflexivity |].
    pose proof (table_get_forallb
                  (fun r => bool_decide (keys r = target_currencies))
                  _ FALLBACK_RATES rates eq_refl E) as H.
    cbv beta in H. now apply bool_decide_eq_true in H.
  - split; [reflexivity |]. split; [reflexivity |].
    now exists zero_rates.
Qed.

Lemma get_fx_rates_shape env code :
  dict_get "base" (get_fx_rates env code) = Some (VStr code) /\
  dict_has "last_updated" (get_fx_rates env code) = true /\
  exists rates,
    dict_get "rates" (get_fx_rates env code) = Some (VDict rates) /\
    keys rates = target_currencies.
Proof.
  unfold get_fx_rates.
  destruct (String.eqb (EXCHANGERATE_API_KEY env) ""); [apply fx_fallback_shape |].
  destruct (exchangerate env _ code) as [[data |] | e];
    [| apply fx_fallback_shape | apply fx_fallback_shape].
  split; [reflexivity |]. split; [reflexivity |].
  eexists. split; reflexivity.
Qed.

Lemma get_currency_info_shape env country :
  has_keys CURRENCY_KEYS (get_currency_info env country) /\
  str_at "currency_code" (get_currency_info env country).
Proof.
  unfold get_currency_info.
  assert (forall fb,
             table_get (strip (lower country)) FALLBACK_CURRENCIES = Some fb ->
             let r := dict_merge (dict_merge [("country", VStr country)] fb)
                        [("flag", VStr ""); ("sample", VBool true);
                         ("note", VStr "Fallback data used")] in
             has_keys CURRENCY_KEYS r /\ str_at "currency_code" r) as Hfb.
  { intros fb E r.
    pose proof (table_get_forallb
                  (fun fb =>
                     let r := dict_merge (dict_merge [("country", VStr country)] fb)
                                [("flag", VStr ""); ("sample", VBool true);
                                 ("note", VStr "Fallback data used")] in
                     forallb (fun k => dict_has k r) CURRENCY_KEYS
                     && str_atb "currency_code" r)
                  _ FALLBACK_CURRENCIES fb eq_refl E) as [Hk Hc]%andb_prop.
    split; [| now apply str_atb_spec].
    apply Forall_forall. intros k Hin. rewrite forallb_forall in Hk.
    apply Hk. now apply list_elem_of_In. }
  assert (let r := [("country", VStr country); ("currency_code", VStr "N/A");
                    ("currency_name", VStr "Unknown"); ("currency_symbol", VStr "");
                    ("capital", VStr "Unknown"); ("latlng", VList [VInt 0; VInt 0]);
                    ("flag", VStr ""); ("sample", VBool true);
                    ("note", VStr "Country not found")] in
          has_keys CURRENCY_KEYS r /\ str_at "currency_code" r) as Hnone.
  { split; [repeat constructor | now eexists]. }
  destruct (restcountries env country) as [[c |] | e].
  - split; [repeat constructor | now eexists].
  - destruct (table_get _ FALLBACK_CURRENCIES) eqn:E; [now apply Hfb | exact Hnone].
  - destruct (table_get _ FALLBACK_CURRENCIES) eqn:E; [now apply Hfb | exact Hnone].
Qed.



(** ** Runs with the registries of the two modules *)

Lemma strs_of_strings i ss : strs_of i (map VStr ss) = Returned ss.
Proof.
  revert i. induction ss as [| s ss IH]; intros i; cbn; [reflexivity |].
  now rewrite IH.
Qed.

Lemma gets_of_records k d (l : list dict) :
  gets_of_dicts k d (map VDict l) = map (dict_get_default k d) l.
Proof. induction l as [| r l IH]; cbn; [reflexivity | now rewrite IH]. Qed.

(** The fields read off a list of records are strings when every record
    has a string there, or nothing and a string for default. *)
Lemma fields_are_strings k d (l : list dict) :
  Forall (fun r => exists s, dict_get_default k d r = VStr s) l ->
  exists ss, gets_of_dicts k d (map VDict l) = map VStr ss.
Proof.
  rewrite gets_of_records.
  induction 1 as [| r l [s Hs] _ [ss IH]]; [now exists [] |].
  exists (s :: ss). cbn. now rewrite Hs, IH.
Qed.

Lemma py_join_strings sep ss : py_join sep (map VStr ss) = Returned (join sep ss).
Proof. unfold py_join. now rewrite strs_of_strings. Qed.

Lemma str_at_default k d r : str_at k r -> exists s, dict_get_default k d r = VStr s.
Proof. intros [s Hs]. exists s. unfold dict_get_default. now rewrite Hs. Qed.

Lemma ask_gemini_returns env prompt : exists s, ask_gemini env prompt = Returned s.
Proof.
  unfold ask_gemini.
  destruct (ask_groq_returns env prompt) as [r ->]. cbn.
  destruct (truthy_str r); [now eexists |].
  destruct (ask_gemini_backend_returns env prompt) as [r' ->]. cbn.
  destruct (truthy_str r'); now eexists.
Qed.

Section ModuleRuns.
Context {R : RandomModule}.
Variable env : Env.

(** A registered tool that returns: the call is recorded under its name as
    a success and the value handed back. *)
Lemma call_tool_returns_as (registry : list (string * tool)) name kwargs
  (fn : tool) (G : value -> Prop) st :
  table_get name registry = Some fn ->
  (forall w, exists v w', fn kwargs w = (Returned v, w') /\ G v) ->
  exists v st',
    _call_tool env registry name kwargs st = (Returned v, st') /\ G v /\
    st_results st' = st_results st /\ recorded_as name st st'.
Proof.
  intros Hreg Hfn. unfold _call_tool. m_unfold.
  rewrite m_start_call_eq. unfold m_try, m_lift. rewrite Hreg.
  unfold m_tool. cbn [st_world].
  destruct (Hfn (mkWorld (w_rng (st_world st)) (S (w_ticks (st_world st)))))
    as (v & w' & Hv & HG).
  rewrite Hv. erewrite m_end_call_last by reflexivity.
  exists v. eexists. split; [reflexivity |]. split; [exact HG |].
  split; [reflexivity |]. eexists. split; [reflexivity |]. now repeat split.
Qed.

Lemma trip_step_tool_as (registry : list (string * tool)) key name kwargs
  (fn : tool) (G : value -> Prop) st :
  table_get name registry = Some fn ->
  (forall w, exists v w', fn kwargs w = (Returned v, w') /\ G v) ->
  exists v st',
    agent_trip.step_tool env registry key name kwargs st = (Returned tt, st') /\
    G v /\ st_results st' = dict_set key v (st_results st) /\
    recorded_as name st st'.
Proof.
  intros Hreg Hfn.
  destruct (call_tool_returns_as registry name kwargs fn G st Hreg Hfn)
    as (v & st' & Hcall & HG & Hres & Hrec).
  unfold agent_trip.step_tool. m_unfold. rewrite Hcall.
  exists v. eexists. split; [reflexivity |]. split; [exact HG |].
  cbn. now rewrite Hres.
Qed.

Lemma market_step_tool_as (registry : list (string * tool)) key name kwargs
  (fn : tool) (G : value -> Prop) st :
  table_get name registry = Some fn ->
  (forall w, exists v w', fn kwargs w = (Returned v, w') /\ G v) ->
  exists v st',
    agent_market.step_tool env registry key name kwargs st = (Returned tt, st') /\
    G v /\ st_results st' = dict_set key v (st_results st) /\
    recorded_as name st st'.
Proof.
  intros Hreg Hfn.
  destruct (call_tool_returns_as registry name kwargs fn G st Hreg Hfn)
    as (v & st' & Hcall & HG & Hres & Hrec).
  unfold agent_market.step_tool. m_unfold. rewrite Hcall.
  exists v. eexists. split; [reflexivity |]. split; [exact HG |].
  cbn. now rewrite Hres.
Qed.

(** Step 1 when the gateway returns. *)
Lemma step_culture_returns ask to_city text st :
  ask (agent_trip.culture_prompt to_city) = Returned text ->
  exists st',
    agent_trip.step_culture env ask to_city st = (Returned tt, st') /\
    st_results st'
    = dict_set "cultural_info"
        (VStr (if String.eqb text LLM_UNAVAILABLE
               then get_fallback_cultural_info to_city else text))
        (st_results st) /\
    recorded_as "llm_cultural_paragraph" st st'.
Proof.
  intros Hask. unfold agent_trip.step_culture. m_unfold.
  rewrite m_start_call_eq. unfold m_try, m_lift. rewrite Hask.
  destruct (String.eqb text LLM_UNAVAILABLE);
    erewrite m_end_call_last by reflexivity;
    (eexists; split; [reflexivity |]; split; [reflexivity |];
     eexists; split; [reflexivity |]; now repeat split).
Qed.

(** Step 7 when the prompt can be built and the gateway returns. *)
Lemma step_itinerary_returns ask from_city to_city start_date end_date budget
  travelers preferences names attractions first3 days forecast text st :
  agent_trip.attractions_names_of (st_results st) = Returned names ->
  py_join ", " names = Returned attractions ->
  py_slice_to 3 (dict_get_default "forecast" (VList []) (st_results st))
  = Returned first3 ->
  py_iter first3 = Returned days ->
  py_join ", " (gets_of_dicts "description" (VStr "N/A") days) = Returned forecast ->
  ask (agent_trip.itin_prompt from_city to_city start_date end_date budget
         travelers preferences attractions forecast)
  = Returned text ->
  exists st',
    agent_trip.step_itinerary env ask from_city to_city start_date end_date
      budget travelers preferences st = (Returned tt, st') /\
    st_results st'
    = dict_set "itinerary"
        (VStr (if String.eqb text LLM_UNAVAILABLE
               then get_fallback_itinerary env to_city from_city start_date
                      end_date travelers budget preferences names
               else text))
        (st_results st) /\
    recorded_as "llm_day_itinerary" st st'.
Proof.
  intros Hnames Hjoin Hslice Hiter Hfc Hask.
  unfold agent_trip.step_itinerary. m_unfold.
  rewrite m_start_call_eq. unfold m_try, m_lift, get_results.
  cbn [st_results]. rewrite Hnames, Hjoin, Hslice, Hiter, Hfc, Hask.
  destruct (String.eqb text LLM_UNAVAILABLE);
    erewrite m_end_call_last by reflexivity;
    (eexists; split; [reflexivity |]; split; [reflexivity |];
     eexists; split; [reflexivity |]; now repeat split).
Qed.

(** Step 5 of the market pipeline when the prompt can be built, the gateway
    returns and the fallback text can be built. *)
Lemma step_summary_returns ask country extra_query idx_names currency_name
  joined text fallback st :
  agent_market.idx_names_of (st_results st) = Returned idx_names ->
  py_get (agent_market.result_of "currency_info" (st_results st))
    "currency_name" (VStr "N/A") = Returned currency_name ->
  py_join ", " idx_names = Returned joined ->
  ask (agent_market.summary_prompt country (fmt env currency_name) joined
         extra_query) = Returned text ->
  get_fallback_market_summary env country currency_name idx_names
  = Returned fallback ->
  exists st',
    agent_market.step_summary env ask country extra_query st
    = (Returned tt, st') /\
    st_results st'
    = dict_set "market_summary"
        (VStr (if String.eqb text LLM_UNAVAILABLE then fallback else text))
        (st_results st) /\
    recorded_as "llm_market_summary" st st'.
Proof.
  intros Hidx Hname Hjoin Hask Htext.
  unfold agent_market.step_summary. m_unfold.
  rewrite m_start_call_eq. unfold m_try, m_lift, get_results.
  cbn [st_results]. rewrite Hidx, Hname, Hjoin, Hask.
  destruct (String.eqb text LLM_UNAVAILABLE).
  - rewrite Htext. erewrite m_end_call_last by reflexivity.
    eexists. split; [reflexivity |]. split; [reflexivity |].
    eexists. split; [reflexivity |]. now repeat split.
  - erewrite m_end_call_last by reflexivity.
    eexists. split; [reflexivity |]. split; [reflexivity |].
    eexists. split; [reflexivity |]. now repeat split.
Qed.

Lemma tool_search_flights_value from_city to_city date travelers (g0 : rng) w :
  exists v w',
    tool_search_flights env
      [("from_city", VStr from_city); ("to_city", VStr to_city);
       ("date", VStr date); ("travelers", VInt travelers)] w
    = (Returned v, w') /\
    v = records (fst (search_flights env from_city to_city date travelers g0)).
Proof.
  unfold tool_search_flights, rand_tool. cbn.
  rewrite (search_flights_state_free env from_city to_city date travelers g0
             (w_rng w)).
  destruct (search_flights env from_city to_city date travelers (w_rng w)).
  now eexists _, _.
Qed.

Lemma tool_search_hotels_value city checkin checkout guests (g0 : rng) w :
  exists v w',
    tool_search_hotels env
      [("city", VStr city); ("checkin", VStr checkin);
       ("checkout", VStr checkout); ("guests", VInt guests)] w
    = (Returned v, w') /\
    v = records (fst (search_hotels env city checkin checkout guests g0)).
Proof.
  unfold tool_search_hotels, rand_tool. cbn.
  rewrite (search_hotels_state_free env city checkin checkout guests g0
             (w_rng w)).
  destruct (search_hotels env city checkin checkout guests (w_rng w)).
  now eexists _, _.
Qed.
End ModuleRuns.

Section TripRun.
Context {R : RandomModule}.
Variable env : Env.

Lemma attraction_names_are_strings city :
  exists ss,
    gets_of_dicts "name" (VStr "") (map VDict (get_attractions env city))
    = map VStr ss.
Proof.
  apply fields_are_strings.
  eapply Forall_impl; [apply (proj2 (get_attractions_shape env city)) |].
  intros r (Hn & _). now apply str_at_default.
Qed.

Lemma forecast_descriptions_are_strings city n :
  exists ss,
    gets_of_dicts "description" (VStr "N/A")
      (firstn n (map VDict (get_weather_forecast env city)))
    = map VStr ss.
Proof.
  rewrite firstn_map. apply fields_are_strings, Forall_take.
  eapply Forall_impl;
    [apply (proj1 (proj2 (get_weather_forecast_shape env city))) |].
  intros r (_ & Hd & _). now apply str_at_default.
Qed.

(** A run of the trip pipeline with the registry of the module. *)
Lemma trip_agent_run from_city to_city start_date end_date budget travelers
  preferences (w : World) :
  exists trace w' answer1 names descs answer7,
    ask_gemini env (agent_trip.culture_prompt to_city) = Returned answer1 /\
    gets_of_dicts "name" (VStr "") (map VDict (get_attractions env to_city))
    = map VStr names /\
    gets_of_dicts "description" (VStr "N/A")
      (firstn 3 (map VDict (get_weather_forecast env to_city)))
    = map VStr descs /\
    ask_gemini env
      (agent_trip.itin_prompt from_city to_city start_date end_date budget
         travelers preferences (join ", " names) (join ", " descs))
    = Returned answer7 /\
    run_trip_agent env from_city to_city start_date end_date budget travelers
      preferences w
    = (Returned
         ([("cultural_info",
            VStr (text_or_fallback answer1 (get_fallback_cultural_info to_city)));
           ("current_weather", VDict (get_current_weather env to_city));
           ("forecast", records (get_weather_forecast env to_city));
           ("flights",
            records (fst (search_flights env from_city to_city start_date
                            travelers (w_rng w))));
           ("hotels",
            records (fst (search_hotels env to_city start_date end_date
                            travelers (w_rng w))));
           ("attractions", records (get_attractions env to_city));
           ("itinerary",
            VStr (text_or_fallback answer7
                    (get_fallback_itinerary env to_city from_city start_date
                       end_date travelers budget preferences
                       (map VStr names))));
           ("meta",
            VDict (agent_trip.meta from_city to_city start_date end_date
                     budget travelers preferences))],
          trace), w') /\
    map tool_name (calls trace) = TRIP_STEPS /\
    Forall succeeded (calls trace).
Proof.
  unfold run_trip_agent, agent_trip.run_trip_agent_with, run_pipeline,
    agent_trip.pipeline. m_unfold.
  destruct (ask_gemini_returns env (agent_trip.culture_prompt to_city))
    as [text1 Hask1].
  destruct (step_culture_returns env (ask_gemini env) to_city text1
              (initial_store w) Hask1) as (st1 & E1 & R1 & T1).
  rewrite E1.
  destruct (trip_step_tool_as env (TRIP_TOOL_REGISTRY env) "current_weather"
              "get_current_weather" [("city", VStr to_city)]
              (tool_get_current_weather env)
              (fun v => v = VDict (get_current_weather env to_city)) st1 eq_refl)
    as (v2 & st2 & E2 & -> & R2 & T2).
  { intros w0. now eexists _, _. }
  rewrite E2.
  destruct (trip_step_tool_as env (TRIP_TOOL_REGISTRY env) "forecast"
              "get_weather_forecast" [("city", VStr to_city)]
              (tool_get_weather_forecast env)
              (fun v => v = records (get_weather_forecast env to_city)) st2 eq_refl)
    as (v3 & st3 & E3 & -> & R3 & T3).
  { intros w0. now eexists _, _. }
  rewrite E3.
  destruct (trip_step_tool_as env (TRIP_TOOL_REGISTRY env) "flights"
              "search_flights"
              [("from_city", VStr from_city); ("to_city", VStr to_city);
               ("date", VStr start_date); ("travelers", VInt travelers)]
              (tool_search_flights env)
              (fun v => v = records (fst (search_flights env from_city to_city
                                            start_date travelers (w_rng w))))
              st3 eq_refl)
    as (v4 & st4 & E4 & -> & R4 & T4).
  { intros w0. apply tool_search_flights_value. }
  rewrite E4.
  destruct (trip_step_tool_as env (TRIP_TOOL_REGISTRY env) "hotels"
              "search_hotels"
              [("city", VStr to_city); ("checkin", VStr start_date);
               ("checkout", VStr end_date); ("guests", VInt travelers)]
              (tool_search_hotels env)
              (fun v => v = records (fst (search_hotels env to_city start_date
                                            end_date travelers (w_rng w))))
              st4 eq_refl)
    as (v5 & st5 & E5 & -> & R5 & T5).
  { intros w0. apply tool_search_hotels_value. }
  rewrite E5.
  destruct (trip_step_tool_as env (TRIP_TOOL_REGISTRY env) "attractions"
              "get_attractions" [("city", VStr to_city)]
              (tool_get_attractions env)
              (fun v => v = records (get_attractions env to_city)) st5 eq_refl)
    as (v6 & st6 & E6 & -> & R6 & T6).
  { intros w0. now eexists _, _. }
  rewrite E6.
  fold (text_or_fallback text1 (get_fallback_cultural_info to_city)) in R1.
  set (culture := text_or_fallback text1 (get_fallback_cultural_info to_city))
    in R1.
  assert (st_results st6
          = [("cultural_info", VStr culture);
             ("current_weather", VDict (get_current_weather env to_city));
             ("forecast", records (get_weather_forecast env to_city));
             ("flights",
              records (fst (search_flights env from_city to_city start_date
                              travelers (w_rng w))));
             ("hotels",
              records (fst (search_hotels env to_city start_date end_date
                              travelers (w_rng w))));
             ("attractions", records (get_attractions env to_city))]) as Hres.
  { now rewrite R6, R5, R4, R3, R2, R1. }
  destruct (attraction_names_are_strings to_city) as [names Hnames].
  destruct (forecast_descriptions_are_strings to_city 3) as [descs Hdescs].
  destruct (ask_gemini_returns env
              (agent_trip.itin_prompt from_city to_city start_date end_date
                 budget travelers preferences (join ", " names)
                 (join ", " descs))) as [text7 Hask7].
  edestruct (step_itinerary_returns env (ask_gemini env) from_city to_city
               start_date end_date budget travelers preferences)
    with (st := st6) as (st7 & E7 & R7 & T7).
  { rewrite Hres. unfold agent_trip.attractions_names_of. cbn.
    rewrite Hnames. reflexivity. }
  { apply py_join_strings. }
  { rewrite Hres. reflexivity. }
  { reflexivity. }
  { rewrite Hdescs. apply py_join_strings. }
  { exact Hask7. }
  rewrite E7.
  exists (st_trace st7), (st_world st7), text1, names, descs, text7.
  split; [exact Hask1 |]. split; [exact Hnames |]. split; [exact Hdescs |].
  split; [exact Hask7 |]. split.
  { rewrite R7, Hres. reflexivity. }
  destruct T1 as (c1 & T1 & N1 & S1), T2 as (c2 & T2 & N2 & S2),
    T3 as (c3 & T3 & N3 & S3), T4 as (c4 & T4 & N4 & S4),
    T5 as (c5 & T5 & N5 & S5), T6 as (c6 & T6 & N6 & S6),
    T7 as (c7 & T7 & N7 & S7).
  rewrite T7, T6, T5, T4, T3, T2, T1. cbn.
  split; [now rewrite N1, N2, N3, N4, N5, N6, N7 |].
  repeat (constructor; [assumption |]). constructor.
Qed.
End TripRun.

Section MarketRun.
Context {R : RandomModule}.
Variable env : Env.

Lemma index_names_are_strings country :
  exists ss,
    gets_of_dicts "index_name" (VStr "")
      (map VDict (get_stock_indices env country))
    = map VStr ss.
Proof.
  apply fields_are_strings. unfold get_stock_indices.
  destruct (default [] (table_get _ COUNTRY_INDICES)) as [| i l].
  - repeat constructor. now exists "".
  - apply Forall_forall. intros r [i' [-> _]]%list_elem_of_fmap.
    unfold index_row. destruct (yf_history env _); now eexists.
Qed.

Lemma get_fallback_market_summary_returns country currency_name ss :
  exists text,
    get_fallback_market_summary env country currency_name (map VStr ss)
    = Returned text.
Proof.
  unfold get_fallback_market_summary.
  destruct (table_get _ MARKET_SUMMARIES); [now eexists |].
  destruct ss as [| s ss]; [now eexists |].
  rewrite (py_join_strings ", " (s :: ss)). now eexists.
Qed.

(** A run of the market pipeline with the registry of the module. *)
Lemma market_agent_run country extra_query (w : World) :
  exists trace w' code names answer fallback,
    dict_get "currency_code" (get_currency_info env country)
    = Some (VStr code) /\
    gets_of_dicts "index_name" (VStr "")
      (map VDict (get_stock_indices env country))
    = map VStr names /\
    ask_gemini env
      (agent_market.summary_prompt country
         (fmt env (dict_get_default "currency_name" (VStr "N/A")
                     (get_currency_info env country)))
         (join ", " names) extra_query)
    = Returned answer /\
    get_fallback_market_summary env country
      (dict_get_default "currency_name" (VStr "N/A")
         (get_currency_info env country))
      (map VStr names)
    = Returned fallback /\
    run_market_agent env country extra_query w
    = (Returned
         ([("currency_info", VDict (get_currency_info env country));
           ("fx_rates", VDict (get_fx_rates env code));
           ("exchanges", records (get_exchange_info country));
           ("indices", records (get_stock_indices env country));
           ("market_summary", VStr (text_or_fallback answer fallback));
           ("meta", VDict (agent_market.meta country extra_query))],
          trace), w') /\
    map tool_name (calls trace) = MARKET_STEPS /\
    Forall succeeded (calls trace).
Proof.
  destruct (get_currency_info_shape env country) as (_ & code & Hcode).
  unfold run_market_agent, agent_market.run_market_agent_with, run_pipeline,
    agent_market.pipeline. m_unfold.
  destruct (market_step_tool_as env (MARKET_TOOL_REGISTRY env) "currency_info"
              "get_currency_info" [("country", VStr country)]
              (tool_get_currency_info env)
              (fun v => v = VDict (get_currency_info env country))
              (initial_store w) eq_refl)
    as (v1 & st1 & E1 & -> & R1 & T1).
  { intros w0. now eexists _, _. }
  rewrite E1. unfold get_results, m_lift. rewrite R1.
  cbn [initial_store st_results].
  replace (py_get _ "currency_code" (VStr "USD")) with (Returned (VStr code))
    by (cbn; unfold dict_get_default; now rewrite Hcode).
  destruct (market_step_tool_as env (MARKET_TOOL_REGISTRY env) "fx_rates"
              "get_fx_rates" [("currency_code", VStr code)]
              (tool_get_fx_rates env)
              (fun v => v = VDict (get_fx_rates env code)) st1 eq_refl)
    as (v2 & st2 & E2 & -> & R2 & T2).
  { intros w0. now eexists _, _. }
  rewrite E2.
  destruct (market_step_tool_as env (MARKET_TOOL_REGISTRY env) "exchanges"
              "get_exchange_info" [("country", VStr country)]
              (tool_get_exchange_info)
              (fun v => v = records (get_exchange_info country)) st2 eq_refl)
    as (v3 & st3 & E3 & -> & R3 & T3).
  { intros w0. now eexists _, _. }
  rewrite E3.
  destruct (market_step_tool_as env (MARKET_TOOL_REGISTRY env) "indices"
              "get_stock_indices" [("country", VStr country)]
              (tool_get_stock_indices env)
              (fun v => v = records (get_stock_indices env country)) st3 eq_refl)
    as (v4 & st4 & E4 & -> & R4 & T4).
  { intros w0. now eexists _, _. }
  rewrite E4.
  assert (st_results st4
          = [("currency_info", VDict (get_currency_info env country));
             ("fx_rates", VDict (get_fx_rates env code));
             ("exchanges", records (get_exchange_info country));
             ("indices", records (get_stock_indices env country))]) as Hres.
  { now rewrite R4, R3, R2, R1. }
  destruct (index_names_are_strings country) as [names Hnames].
  set (currency_name := dict_get_default "currency_name" (VStr "N/A")
                          (get_currency_info env country)).
  destruct (ask_gemini_returns env
              (agent_market.summary_prompt country (fmt env currency_name)
                 (join ", " names) extra_query)) as [text Hask].
  destruct (get_fallback_market_summary_returns country currency_name names)
    as [fallback Hfallback].
  edestruct (step_summary_returns env (ask_gemini env) country extra_query)
    with (st := st4) as (st5 & E5 & R5 & T5).
  { rewrite Hres. unfold agent_market.idx_names_of. cbn.
    rewrite Hnames. reflexivity. }
  { rewrite Hres. reflexivity. }
  { apply py_join_strings. }
  { exact Hask. }
  { exact Hfallback. }
  rewrite E5.
  exists (st_trace st5), (st_world st5), code, names, text, fallback.
  split; [exact Hcode |]. split; [exact Hnames |]. split; [exact Hask |].
  split; [exact Hfallback |]. split.
  { rewrite R5, Hres. reflexivity. }
  destruct T1 as (c1 & T1 & N1 & S1), T2 as (c2 & T2 & N2 & S2),
    T3 as (c3 & T3 & N3 & S3), T4 as (c4 & T4 & N4 & S4),
    T5 as (c5 & T5 & N5 & S5).
  rewrite T5, T4, T3, T2, T1. cbn.
  split; [now rewrite N1, N2, N3, N4, N5 |].
  repeat (constructor; [assumption |]). constructor.
Qed.
End MarketRun.

(** ** The sentinel stays inside *)

Lemma long_text_not_sentinel a lit b :
  Nat.ltb (String.length LLM_UNAVAILABLE) (String.length lit) = true ->
  a ++ lit ++ b <> LLM_UNAVAILABLE.
Proof.
  intros Hlen%Nat.ltb_lt Heq. apply (f_equal String.length) in Heq.
  rewrite !str_length_append in Heq. lia.
Qed.

Lemma long_prefix_not_sentinel lit b :
  Nat.ltb (String.length LLM_UNAVAILABLE) (String.length lit) = true ->
  lit ++ b <> LLM_UNAVAILABLE.
Proof.
  intros Hlen%Nat.ltb_lt Heq. apply (f_equal String.length) in Heq.
  rewrite str_length_append in Heq. lia.
Qed.

Lemma table_text_not_sentinel k (t : list (string * string)) text :
  forallb (fun kv => negb (String.eqb (snd kv) LLM_UNAVAILABLE)) t = true ->
  table_get k t = Some text -> text <> LLM_UNAVAILABLE.
Proof.
  intros Ht E.
  pose proof (table_get_forallb (fun s => negb (String.eqb s LLM_UNAVAILABLE))
                k t text Ht E) as H.
  intros ->. now rewrite String.eqb_refl in H.
Qed.

Lemma get_fallback_cultural_info_not_sentinel city :
  get_fallback_cultural_info city <> LLM_UNAVAILABLE.
Proof.
  unfold get_fallback_cultural_info.
  destruct (table_get _ CULTURAL_INFO) as [text |] eqn:E.
  - eapply table_text_not_sentinel; [| exact E]. vm_compute. reflexivity.
  - apply long_text_not_sentinel. reflexivity.
Qed.

Lemma get_fallback_itinerary_not_sentinel env city from_city start_date end_date
  travelers budget preferences attractions :
  get_fallback_itinerary env city from_city start_date end_date travelers
    budget preferences attractions <> LLM_UNAVAILABLE.
Proof.
  unfold get_fallback_itinerary.
  destruct (table_get _ ITINERARIES) as [text |] eqn:E.
  - eapply table_text_not_sentinel; [| exact E]. vm_compute. reflexivity.
  - apply long_prefix_not_sentinel. reflexivity.
Qed.

Lemma get_fallback_market_summary_not_sentinel env country currency_name names
  text :
  get_fallback_market_summary env country currency_name names = Returned text ->
  text <> LLM_UNAVAILABLE.
Proof.
  unfold get_fallback_market_summary.
  destruct (table_get _ MARKET_SUMMARIES) as [t |] eqn:E.
  - intros [= <-]. eapply table_text_not_sentinel; [| exact E].
    vm_compute. reflexivity.
  - destruct (match names with [] => _ | _ => _ end) as [ns | e]; cbn;
      [| discriminate].
    intros [= <-]. apply long_text_not_sentinel. reflexivity.
Qed.

Lemma text_or_fallback_not_sentinel answer fallback :
  fallback <> LLM_UNAVAILABLE ->
  text_or_fallback answer fallback <> LLM_UNAVAILABLE.
Proof.
  intros Hfb. unfold text_or_fallback.
  now destruct (String.eqb_spec answer LLM_UNAVAILABLE).
Qed.

(** ** The exchange records *)

Lemma no_spaceb_app s1 s2 :
  no_spaceb (s1 ++ s2) = no_spaceb s1 && no_spaceb s2.
Proof.
  induction s1 as [| c s1 IH]; [reflexivity |].
  change (negb (Ascii.eqb c " ") && no_spaceb (s1 ++ s2)
          = negb (Ascii.eqb c " ") && no_spaceb s1 && no_spaceb s2).
  now rewrite IH, andb_assoc.
Qed.

Lemma spaces_to_plus_no_space s : no_spaceb (spaces_to_plus s) = true.
Proof.
  unfold spaces_to_plus. induction s as [| c s IH]; [reflexivity |].
  cbn [str_map no_spaceb]. rewrite IH, andb_true_r.
  destruct (Ascii.eqb_spec c " ") as [-> | Hne]; [reflexivity |].
  now destruct (Ascii.eqb_spec c " ").
Qed.

Lemma exchange_recordb_spec r : exchange_recordb r = true -> exchange_record r.
Proof.
  unfold exchange_recordb, exchange_record.
  intros [[H1 H2]%andb_prop H3]%andb_prop.
  split; [now apply str_atb_spec |]. split; [now apply str_atb_spec |].
  destruct (dict_get "maps_link" r) as [[] |]; try discriminate.
  now eexists.
Qed.

Lemma get_exchange_info_shape country :
  get_exchange_info country <> [] /\
  Forall exchange_record (get_exchange_info country).
Proof.
  assert (forall r, exchange_record
                      [("name", VStr (country ++ " Stock Exchange"));
                       ("city", VStr "Unknown");
                       ("maps_link",
                        VStr ("https://www.google.com/maps/search/?api=1&query="
                              ++ spaces_to_plus country ++ "+Stock+Exchange"));
                       ("established", VStr "N/A");
                       ("description", VStr r);
                       ("major_indices", VList []);
                       ("sample", VBool true)]) as Hplace.
  { intros r. split; [now eexists |]. split; [now eexists |].
    eexists. split; [reflexivity |].
    now rewrite !no_spaceb_app, spaces_to_plus_no_space. }
  unfold get_exchange_info.
  destruct (table_get _ EXCHANGES) as [[| x l] |] eqn:E; cbn [default].
  - split; [discriminate |]. repeat constructor; apply Hplace.
  - split; [discriminate |].
    pose proof (table_get_forallb (forallb exchange_recordb) _ EXCHANGES
                  (x :: l) eq_refl E) as H.
    rewrite forallb_forall in H. apply Forall_forall. intros r Hr.
    apply exchange_recordb_spec, H. now apply list_elem_of_In.
  - split; [discriminate |]. repeat constructor; apply Hplace.
Qed.

(** ** The adapters *)

(** X14: [get_attractions] never returns an empty list, and every record
    has a name, a category and a description that are strings and a rating
    that is a float: in the curated table, parsed from the answer of the
    gateway, or generated. *)
Theorem attractions_never_empty (env : Env) (city : string) :
  get_attractions env city <> [] /\
  Forall attraction_record (get_attractions env city).
Proof. apply get_attractions_shape. Qed.

(** X15: [get_weather_forecast] returns at most five rows, each with a date,
    a description, two temperatures and a humidity. *)
Theorem forecast_at_most_five_rows (env : Env) (city : string) :
  (length (get_weather_forecast env city) <= 5)%nat /\
  Forall forecast_row (get_weather_forecast env city).
Proof.
  destruct (get_weather_forecast_shape env city) as (Hlen & Hrows & _).
  now split.
Qed.

(** X16: without a key, or when the request raises, the forecast is exactly
    the five rows of [SAMPLE_FORECAST], each with the flag, true, and a note
    in front of the fields of the table row: the dates Day 1 to Day 5, the
    minima 18, 17, 19, 16, 18, the maxima 25, 24, 26, 23, 24, the
    descriptions and the humidities 50, 55, 48, 70, 52 of the table.  The
    note is SAMPLE DATA without a key, and names the error otherwise. *)
Theorem forecast_falls_back_to_five_samples (env : Env) (city : string) :
  OPENWEATHER_API_KEY env = "" \/
  (exists e, owm_forecast env (OPENWEATHER_API_KEY env) city = Raised e) ->
  let rows := get_weather_forecast env city in
  exists note,
    rows = map (sample_row note) SAMPLE_FORECAST /\
    (OPENWEATHER_API_KEY env = "" -> note = "SAMPLE DATA") /\
    (OPENWEATHER_API_KEY env <> "" ->
     forall e, owm_forecast env (OPENWEATHER_API_KEY env) city = Raised e ->
               note = "SAMPLE DATA - API error: " ++ e) /\
    length rows = 5%nat /\
    map (dict_get "date") rows
    = map (fun d => Some (VStr d)) ["Day 1"; "Day 2"; "Day 3"; "Day 4"; "Day 5"] /\
    map (dict_get "temp_min") rows
    = map (fun z => Some (VInt z)) [18; 17; 19; 16; 18] /\
    map (dict_get "temp_max") rows
    = map (fun z => Some (VInt z)) [25; 24; 26; 23; 24] /\
    map (dict_get "description") rows
    = map (fun d => Some (VStr d))
        ["Sunny"; "Partly cloudy"; "Clear sky"; "Light rain"; "Sunny"] /\
    map (dict_get "humidity") rows
    = map (fun z => Some (VInt z)) [50; 55; 48; 70; 52] /\
    Forall (fun r => has_flag r true /\ dict_get "note" r = Some (VStr note) /\
                     keys r = ["sample"; "note"; "date"; "temp_min"; "temp_max";
                               "description"; "humidity"])
      rows.
Proof.
  intros H rows. subst rows.
  destruct (get_weather_forecast_sample env city H) as (note & -> & Hk & He).
  exists note. split; [reflexivity |]. split; [exact Hk |]. split; [exact He |].
  repeat split; repeat constructor.
Qed.


(** X18: [get_fx_rates] always answers for the base it was asked, with a
    last-update field and rates for exactly USD, INR, GBP and EUR, in that
    order: live, from the fallback table, or all zero. *)
Theorem fx_rates_four_targets (env : Env) (currency_code : string) :
  dict_get "base" (get_fx_rates env currency_code) = Some (VStr currency_code) /\
  dict_has "last_updated" (get_fx_rates env currency_code) = true /\
  exists rates,
    dict_get "rates" (get_fx_rates env currency_code) = Some (VDict rates) /\
    keys rates = ["USD"; "INR"; "GBP"; "EUR"].
Proof. apply get_fx_rates_shape. Qed.



(** X21: [get_exchange_info] never returns an empty list, and every record
    has a name, a city and a map link without a space, the placeholder of an
    unknown country included, whatever the spaces in its name. *)
Theorem exchange_links_have_no_space (country : string) :
  get_exchange_info country <> [] /\
  Forall exchange_record (get_exchange_info country).
Proof. apply get_exchange_info_shape. Qed.

(** ** The two pipelines with the registries of their modules *)

(** X22: whatever the environment (keys, services, generator, clock),
    [run_trip_agent] returns; its trace holds the seven steps in order, all
    with status success and no error: the adapters and the gateway absorb
    every failure of a service. *)
Theorem trip_agent_never_fails {R : RandomModule} (env : Env)
  (from_city to_city start_date end_date budget : string) (travelers : Z)
  (preferences : string) (w : World) :
  exists results trace w',
    run_trip_agent env from_city to_city start_date end_date budget travelers
      preferences w = (Returned (results, trace), w') /\
    map tool_name (calls trace) = TRIP_STEPS /\
    Forall succeeded (calls trace).
Proof.
  destruct (trip_agent_run env from_city to_city start_date end_date budget
              travelers preferences w)
    as (trace & w' & a1 & names & descs & a7 & _ & _ & _ & _ & Hrun & Hn & Hs).
  eexists _, trace, w'. split; [exact Hrun |]. now split.
Qed.

(** X23: the results of [run_trip_agent] have, beside the key trace that
    the embedding returns as the second component, eight keys in the order
    of the steps, and hold what the adapters answer for the arguments of the
    run: weather, forecast and attractions of the destination, flights from
    the origin to the destination on the start date, hotels of the
    destination between the two dates, both for the number of travellers,
    and the arguments themselves under meta. *)
Theorem trip_results_are_the_adapters_answers {R : RandomModule} (env : Env)
  (from_city to_city start_date end_date budget : string) (travelers : Z)
  (preferences : string) (w : World) :
  exists results trace w',
    run_trip_agent env from_city to_city start_date end_date budget travelers
      preferences w = (Returned (results, trace), w') /\
    keys results = TRIP_RESULT_KEYS /\
    dict_get "current_weather" results
    = Some (VDict (get_current_weather env to_city)) /\
    dict_get "forecast" results
    = Some (records (get_weather_forecast env to_city)) /\
    dict_get "flights" results
    = Some (records (fst (search_flights env from_city to_city start_date
                            travelers (w_rng w)))) /\
    dict_get "hotels" results
    = Some (records (fst (search_hotels env to_city start_date end_date
                            travelers (w_rng w)))) /\
    dict_get "attractions" results
    = Some (records (get_attractions env to_city)) /\
    dict_get "meta" results
    = Some (VDict [("from_city", VStr from_city); ("to_city", VStr to_city);
                   ("start_date", VStr start_date); ("end_date", VStr end_date);
                   ("budget", VStr budget); ("travelers", VInt travelers);
                   ("preferences", VStr preferences)]).
Proof.
  destruct (trip_agent_run env from_city to_city start_date end_date budget
              travelers preferences w)
    as (trace & w' & a1 & names & descs & a7 & _ & _ & _ & _ & Hrun & _).
  eexists _, trace, w'. split; [exact Hrun |]. repeat split.
Qed.

(** X24: the two texts of [run_trip_agent].  The cultural paragraph is the
    answer of the gateway to the paragraph prompt; the itinerary is its
    answer to the prompt built from the names of the attractions and the
    descriptions of the first three forecast rows; an answer that is the
    sentinel is replaced by the fallback text for the destination.  Neither
    text in the results is ever the sentinel. *)
Theorem trip_texts_never_the_sentinel {R : RandomModule} (env : Env)
  (from_city to_city start_date end_date budget : string) (travelers : Z)
  (preferences : string) (w : World) :
  exists results trace w' answer1 names descs answer7 culture itinerary,
    run_trip_agent env from_city to_city start_date end_date budget travelers
      preferences w = (Returned (results, trace), w') /\
    ask_gemini env (agent_trip.culture_prompt to_city) = Returned answer1 /\
    gets_of_dicts "name" (VStr "") (map VDict (get_attractions env to_city))
    = map VStr names /\
    gets_of_dicts "description" (VStr "N/A")
      (firstn 3 (map VDict (get_weather_forecast env to_city)))
    = map VStr descs /\
    ask_gemini env
      (agent_trip.itin_prompt from_city to_city start_date end_date budget
         travelers preferences (join ", " names) (join ", " descs))
    = Returned answer7 /\
    culture = text_or_fallback answer1 (get_fallback_cultural_info to_city) /\
    itinerary
    = text_or_fallback answer7
        (get_fallback_itinerary env to_city from_city start_date end_date
           travelers budget preferences (map VStr names)) /\
    dict_get "cultural_info" results = Some (VStr culture) /\
    dict_get "itinerary" results = Some (VStr itinerary) /\
    culture <> LLM_UNAVAILABLE /\ itinerary <> LLM_UNAVAILABLE.
Proof.
  destruct (trip_agent_run env from_city to_city start_date end_date budget
              travelers preferences w)
    as (trace & w' & a1 & names & descs & a7 & H1 & Hn & Hd & H7 & Hrun & _).
  eexists _, trace, w', a1, names, descs, a7, _, _.
  split; [exact Hrun |]. split; [exact H1 |]. split; [exact Hn |].
  split; [exact Hd |]. split; [exact H7 |].
  split; [reflexivity |]. split; [reflexivity |].
  split; [reflexivity |]. split; [reflexivity |].
  split; apply text_or_fallback_not_sentinel.
  - apply get_fallback_cultural_info_not_sentinel.
  - apply get_fallback_itinerary_not_sentinel.
Qed.

(** X25: whatever the environment, [run_market_agent] returns; its trace
    holds the five steps in order, all with status success and no error. *)
Theorem market_agent_never_fails {R : RandomModule} (env : Env)
  (country extra_query : string) (w : World) :
  exists results trace w',
    run_market_agent env country extra_query w
    = (Returned (results, trace), w') /\
    map tool_name (calls trace) = MARKET_STEPS /\
    Forall succeeded (calls trace).
Proof.
  destruct (market_agent_run env country extra_query w)
    as (trace & w' & code & names & a & fb & _ & _ & _ & _ & Hrun & Hn & Hs).
  eexists _, trace, w'. split; [exact Hrun |]. now split.
Qed.

(** X26: the results of [run_market_agent] have, beside the key trace that
    the embedding returns as the second component, six keys in the order of
    the steps; the rates are those of the currency code found by the first
    step, which is a string on every path, so that the default USD of the
    pipeline is never used; the other entries are what the adapters answer
    for the country. *)
Theorem market_rates_follow_the_currency {R : RandomModule} (env : Env)
  (country extra_query : string) (w : World) :
  exists results trace w' code,
    run_market_agent env country extra_query w
    = (Returned (results, trace), w') /\
    keys results = MARKET_RESULT_KEYS /\
    dict_get "currency_info" results
    = Some (VDict (get_currency_info env country)) /\
    dict_get "currency_code" (get_currency_info env country)
    = Some (VStr code) /\
    dict_get "fx_rates" results = Some (VDict (get_fx_rates env code)) /\
    dict_get "base" (get_fx_rates env code) = Some (VStr code) /\
    dict_get "exchanges" results = Some (records (get_exchange_info country)) /\
    dict_get "indices" results
    = Some (records (get_stock_indices env country)) /\
    dict_get "meta" results
    = Some (VDict [("country", VStr country); ("extra_query", VStr extra_query)]).
Proof.
  destruct (market_agent_run env country extra_query w)
    as (trace & w' & code & names & a & fb & Hcode & _ & _ & _ & Hrun & _).
  eexists _, trace, w', code. split; [exact Hrun |].
  split; [reflexivity |]. split; [reflexivity |]. split; [exact Hcode |].
  split; [reflexivity |].
  split; [apply get_fx_rates_shape |]. repeat split.
Qed.

(** X27: the summary of [run_market_agent] is the answer of the gateway to
    the prompt built from the currency name and the index names of the
    earlier steps, or, when that answer is the sentinel, the fallback
    summary for the country; it is never the sentinel. *)
Theorem market_summary_never_the_sentinel {R : RandomModule} (env : Env)
  (country extra_query : string) (w : World) :
  exists results trace w' names answer fallback summary,
    run_market_agent env country extra_query w
    = (Returned (results, trace), w') /\
    gets_of_dicts "index_name" (VStr "")
      (map VDict (get_stock_indices env country))
    = map VStr names /\
    ask_gemini env
      (agent_market.summary_prompt country
         (fmt env (dict_get_default "currency_name" (VStr "N/A")
                     (get_currency_info env country)))
         (join ", " names) extra_query)
    = Returned answer /\
    get_fallback_market_summary env country
      (dict_get_default "currency_name" (VStr "N/A")
         (get_currency_info env country))
      (map VStr names)
    = Returned fallback /\
    summary = text_or_fallback answer fallback /\
    dict_get "market_summary" results = Some (VStr summary) /\
    summary <> LLM_UNAVAILABLE.
Proof.
  destruct (market_agent_run env country extra_query w)
    as (trace & w' & code & names & a & fb & _ & Hn & Ha & Hfb & Hrun & _).
  eexists _, trace, w', names, a, fb, _.
  split; [exact Hrun |]. split; [exact Hn |]. split; [exact Ha |].
  split; [exact Hfb |]. split; [reflexivity |]. split; [reflexivity |].
  apply text_or_fallback_not_sentinel.
  eapply get_fallback_market_summary_not_sentinel, Hfb.
Qed.

(** ** The further properties at concrete inputs *)

(** X1 at a trace of one finished call, ended a second time. *)
Lemma end_call_rewrites_one_record_witness :
  exists t',
    end_call 2 0 (VStr "second") None finished_once = Returned t' /\
    length (calls t') = 1%nat /\
    map tool_name (calls t') = ["get_current_weather"].
Proof.
  eexists. split; [reflexivity |].
  destruct (end_call_rewrites_one_record 2 0 (VStr "second") None finished_once
              _ eq_refl)
    as (k & call & _ & _ & _ & Hlen & _ & Hnames & _).
  split; [exact Hlen | exact Hnames].
Defined.

(** X4 at an environment without any key. *)
Lemma configure_gemini_none_witness :
  configure_gemini offline_env = VNone /\
  ask_gemini offline_env "Hello" = Returned LLM_UNAVAILABLE.
Proof.
  destruct (configure_gemini_none_means_unavailable offline_env) as [H _].
  split; [reflexivity | exact (H eq_refl "Hello")].
Defined.

(** X5 at an environment with a Google key and no Google library. *)
Lemma configure_gemini_ignores_missing_library_witness :
  GROQ_API_KEY keyed_without_library_env = "" /\
  GOOGLE_API_KEY keyed_without_library_env <> "" /\
  HAS_GOOGLE keyed_without_library_env = false /\
  configure_gemini keyed_without_library_env = VBool true /\
  ask_gemini keyed_without_library_env "Hello" = Returned LLM_UNAVAILABLE.
Proof.
  assert (GOOGLE_API_KEY keyed_without_library_env <> "") as Hkey
      by discriminate.
  destruct (configure_gemini_ignores_missing_library keyed_without_library_env
              eq_refl Hkey eq_refl) as [Hc Ha].
  split; [reflexivity |]. split; [exact Hkey |]. split; [reflexivity |].
  split; [exact Hc | exact (Ha "Hello")].
Defined.

(** X6 at an environment in which both backends answer, and at one in which
    only Gemini does. *)
Lemma ask_gemini_prefers_groq_witness :
  ask_gemini answering_env "Hello" = Returned "from groq" /\
  ask_gemini gemini_only_env "Hello" = Returned "from gemini".
Proof.
  split.
  - assert ("from groq" <> "") as Htext by discriminate.
    assert (GROQ_API_KEY answering_env <> "") as Hkey by discriminate.
    destruct (ask_gemini_prefers_groq answering_env "Hello" "from groq" Htext)
      as [H _].
    exact (H Hkey eq_refl).
  - assert ("from gemini" <> "") as Htext by discriminate.
    assert (GOOGLE_API_KEY gemini_only_env <> "") as Hkey by discriminate.
    destruct (ask_gemini_prefers_groq gemini_only_env "Hello" "from gemini"
                Htext) as [_ H].
    exact (H (or_introl (or_introl eq_refl)) eq_refl Hkey eq_refl).
Defined.

(** X12 at a registry whose tool raises without a message: the call is
    recorded with status success. *)
Lemma call_tool_contains_raise_witness :
  exists st' c,
    _call_tool (R := lcg) offline_env silent_registry "get_current_weather"
      [("city", VStr "Tokyo")] (initial_store (@mkWorld lcg 0 0%nat))
    = (Returned (VDict [("error", VStr "")]), st') /\
    calls (st_trace st') = [c] /\
    error c = Some "" /\ status c = "success".
Proof.
  destruct (call_tool_contains_raise (R := lcg) offline_env silent_registry
              (fun _ w => (Raised "", w)) "get_current_weather"
              [("city", VStr "Tokyo")] "" (@mkWorld lcg 0 1%nat)
              (initial_store (@mkWorld lcg 0 0%nat)) eq_refl eq_refl)
    as (st' & Hcall & _ & c & Hc & _ & _ & _ & He & Hs).
  exists st', c. repeat split; assumption.
Defined.

(** X13 at the empty registry. *)
Lemma call_tool_unknown_name_witness :
  exists e st',
    e <> "" /\
    _call_tool (R := lcg) offline_env empty_registry "get_current_weather"
      [("city", VStr "Tokyo")] (initial_store (@mkWorld lcg 0 0%nat))
    = (Returned (VDict [("error", VStr e)]), st') /\
    Exists (fun c => tool_name c = "get_current_weather" /\ status c = "error")
      (calls (st_trace st')).
Proof.
  destruct (call_tool_unknown_name (R := lcg) offline_env empty_registry
              "get_current_weather" [("city", VStr "Tokyo")]
              (initial_store (@mkWorld lcg 0 0%nat)) eq_refl)
    as (e & st' & Hne & Hcall & _ & _ & _ & Hex).
  exists e, st'. repeat split; assumption.
Defined.

(** X16 at an environment without a weather key. *)
Lemma forecast_falls_back_witness :
  OPENWEATHER_API_KEY offline_env = "" /\
  get_weather_forecast offline_env "Tokyo"
  = map (sample_row "SAMPLE DATA") SAMPLE_FORECAST /\
  length (get_weather_forecast offline_env "Tokyo") = 5%nat.
Proof.
  pose proof (forecast_falls_back_to_five_samples offline_env "Tokyo"
                (or_introl eq_refl)) as H.
  cbv zeta in H. destruct H as (note & Hrows & Hnote & _ & Hlen & _).
  split; [reflexivity |]. split; [| exact Hlen].
  rewrite <- (Hnote eq_refl). exact Hrows.
Defined.

